(** * compyute: modules, gradients, losses, callbacks and data loading

    A shallow embedding of the neural-network engine of the repository
    (the [compyute.nn] package and its predecessor [walnut.nn]) together with
    the properties its specification states about it.

    Numbers: the arrays of the program hold floating-point numbers.  Here an
    array element is a rational ([Q]); every float is a rational, sums and
    products are the exact ones, and arrays are compared element by element
    with [Qeq].  Python exceptions are values of [exn]; a method that mutates
    its object takes the object's state and returns the new state next to its
    result. *)

From Stdlib Require Import ZArith QArith List String Bool Lia.
From stdpp Require Import base gmap strings list pretty.
Import ListNotations.

Local Open Scope string_scope.
Local Open Scope list_scope.
Local Open Scope Z_scope.

(* ===================================================================== *)
(** ** Python results *)
(* ===================================================================== *)

Module Py.

(** The exceptions the modelled code raises. *)
Inductive exn : Type :=
| AttributeError (msg : string)
| ValueError (msg : string)
| ShapeError (msg : string)
| KeyError (key : string)
| IndexError (msg : string)
| TypeError (msg : string)
| ZeroDivisionError (msg : string)
| FileNotFoundError (msg : string)
| EOFError (msg : string)
| PicklingError (msg : string).

Inductive result (A : Type) : Type :=
| Ok (a : A)
| Raise (e : exn).
Arguments Ok {A} a.
Arguments Raise {A} e.

Definition bind {A B} (r : result A) (k : A -> result B) : result B :=
  match r with
  | Ok a => k a
  | Raise e => Raise e
  end.

Definition rmap {A B} (f : A -> B) (r : result A) : result B :=
  bind r (fun a => Ok (f a)).

Definition is_ok {A} (r : result A) : bool :=
  match r with Ok _ => true | Raise _ => false end.

(** The text an exception carries (what [str(e)] shows). *)
Definition message (e : exn) : string :=
  match e with
  | AttributeError m | ValueError m | ShapeError m | IndexError m
  | TypeError m | ZeroDivisionError m | FileNotFoundError m | EOFError m
  | PicklingError m => m
  | KeyError k => "'" +:+ k +:+ "'"
  end.

(** [names msg key]: the text [msg] contains [key]. *)
Definition names (msg key : string) : Prop :=
  exists pre post : string, msg = pre +:+ key +:+ post.

End Py.
Import Py.

Notation "'try' x ':=' r 'in' k" := (Py.bind r (fun x => k))
  (at level 10, x name, r at level 100, k at level 200, only parsing).

(* ===================================================================== *)
(** ** Tensors (base_tensor, engine) *)
(* ===================================================================== *)

Module Tensors.

Inductive Device : Type := CPU | CUDA.

Definition Device_eqb (a b : Device) : bool :=
  match a, b with
  | CPU, CPU | CUDA, CUDA => true
  | _, _ => false
  end.

Inductive Dtype : Type := FLOAT16 | FLOAT32 | FLOAT64 | INT32 | INT64.

(** The array a tensor wraps ([t.data]): its shape, its entries in
    row-major order, its element type and the device whose memory holds
    it. *)
Record Array : Type :=
  mkArray { shape : list nat;
            elems : list Q;
            dtype : Dtype;
            device : Device }.

(** Modelled from the spec: the Tensor class of base_tensor is not under
    src/.  A Value is "an n-dimensional array with shape, element type, and
    device tag" with an optional gradient slot ([t.grad], absent or the
    array of a gradient). *)
Record Tensor : Type :=
  mkTensor { data : Array; grad : option Array }.

Definition prod_shape (s : list nat) : nat := fold_right Nat.mul 1%nat s.

Definition a_size (a : Array) : nat := prod_shape (shape a).
Definition a_well_formed (a : Array) : Prop :=
  List.length (elems a) = a_size a.

Definition a_to_device (d : Device) (a : Array) : Array :=
  mkArray (shape a) (elems a) (dtype a) d.
Definition a_as_type (d : Dtype) (a : Array) : Array :=
  mkArray (shape a) (elems a) d (device a).

Definition t_shape (t : Tensor) : list nat := shape (data t).
Definition ndim (t : Tensor) : nat := List.length (t_shape t).
(** [t.size]: the number of entries. *)
Definition size (t : Tensor) : nat := a_size (data t).
Definition t_device (t : Tensor) : Device := device (data t).

(** A tensor over an array, without gradient. *)
Definition of_array (a : Array) : Tensor := mkTensor a None.

(** [t.grad = g] and [t.data = a]. *)
Definition set_grad (g : option Array) (t : Tensor) : Tensor :=
  mkTensor (data t) g.
Definition set_data (a : Array) (t : Tensor) : Tensor :=
  mkTensor a (grad t).

(** [t.copy()]: a tensor with the same contents; values are immutable
    here, so the copy is the value itself. *)
Definition copy (t : Tensor) : Tensor := t.

(** [t.as_type(d)]: a new tensor over the converted array. *)
Definition as_type (d : Dtype) (t : Tensor) : Tensor :=
  of_array (a_as_type d (data t)).

(** [t.to_device(d)]: the array and the gradient move. *)
Definition to_device (d : Device) (t : Tensor) : Tensor :=
  mkTensor (a_to_device d (data t)) (option_map (a_to_device d) (grad t)).

(** A fresh float32 tensor on the CPU. *)
Definition tensor (s : list nat) (e : list Q) : Tensor :=
  of_array (mkArray s e FLOAT32 CPU).

Definition full (s : list nat) (q : Q) : Tensor :=
  tensor s (repeat q (prod_shape s)).
Definition ones (s : list nat) : Tensor := full s 1%Q.
Definition zeros (s : list nat) : Tensor := full s 0%Q.

(** Two arrays hold the same numbers: same shape, entries equal as
    rationals. *)
Definition same_array (a b : Array) : Prop :=
  shape a = shape b /\ Forall2 Qeq (elems a) (elems b).

(** *** reshape *)

Definition prodZ (s : list Z) : Z := fold_right Z.mul 1 s.

Definition is_unknown (d : Z) : bool := d =? -1.

(** Modelled from the spec: [reshape] of tensor_functions.reshaping is not
    under src/; it is numpy's reshape.  A target shape may hold one [-1],
    which stands for the dimension that makes the sizes agree; otherwise
    the product of the target shape must be the number of entries. *)
Definition resolve_shape (n : Z) (s : list Z) : result (list nat) :=
  if existsb (fun d => d <? -1) s
  then Raise (ValueError "negative dimensions not allowed")
  else
    match List.length (List.filter is_unknown s) with
    | O =>
        if prodZ s =? n then Ok (List.map Z.to_nat s)
        else Raise (ValueError "cannot reshape array into shape")
    | S O =>
        let known := prodZ (List.filter (fun d => negb (is_unknown d)) s) in
        if (known =? 0) || negb (n mod known =? 0)
        then Raise (ValueError "cannot reshape array into shape")
        else Ok (List.map (fun d => if is_unknown d then Z.to_nat (n / known)
                                    else Z.to_nat d) s)
    | _ => Raise (ValueError "can only specify one unknown dimension")
    end.

Definition reshape (x : Tensor) (s : list Z) : result Tensor :=
  try s' := resolve_shape (Z.of_nat (size x)) s in
  Ok (of_array (mkArray s' (elems (data x)) (dtype (data x))
                        (device (data x)))).

Definition shape_as_target (s : list nat) : list Z := List.map Z.of_nat s.

End Tensors.
Import Tensors.

(* ===================================================================== *)
(** ** Parameters and buffers (nn/parameter) *)
(* ===================================================================== *)

Module Params.

(** Modelled from the spec: the Parameter and Buffer classes of
    nn/parameter are not under src/.  A Parameter is "a named Value plus a
    GradientSlot plus a requires_grad flag"; its GradientSlot is the [grad]
    of its tensor.  A Buffer is "a named Value with no gradient". *)
Record Param : Type :=
  mkParameter { p_tensor : Tensor; requires_grad : bool; p_label : string }.

Record Buffer : Type :=
  mkBuffer { b_tensor : Tensor; b_label : string }.

Definition p_grad (p : Param) : option Array := grad (p_tensor p).

(** [p.grad = g]. *)
Definition p_set_grad (g : option Array) (p : Param) : Param :=
  mkParameter (set_grad g (p_tensor p)) (requires_grad p) (p_label p).

(** [p.requires_grad = v]. *)
Definition p_set_requires_grad (v : bool) (p : Param) : Param :=
  mkParameter (p_tensor p) v (p_label p).

(** [p.to_device(d)], [b.to_device(d)]. *)
Definition p_to_device (d : Device) (p : Param) : Param :=
  mkParameter (to_device d (p_tensor p)) (requires_grad p) (p_label p).

Definition b_to_device (d : Device) (b : Buffer) : Buffer :=
  mkBuffer (to_device d (b_tensor b)) (b_label b).

(** The value held in a slot of a module object. *)
Inductive Attr : Type :=
| AParameter (p : Param)
| ABuffer (b : Buffer)
| AInt (z : Z)
| AFloat (q : Q)
| AShape (s : list Z)
| ADtype (d : Dtype)
| ANone.

(** The slots a module class declares in [__slots__], in declaration
    order, with the value each holds. *)
Definition Attrs : Type := list (string * Attr).

(** [getattr(self, a)]. *)
Fixpoint getattr (a : string) (s : Attrs) : result Attr :=
  match s with
  | [] => Raise (AttributeError a)
  | (k, v) :: s' => if String.eqb k a then Ok v else getattr a s'
  end.

(** [setattr(self, a, v)] on a declared slot. *)
Fixpoint setattr (a : string) (v : Attr) (s : Attrs) : Attrs :=
  match s with
  | [] => []
  | (k, w) :: s' =>
      if String.eqb k a then (k, v) :: s' else (k, w) :: setattr a v s'
  end.

(** [(getattr(self, a) for a in self.__slots__
      if isinstance(getattr(self, a), Parameter))]. *)
Fixpoint slot_parameters (s : Attrs) : list Param :=
  match s with
  | [] => []
  | (_, AParameter p) :: s' => p :: slot_parameters s'
  | _ :: s' => slot_parameters s'
  end.

Fixpoint slot_buffers (s : Attrs) : list Buffer :=
  match s with
  | [] => []
  | (_, ABuffer b) :: s' => b :: slot_buffers s'
  | _ :: s' => slot_buffers s'
  end.

(** A loop [for p in self.parameters: <mutate p>]: the Parameter objects
    in the slots are mutated in place. *)
Definition for_parameters (f : Param -> Param) (s : Attrs) : Attrs :=
  List.map (fun kv => match kv with
                      | (k, AParameter p) => (k, AParameter (f p))
                      | _ => kv
                      end) s.

Definition for_buffers (f : Buffer -> Buffer) (s : Attrs) : Attrs :=
  List.map (fun kv => match kv with
                      | (k, ABuffer b) => (k, ABuffer (f b))
                      | _ => kv
                      end) s.

End Params.
Import Params.

(* ===================================================================== *)
(** ** The module base class (nn/modules/module.py) *)
(* ===================================================================== *)

Module Modules.

(** The closure stored in [self._backward].  A closure built by [forward]
    keeps the local values it captured and reaches the module's slots
    through [self]: it is a function of the output gradient and of the
    slots as they are when it runs, and gives back the slots as it leaves
    them. *)
Definition Continuation : Type :=
  Tensor -> Attrs -> result (option Tensor) * Attrs.

(** The object state of a [Module]: the base class slots, and [slots] for
    those of the concrete class. *)
Record NNModule : Type :=
  mkModule { y : option Tensor;
             _backward : option Continuation;
             label : string;
             _device : Device;
             _retain_values : bool;
             _training : bool;
             _trainable : bool;
             slots : Attrs }.

Definition set_y_field (v : option Tensor) (m : NNModule) : NNModule :=
  mkModule v (_backward m) (label m) (_device m) (_retain_values m)
           (_training m) (_trainable m) (slots m).

Definition set_backward_field (k : option Continuation) (m : NNModule)
  : NNModule :=
  mkModule (y m) k (label m) (_device m) (_retain_values m)
           (_training m) (_trainable m) (slots m).

Definition set_device_field (d : Device) (m : NNModule) : NNModule :=
  mkModule (y m) (_backward m) (label m) d (_retain_values m)
           (_training m) (_trainable m) (slots m).

Definition set_slots (s : Attrs) (m : NNModule) : NNModule :=
  mkModule (y m) (_backward m) (label m) (_device m) (_retain_values m)
           (_training m) (_trainable m) s.

(** [Module.__init__(label, training)]; [cls] is [self.__class__.__name__]
    and [s] the slots the subclass constructor fills. *)
Definition __init__ (cls : string) (lbl : option string) (training : bool)
           (s : Attrs) : NNModule :=
  mkModule None None (match lbl with Some l => l | None => cls end)
           CPU false training true s.

Definition training (m : NNModule) : bool := _training m.
Definition parameters (m : NNModule) : list Param :=
  slot_parameters (slots m).
Definition buffers (m : NNModule) : list Buffer := slot_buffers (slots m).

Definition set_retain_values (v : bool) (m : NNModule) : NNModule :=
  mkModule (y m) (_backward m) (label m) (_device m) v
           (_training m) (_trainable m) (slots m).

Definition set_training (v : bool) (m : NNModule) : NNModule :=
  mkModule (y m) (_backward m) (label m) (_device m) (_retain_values m)
           v (_trainable m) (slots m).

Definition set_trainable (v : bool) (m : NNModule) : NNModule :=
  if Bool.eqb (_trainable m) v then m
  else
    mkModule (y m) (_backward m) (label m) (_device m) (_retain_values m)
             (_training m) v
             (for_parameters (p_set_requires_grad v) (slots m)).

(** Modelled from the spec: [_check_device_availability] of engine is not
    under src/; [to_device] "fails if d is unavailable in the current
    environment".  The CPU is always there; [cuda] tells whether the
    accelerator is. *)
Definition _check_device_availability (cuda : bool) (d : Device)
  : result unit :=
  match d with
  | CPU => Ok tt
  | CUDA => if cuda then Ok tt
            else Raise (AttributeError "device is not available")
  end.

Definition to_device (cuda : bool) (d : Device) (m : NNModule)
  : result unit * NNModule :=
  if Device_eqb d (_device m) then (Ok tt, m)
  else
    match _check_device_availability cuda d with
    | Raise e => (Raise e, m)
    | Ok _ =>
        let m1 := set_device_field d m in
        let m2 := set_y_field (option_map (Tensors.to_device d) (y m1)) m1 in
        let m3 := set_slots (for_buffers (b_to_device d) (slots m2)) m2 in
        let m4 := set_slots (for_parameters (p_to_device d) (slots m3)) m3 in
        (Ok tt, m4)
    end.

(** [Module.forward]: the base class returns its input. *)
Definition forward (x : Tensor) (m : NNModule) : result Tensor * NNModule :=
  (Ok x, m).

Definition _set_y (v : Tensor) (m : NNModule) : NNModule :=
  if _retain_values m then
    match y m with
    | None => set_y_field (Some (copy v)) m
    | Some old => set_y_field (Some (set_data (data (copy v)) old)) m
    end
  else m.

Definition _set_dy (dy : Tensor) (m : NNModule) : NNModule :=
  match _retain_values m, y m with
  | true, Some old =>
      set_y_field (Some (set_grad (Some (data (copy dy))) old)) m
  | _, _ => m
  end.

(** [Module.__call__], for the [forward] of the concrete class. *)
Definition __call__
           (fwd : Tensor -> NNModule -> result Tensor * NNModule)
           (x : Tensor) (m : NNModule) : result Tensor * NNModule :=
  match fwd x m with
  | (Ok v, m1) => (Ok v, _set_y v m1)
  | (Raise e, m1) => (Raise e, m1)
  end.

Definition backward (dy : Tensor) (m : NNModule)
  : result (option Tensor) * NNModule :=
  if negb (training m)
  then (Raise (AttributeError (label m +:+ " is not in training mode.")), m)
  else
    let m1 := _set_dy dy m in
    match _backward m1 with
    | Some k => let '(r, s) := k dy (slots m1) in (r, set_slots s m1)
    | None => (Ok (Some dy), m1)
    end.

Definition reset (m : NNModule) : NNModule :=
  let m1 := set_y_field None m in
  let m2 := set_backward_field None m1 in
  set_slots (for_parameters (p_set_grad None) (slots m2)) m2.

Definition join_dims (ds : list nat) : string :=
  String.concat ", " (List.map (fun d => pretty d) ds).

Definition _check_dims (x : Tensor) (valid_dims : list nat) (m : NNModule)
  : result unit :=
  if existsb (Nat.eqb (ndim x)) valid_dims then Ok tt
  else Raise (ShapeError
                (label m +:+ ": Number of input dimensions "
                 +:+ pretty (ndim x) +:+ " is not valid (valid: "
                 +:+ join_dims valid_dims +:+ ")")).

End Modules.
Import Modules.

(* ===================================================================== *)
(** ** Saving and loading (save_module, load_module) *)
(* ===================================================================== *)

Module Persistence.

Section Pickle.

(** The pickle library: what [pickle.dump] writes for an object graph
    and what [pickle.load] builds from it.  [empty_file] is the content
    of a file that was opened for writing and not written. *)
Variable blob : Type.
Variable empty_file : blob.
Variable pickle_dump : NNModule -> result blob.
Variable pickle_load : blob -> result NNModule.

(** [save_module(module, filepath)], on the files [fs]. *)
Definition save_module (cuda : bool) (m : NNModule) (filepath : string)
           (fs : gmap string blob)
  : result unit * NNModule * gmap string blob :=
  match to_device cuda CPU m with
  | (Raise e, m1) => (Raise e, m1, fs)
  | (Ok _, m1) =>
      let m2 := reset m1 in
      match pickle_dump m2 with
      | Ok b => (Ok tt, m2, <[filepath := b]> fs)
      | Raise e => (Raise e, m2, <[filepath := empty_file]> fs)
      end
  end.

(** [load_module(filepath)]. *)
Definition load_module (filepath : string) (fs : gmap string blob)
  : result NNModule :=
  match fs !! filepath with
  | None => Raise (FileNotFoundError filepath)
  | Some b => pickle_load b
  end.

(** Pickle round trip: an object graph without closures is written, and
    read back as it was (a function defined inside another one, as every
    stored continuation is, cannot be pickled). *)
Definition pickle_round_trip : Prop :=
  forall m : NNModule,
    _backward m = None ->
    exists b : blob, pickle_dump m = Ok b /\ pickle_load b = Ok m.

End Pickle.

(** An instance of the pickle interface: the blob is the object graph;
    an empty file holds none. *)
Definition graph_dump (m : NNModule) : result (option NNModule) :=
  match _backward m with
  | None => Ok (Some m)
  | Some _ => Raise (PicklingError "Can't pickle local object")
  end.
Definition graph_load (b : option NNModule) : result NNModule :=
  match b with
  | Some m => Ok m
  | None => Raise (EOFError "Ran out of input")
  end.

End Persistence.
Import Persistence.

(* ===================================================================== *)
(** ** Reshaping modules (nn/modules/reshape.py) *)
(* ===================================================================== *)

Module Reshaping.

(** [Reshape.__init__(output_shape, label, training)]. *)
Definition Reshape__init__ (output_shape : list Z) (lbl : option string)
           (training : bool) : NNModule :=
  __init__ "Reshape" lbl training [("output_shape", AShape output_shape)].

(** The closure [lambda dy: reshape(dy, shape=x.shape)]. *)
Definition reshape_back (x : Tensor) : Continuation :=
  fun dy s => (rmap Some (reshape dy (shape_as_target (t_shape x))), s).

(** [Reshape.forward]. *)
Definition Reshape_forward (x : Tensor) (m : NNModule)
  : result Tensor * NNModule :=
  match t_shape x with
  | [] => (Raise (IndexError "tuple index out of range"), m)
  | d0 :: _ =>
      match getattr "output_shape" (slots m) with
      | Raise e => (Raise e, m)
      | Ok (AShape output_shape) =>
          match reshape x (Z.of_nat d0 :: output_shape) with
          | Raise e => (Raise e, m)
          | Ok v =>
              (Ok v,
               if training m
               then set_backward_field (Some (reshape_back x)) m
               else m)
          end
      | Ok _ => (Raise (TypeError "can only concatenate tuple to tuple"), m)
      end
  end.

(** [Flatten(label, training)] and [Flatten.forward]. *)
Definition Flatten__init__ (lbl : option string) (training : bool)
  : NNModule :=
  __init__ "Flatten" lbl training [].

Definition Flatten_forward (x : Tensor) (m : NNModule)
  : result Tensor * NNModule :=
  match t_shape x with
  | [] => (Raise (IndexError "tuple index out of range"), m)
  | d0 :: _ =>
      match reshape x [Z.of_nat d0; -1] with
      | Raise e => (Raise e, m)
      | Ok v =>
          (Ok v,
           if training m
           then set_backward_field (Some (reshape_back x)) m
           else m)
      end
  end.

(** *** Sequences of calls on one module object *)

Inductive Op : Type :=
| OForward (x : Tensor)
| OBackward (dy : Tensor)
| OReset
| OSetTraining (v : bool).

(** What the calls so far were: [last_forward] is the mode of the most
    recent [forward] that returned since the object was built or reset,
    [trained] tells whether one of them ran in training mode. *)
Record History : Type :=
  mkHistory { last_forward : option bool; trained : bool }.

Definition no_history : History := mkHistory None false.

(** The most recent forward call ran in training mode. *)
Definition last_in_training (h : History) : bool :=
  match last_forward h with
  | Some true => true
  | _ => false
  end.

(** A backward continuation is stored. *)
Definition has_continuation (m : NNModule) : bool :=
  match _backward m with
  | Some _ => true
  | None => false
  end.

Definition step (fwd : Tensor -> NNModule -> result Tensor * NNModule)
           (st : NNModule * History) (op : Op) : NNModule * History :=
  let '(m, h) := st in
  match op with
  | OForward x =>
      match __call__ fwd x m with
      | (Ok _, m1) =>
          (m1, mkHistory (Some (training m)) (trained h || training m))
      | (Raise _, m1) => (m1, h)
      end
  | OBackward dy => (snd (backward dy m), h)
  | OReset => (reset m, no_history)
  | OSetTraining v => (set_training v m, h)
  end.

Definition run (fwd : Tensor -> NNModule -> result Tensor * NNModule)
           (m : NNModule) (ops : list Op) : NNModule * History :=
  fold_left (step fwd) ops (m, no_history).

End Reshaping.
Import Reshaping.

(* ===================================================================== *)
(** ** Normalization modules (nn/modules/normalization.py) *)
(* ===================================================================== *)

Module Normalization.

(** Entry-wise sum of two arrays of one shape; the left one gives the
    element type and the device, as for [a += b]. *)
Fixpoint add_elems (a b : list Q) : list Q :=
  match a, b with
  | x :: a', z :: b' => (x + z)%Q :: add_elems a' b'
  | _, _ => []
  end.

Definition a_add (a b : Array) : Array :=
  mkArray (shape a) (add_elems (elems a) (elems b)) (dtype a) (device a).

(** Modelled from the spec: [slot += dw] on a GradientSlot goes through the
    operators of the Tensor class, which is not under src/.  The gradient
    is "accumulated additively if the slot already holds a value ..., or
    set if empty", and "writing a gradient of mismatched shape is a
    contract violation (surfaced as an error ...)". *)
Definition grad_iadd (slot : option Array) (dw : Tensor)
  : result (option Array) :=
  match slot with
  | None => Ok (Some (data dw))
  | Some g =>
      if bool_decide (shape g = t_shape dw) then Ok (Some (a_add g (data dw)))
      else Raise (ShapeError "gradient shape does not match")
  end.

(** [self.<a>.grad += dw] for the Parameter in slot [a]. *)
Definition iadd_parameter_grad (a : string) (dw : Tensor) (s : Attrs)
  : result Attrs :=
  match getattr a s with
  | Raise e => Raise e
  | Ok (AParameter p) =>
      match grad_iadd (p_grad p) dw with
      | Raise e => Raise e
      | Ok g => Ok (setattr a (AParameter (p_set_grad g p)) s)
      end
  | Ok _ => Raise (AttributeError "grad")
  end.

Definition get_parameter (a : string) (s : Attrs) : result Param :=
  match getattr a s with
  | Raise e => Raise e
  | Ok (AParameter p) => Ok p
  | Ok _ => Raise (TypeError a)
  end.

Definition get_buffer (a : string) (s : Attrs) : result Buffer :=
  match getattr a s with
  | Raise e => Raise e
  | Ok (ABuffer b) => Ok b
  | Ok _ => Raise (TypeError a)
  end.

Definition get_float (a : string) (s : Attrs) : result Q :=
  match getattr a s with
  | Raise e => Raise e
  | Ok (AFloat q) => Ok q
  | Ok _ => Raise (TypeError a)
  end.

Definition get_dtype (a : string) (s : Attrs) : result Dtype :=
  match getattr a s with
  | Raise e => Raise e
  | Ok (ADtype d) => Ok d
  | Ok _ => Raise (TypeError a)
  end.

(** What the functional hands back for the backward pass: from the output
    gradient, the input gradient and the gradients of [w] and [b]. *)
Definition GradFunc : Type := Tensor -> Tensor * option Tensor * option Tensor.

(** [Batchnorm1d.__init__(channels, eps, m, dtype, label, training)]. *)
Definition Batchnorm1d__init__ (channels : nat) (eps m : Q) (dt : Dtype)
           (lbl : option string) (training : bool) : NNModule :=
  __init__ "Batchnorm1d" lbl training
    [("channels", AInt (Z.of_nat channels));
     ("eps", AFloat eps);
     ("m", AFloat m);
     ("dtype", ADtype dt);
     ("w", AParameter (mkParameter (as_type dt (ones [channels])) true "bn1d_w"));
     ("b", AParameter (mkParameter (as_type dt (zeros [channels])) true "bn1d_b"));
     ("rmean", ABuffer (mkBuffer (as_type dt (zeros [channels])) "bn1d_rmean"));
     ("rvar", ABuffer (mkBuffer (as_type dt (ones [channels])) "bn1d_rvar"))].

Section Functional.

(** The functional [batchnorm1d] of nn/functional/normalizatons is not
    under src/: it is taken as given.  Of the parameters [w] and [b] it
    reads the arrays.  It returns the output, the new running mean and
    variance, and the gradient function, if any. *)
Variable batchnorm1d :
  Tensor -> Buffer -> Buffer -> Array -> Array -> Q -> Q -> bool ->
  Tensor * Buffer * Buffer * option GradFunc.

(** The closure [_backward] that [Batchnorm1d.forward] builds around
    [grad_func]. *)
Definition Batchnorm1d_backward (grad_func : GradFunc) : Continuation :=
  fun dy s =>
    match get_dtype "dtype" s with
    | Raise e => (Raise e, s)
    | Ok dt =>
        let dy := as_type dt dy in
        let '(dx, dw, db) := grad_func dy in
        match (match dw with
               | Some dw => iadd_parameter_grad "w" dw s
               | None => Ok s
               end) with
        | Raise e => (Raise e, s)
        | Ok s1 =>
            match (match db with
                   | Some db => iadd_parameter_grad "b" db s1
                   | None => Ok s1
                   end) with
            | Raise e => (Raise e, s1)
            | Ok s2 => (Ok (Some dx), s2)
            end
        end
    end.

(** The arguments [forward] reads from the slots. *)
Definition Batchnorm1d_args (s : Attrs)
  : result (Dtype * Buffer * Buffer * Param * Param * Q * Q) :=
  try dt := get_dtype "dtype" s in
  try rmean := get_buffer "rmean" s in
  try rvar := get_buffer "rvar" s in
  try w := get_parameter "w" s in
  try b := get_parameter "b" s in
  try m := get_float "m" s in
  try eps := get_float "eps" s in
  Ok (dt, rmean, rvar, w, b, m, eps).

(** [Batchnorm1d.forward]. *)
Definition Batchnorm1d_forward (x : Tensor) (md : NNModule)
  : result Tensor * NNModule :=
  match _check_dims x [2%nat; 3%nat] md with
  | Raise e => (Raise e, md)
  | Ok _ =>
      match Batchnorm1d_args (slots md) with
      | Raise e => (Raise e, md)
      | Ok (dt, rmean, rvar, w, b, m, eps) =>
          let x := as_type dt x in
          let '(v, rmean', rvar', grad_func) :=
            batchnorm1d x rmean rvar (data (p_tensor w)) (data (p_tensor b))
                        m eps (_training md) in
          let md1 :=
            set_slots (setattr "rvar" (ABuffer rvar')
                         (setattr "rmean" (ABuffer rmean') (slots md))) md in
          (Ok v,
           match _training md, grad_func with
           | true, Some gf =>
               set_backward_field (Some (Batchnorm1d_backward gf)) md1
           | _, _ => md1
           end)
      end
  end.

(** One pass: a call of the module and, if it returns, [backward]. *)
Definition pass (x dy : Tensor) (md : NNModule)
  : result (option Tensor) * NNModule :=
  match __call__ Batchnorm1d_forward x md with
  | (Ok _, md1) => backward dy md1
  | (Raise e, md1) => (Raise e, md1)
  end.

(** In training mode the functional returns a gradient function. *)
Definition gives_gradient_when_training : Prop :=
  forall x rmean rvar w b m eps,
    snd (batchnorm1d x rmean rvar w b m eps true) <> None.

End Functional.

(** The GradientSlot of the Parameter in slot [a]. *)
Definition grad_of (a : string) (md : NNModule) : option Array :=
  match getattr a (slots md) with
  | Ok (AParameter p) => p_grad p
  | _ => None
  end.

(** The sum of two gradients, either of which may be absent. *)
Definition grad_sum (g h : option Array) : option Array :=
  match g, h with
  | Some a, Some b => Some (a_add a b)
  | Some a, None => Some a
  | None, h => h
  end.

(** A functional to run the module with: the output is the input, the
    running statistics stay, and the gradients of [w] and [b] are the
    first [channels] entries of the output gradient. *)
Definition first_entries (n : nat) (t : Tensor) : Tensor :=
  of_array (mkArray [n] (firstn n (elems (data t))) (dtype (data t))
                    (device (data t))).

Definition sample_batchnorm1d (x : Tensor) (rmean rvar : Buffer)
           (w b : Array) (m eps : Q) (training : bool)
  : Tensor * Buffer * Buffer * option GradFunc :=
  (x, rmean, rvar,
   if training
   then Some (fun dy => (dy, Some (first_entries (a_size w) dy),
                         Some (first_entries (a_size b) dy)))
   else None).

End Normalization.
Import Normalization.

(* ===================================================================== *)
(** ** The fully connected layer of walnut (walnut/nn/layers/parameter.py) *)
(* ===================================================================== *)

Module Walnut.

(** A numpy array of rank 2: [nrows] rows of [ncols] numbers.  The layer
    is embedded for inputs and output gradients of rank 2, the shape
    [(b, c_in)] its comments give. *)
Record Matrix : Type :=
  mkMatrix { nrows : nat; ncols : nat; entries : list (list Q) }.

Definition mat_well_formed (a : Matrix) : Prop :=
  List.length (entries a) = nrows a /\
  Forall (fun r => List.length r = ncols a) (entries a).

(** Same shape, and entries equal as rationals. *)
Definition mat_eq (a b : Matrix) : Prop :=
  nrows a = nrows b /\ ncols a = ncols b /\
  Forall2 (Forall2 Qeq) (entries a) (entries b).

Definition option_mat_eq (a b : option Matrix) : Prop :=
  match a, b with
  | Some a, Some b => mat_eq a b
  | None, None => True
  | _, _ => False
  end.

Definition mat_full (n k : nat) (q : Q) : Matrix :=
  mkMatrix n k (repeat (repeat q k) n).
Definition mat_ones (n k : nat) : Matrix := mat_full n k 1%Q.

Fixpoint dot (u v : list Q) : Q :=
  match u, v with
  | x :: u', z :: v' => (x * z + dot u' v')%Q
  | _, _ => 0%Q
  end.

(** Column [j] of the rows [rs]. *)
Definition column (rs : list (list Q)) (j : nat) : list Q :=
  List.map (fun r => nth j r 0%Q) rs.

Definition columns (a : Matrix) : list (list Q) :=
  List.map (column (entries a)) (seq 0 (ncols a)).

(** [a.T]. *)
Definition transpose (a : Matrix) : Matrix :=
  mkMatrix (ncols a) (nrows a) (columns a).

(** [a @ b] for two arrays of rank 2; numpy raises a ValueError when the
    inner dimensions differ. *)
Definition matmul (a b : Matrix) : result Matrix :=
  if Nat.eqb (ncols a) (nrows b)
  then Ok (mkMatrix (nrows a) (ncols b)
                    (List.map (fun r => List.map (dot r) (columns b))
                              (entries a)))
  else Raise (ValueError "matmul: mismatch in core dimension").

Fixpoint add_rows (u v : list Q) : list Q :=
  match u, v with
  | x :: u', z :: v' => (x + z)%Q :: add_rows u' v'
  | _, _ => []
  end.

(** [a + b] for two arrays of one shape. *)
Definition mat_add (a b : Matrix) : Matrix :=
  mkMatrix (nrows a) (ncols a)
           (List.map (fun rs => add_rows (fst rs) (snd rs))
                     (combine (entries a) (entries b))).

(** [y += b] for a vector [b]: the vector is added to every row. *)
Definition add_bias (v : Matrix) (b : list Q) : result Matrix :=
  if Nat.eqb (List.length b) (ncols v)
  then Ok (mkMatrix (nrows v) (ncols v)
                    (List.map (fun r => add_rows r b) (entries v)))
  else Raise (ValueError "operands could not be broadcast together").

(** [np.sum(a, axis=(0,))]: the sums of the columns. *)
Definition sum_axis0 (a : Matrix) : list Q :=
  List.map (fun c => fold_right Qplus 0%Q c) (columns a).

(** [x.ndim] of an array of rank 2. *)
Definition mat_ndim (a : Matrix) : Z := 2.

(** [tuple(d if d < dim - 2 else 2 * dim - d - 3 for d in range(dim))]. *)
Definition w_ax (dim : Z) : list Z :=
  List.map (fun d => if d <? dim - 2 then d else 2 * dim - d - 3)
           (List.map Z.of_nat (seq 0 (Z.to_nat dim))).

(** [a.transpose(axes)] for an array of rank 2. *)
Definition transpose_axes (axes : list Z) (a : Matrix) : result Matrix :=
  match List.map (fun d => if d <? 0 then d + 2 else d) axes with
  | [0; 1] => Ok a
  | [1; 0] => Ok (transpose a)
  | _ => Raise (ValueError "axes don't match array")
  end.

(** The weight tensor and the bias tensor with their gradients. *)
Record WTensor : Type := mkWTensor { wdata : Matrix; wgrad : option Matrix }.
Record BTensor : Type := mkBTensor { bdata : list Q; bgrad : option (list Q) }.

Section Layer.

(** The base class of walnut (walnut/nn/module.py) is not under src/:
    what [set_y] and [set_y_grad] keep is a state [Y] of its own. *)
Variable Y : Type.
Variable set_y : Matrix -> Y -> Y.
Variable set_y_grad : Matrix -> Y -> Y.

(** What the closure reaches through [self]. *)
Record LinearCore : Type :=
  mkCore { w : WTensor; b : option BTensor; use_bias : bool; kept : Y }.

Definition Closure : Type :=
  Matrix -> LinearCore -> result Matrix * LinearCore.

Record Linear : Type :=
  mkLinear { core : LinearCore;
             training : bool;
             backward : option Closure }.

(** [Linear.__init__(in_channels, out_channels, weights, use_bias)];
    [drawn] stands for the random matrix [tu.randu] would draw, and
    [training] and [kept] for what the base class constructor sets. *)
Definition Linear__init__ (in_channels out_channels : nat)
           (weights : option WTensor) (use_bias : bool)
           (drawn : Matrix) (training : bool) (kept : Y) : Linear :=
  mkLinear
    (mkCore (match weights with
             | Some wt => wt
             | None => mkWTensor drawn None
             end)
            (if use_bias
             then Some (mkBTensor (repeat 0%Q out_channels) None)
             else None)
            use_bias kept)
    training None.

(** The closure [backward] built by [Linear.__call__] for the input [x]
    of rank 2: [dim] is 2, [w_ax] is [(1, 0)] and the sum over the
    leading axes, made when [dim > 2], is not. *)
Definition Linear_backward (x : Matrix) : Closure :=
  fun y_grad c =>
    let dim := mat_ndim x in
    match matmul y_grad (transpose (wdata (w c))) with
    | Raise e => (Raise e, c)
    | Ok x_grad =>
        match (try xt := transpose_axes (w_ax dim) x in matmul xt y_grad) with
        | Raise e => (Raise e, c)
        | Ok g =>
            let c1 := mkCore (mkWTensor (wdata (w c)) (Some g))
                             (b c) (use_bias c) (kept c) in
            if use_bias c1 then
              match b c1 with
              | None => (Raise (AttributeError "b"), c1)
              | Some bt =>
                  let c2 :=
                    mkCore (w c1)
                           (Some (mkBTensor (bdata bt)
                                            (Some (sum_axis0 y_grad))))
                           (use_bias c1) (kept c1) in
                  (Ok x_grad,
                   mkCore (w c2) (b c2) (use_bias c2)
                          (set_y_grad y_grad (kept c2)))
              end
            else
              (Ok x_grad,
               mkCore (w c1) (b c1) (use_bias c1)
                      (set_y_grad y_grad (kept c1)))
        end
    end.

(** [Linear.__call__]. *)
Definition Linear__call__ (x : Matrix) (l : Linear)
  : result Matrix * Linear :=
  let c := core l in
  match matmul x (wdata (w c)) with
  | Raise e => (Raise e, l)
  | Ok v =>
      match (if use_bias c
             then match b c with
                  | None => Raise (AttributeError "b")
                  | Some bt => add_bias v (bdata bt)
                  end
             else Ok v) with
      | Raise e => (Raise e, l)
      | Ok v =>
          let bw := if training l then Some (Linear_backward x)
                    else backward l in
          (Ok v,
           mkLinear (mkCore (w c) (b c) (use_bias c) (set_y v (kept c)))
                    (training l) bw)
      end
  end.

(** Calling the stored closure: [self.backward(y_grad)]. *)
Definition call_backward (y_grad : Matrix) (l : Linear)
  : result Matrix * Linear :=
  match backward l with
  | None => (Raise (TypeError "'NoneType' object is not callable"), l)
  | Some k =>
      let '(r, c) := k y_grad (core l) in
      (r, mkLinear c (training l) (backward l))
  end.

(** [self.w.grad]. *)
Definition weight_grad (l : Linear) : option Matrix := wgrad (w (core l)).

(** A call followed by the closure it stored. *)
Definition forward_backward (x y_grad : Matrix) (l : Linear) : Linear :=
  snd (call_backward y_grad (snd (Linear__call__ x l))).

End Layer.

Arguments mkCore {Y} w b use_bias kept.
Arguments w {Y} l.
Arguments b {Y} l.
Arguments use_bias {Y} l.
Arguments kept {Y} l.
Arguments mkLinear {Y} core training backward.
Arguments core {Y} l.
Arguments training {Y} l.
Arguments backward {Y} l.
Arguments Linear__init__ {Y} in_channels out_channels weights use_bias
          drawn training kept.
Arguments Linear_backward {Y} set_y_grad x.
Arguments Linear__call__ {Y} set_y set_y_grad x l.
Arguments call_backward {Y} y_grad l.
Arguments weight_grad {Y} l.
Arguments forward_backward {Y} set_y set_y_grad x y_grad l.

(** The sum of two gradients, either of which may be absent. *)
Definition mat_grad_sum (g h : option Matrix) : option Matrix :=
  match g, h with
  | Some a, Some b => Some (mat_add a b)
  | Some a, None => Some a
  | None, h => h
  end.

End Walnut.

(* ===================================================================== *)
(** ** Loss functions (nn/functional/losses.py) *)
(* ===================================================================== *)

Module Losses.

(** Modelled from the spec: FunctionCache and PseudoCache of
    nn/functional/functions are not under src/.  "Two variants: a recording
    cache (training) and a null cache (inference) that silently discards
    writes"; the recording cache maps names to values. *)
Inductive Cache : Type :=
| FunctionCache (fields : gmap string Tensor)
| PseudoCache.

(** [cache.<k> = v]. *)
Definition cache_set (k : string) (v : Tensor) (c : Cache) : Cache :=
  match c with
  | FunctionCache f => FunctionCache (<[k := v]> f)
  | PseudoCache => PseudoCache
  end.

(** [cache.<k>]. *)
Definition cache_get (k : string) (c : Cache) : result Tensor :=
  match c with
  | FunctionCache f =>
      match f !! k with
      | Some v => Ok v
      | None => Raise (AttributeError k)
      end
  | PseudoCache => Raise (AttributeError k)
  end.

Definition sumQ (l : list Q) : Q := fold_right Qplus 0%Q l.

Fixpoint sub_elems (a b : list Q) : list Q :=
  match a, b with
  | x :: a', z :: b' => (x - z)%Q :: sub_elems a' b'
  | _, _ => []
  end.

(** Modelled from the spec: the arithmetic of the Tensor class and [mean]
    of tensor_ops.transforming are not under src/.  The operations work
    entry by entry on tensors of one shape; a shape the operation does not
    support "fails immediately".  The result is a new tensor. *)
Definition t_sub (a b : Tensor) : result Tensor :=
  if bool_decide (t_shape a = t_shape b)
  then Ok (of_array (mkArray (t_shape a)
                             (sub_elems (elems (data a)) (elems (data b)))
                             (dtype (data a)) (device (data a))))
  else Raise (ShapeError "operands could not be broadcast together").

Definition t_map (f : Q -> Q) (a : Tensor) : Tensor :=
  of_array (mkArray (t_shape a) (List.map f (elems (data a)))
                    (dtype (data a)) (device (data a))).

(** [a ** 2], [a * q] and [a / q]. *)
Definition t_square (a : Tensor) : Tensor := t_map (fun x => x * x)%Q a.
Definition t_mul_scalar (a : Tensor) (q : Q) : Tensor :=
  t_map (fun x => x * q)%Q a.
Definition t_div_scalar (a : Tensor) (q : Q) : Tensor :=
  t_map (fun x => x / q)%Q a.

(** [float(n)]. *)
Definition float_of_nat (n : nat) : Q := inject_Z (Z.of_nat n).

(** [mean(a)]: a tensor of rank 0 holding the sum of the entries over
    their number. *)
Definition mean (a : Tensor) : Tensor :=
  of_array (mkArray [] [(sumQ (elems (data a)) / float_of_nat (size a))%Q]
                    (dtype (data a)) (device (data a))).

(** The number a tensor of rank 0 holds. *)
Definition item (a : Tensor) : Q := hd 0%Q (elems (data a)).

(** [FMeanSquaredError.forward(cache, y_pred, y_true)]. *)
Definition FMeanSquaredError_forward (cache : Cache) (y_pred y_true : Tensor)
  : result (Tensor * Cache) :=
  try dif := t_sub y_pred y_true in
  let cache := cache_set "y_pred" y_pred cache in
  let cache := cache_set "dif" dif cache in
  Ok (mean (t_square dif), cache).

(** [FMeanSquaredError.backward(cache)]. *)
Definition FMeanSquaredError_backward (cache : Cache) : result Tensor :=
  try dif := cache_get "dif" cache in
  let scaled := t_mul_scalar dif 2 in
  try y_pred := cache_get "y_pred" cache in
  Ok (t_div_scalar scaled (float_of_nat (size y_pred))).

(** [mean_squared_error(y_pred, y_true)]. *)
Definition mean_squared_error (y_pred y_true : Tensor) : result Tensor :=
  rmap fst (FMeanSquaredError_forward PseudoCache y_pred y_true).

(** The gradient as the specification writes it:
    [2 * (y_pred - y_true) / size(y_pred)], entry by entry. *)
Fixpoint spec_gradient_elems (n : Q) (p t : list Q) : list Q :=
  match p, t with
  | x :: p', z :: t' => (2 * (x - z) / n)%Q :: spec_gradient_elems n p' t'
  | _, _ => []
  end.

Definition spec_gradient (y_pred y_true : Tensor) : Array :=
  mkArray (t_shape y_pred)
          (spec_gradient_elems (float_of_nat (size y_pred))
                               (elems (data y_pred)) (elems (data y_true)))
          (dtype (data y_pred)) (device (data y_pred)).

(** [y_pred] moved by [h], entry by entry. *)
Definition moved (h : list Q) (a : Tensor) : Tensor :=
  of_array (mkArray (t_shape a) (add_elems (elems (data a)) h)
                    (dtype (data a)) (device (data a))).

(** The sum of the products of the entries of two lists. *)
Fixpoint inner (a b : list Q) : Q :=
  match a, b with
  | x :: a', z :: b' => (x * z + inner a' b')%Q
  | _, _ => 0%Q
  end.

(** The loss value [FMeanSquaredError.forward] returns. *)
Definition loss_value (y_pred y_true : Tensor) : Q :=
  match FMeanSquaredError_forward (FunctionCache ∅) y_pred y_true with
  | Ok (l, _) => item l
  | Raise _ => 0%Q
  end.

End Losses.
Import Losses.

(* ===================================================================== *)
(** ** Metrics (nn/metrics.py) *)
(* ===================================================================== *)

Module Metrics.

(** An instance of a metric class: the two of the module, or one of a
    class of the caller's. *)
Inductive Metric : Type :=
| Accuracy
| R2
| UserMetric (cls : string).

(** [_MetricLike = Metric | Literal["accuracy", "r2"]]; a literal is a
    string at run time. *)
Inductive MetricLike : Type :=
| AnInstance (m : Metric)
| AName (name : string).

(** [METRICS = {"accuracy": Accuracy, "r2": R2}]; calling the class builds
    the instance. *)
Definition METRICS : gmap string Metric :=
  <["accuracy" := Accuracy]> (<["r2" := R2]> ∅).

(** [get_metric_function(metric)]. *)
Definition get_metric_function (metric : MetricLike) : result Metric :=
  match metric with
  | AnInstance m => Ok m
  | AName name =>
      match METRICS !! name with
      | None =>
          Raise (ValueError ("Unknown metric function: " +:+ name +:+ "."))
      | Some cls => Ok cls
      end
  end.

End Metrics.
Import Metrics.

(* ===================================================================== *)
(** ** Early stopping (nn/trainer/callbacks/early_stopping.py) *)
(* ===================================================================== *)

Module EarlyStop.

(** A float: a number, or [float("inf")]. *)
Inductive Float : Type :=
| Finite (q : Q)
| Infinity.

Definition Qltb (a b : Q) : bool := negb (Qle_bool b a).

(** [a < best] and [a > best] for a number [a]. *)
Definition below (a : Q) (best : Float) : bool :=
  match best with
  | Finite q => Qltb a q
  | Infinity => true
  end.

Definition above (a : Q) (best : Float) : bool :=
  match best with
  | Finite q => Qltb q a
  | Infinity => false
  end.

(** What the trainer keeps under a name in [trainer.state]. *)
Inductive StateValue : Type :=
| AScalar (q : Q)
| AHistory (l : list Q).

(** Modelled from the spec: the Trainer class is not under src/.  A
    callback "reads trainer-held scalar/sequence state by name (e.g.,
    per-epoch loss history), may read and snapshot parameters(), may write
    back into parameter Values ..., and may set a trainer-level abort
    flag". *)
Record Trainer : Type :=
  mkTrainer { state : gmap string StateValue;
              model_parameters : list Param;
              abort : bool }.

(** The callback object; [best_loss] and [best_params] are the entries of
    its [state] dictionary, the second one absent until it is written. *)
Record EarlyStopping : Type :=
  mkEarlyStopping { patience : Z;
                    use_best_params : bool;
                    target : string;
                    best_loss : Float;
                    best_params : option (list Param) }.

(** [EarlyStopping.__init__(patience, use_best_params, target)]. *)
Definition EarlyStopping__init__ (patience : Z) (use_best_params : bool)
           (target : string) : EarlyStopping :=
  mkEarlyStopping patience use_best_params target Infinity None.

(** The first lines of [on_epoch]: the check of [self.target] and the read
    of [trainer.state[f"epoch_{self.target}"]]. *)
Definition read_history (cb : EarlyStopping) (tr : Trainer)
  : result StateValue :=
  match state tr !! target cb with
  | None => Raise (ValueError (target cb +:+ " not found in trainer state."))
  | Some _ =>
      match state tr !! ("epoch_" +:+ target cb) with
      | None => Raise (KeyError ("epoch_" +:+ target cb))
      | Some v => Ok v
      end
  end.

(** [hist[-i]] for [1 <= i]. *)
Definition from_end (hist : list Q) (i : nat) : result Q :=
  match nth_error (rev hist) (i - 1) with
  | Some q => Ok q
  | None => Raise (IndexError "list index out of range")
  end.

(** [p.data = best.data]. *)
Definition take_data (best p : Param) : Param :=
  mkParameter (set_data (data (p_tensor best)) (p_tensor p))
              (requires_grad p) (p_label p).

(** [for i, p in enumerate(trainer.model.parameters):
       p.data = self.state["best_params"][i].data]. *)
Fixpoint restore (ps best : list Param) : result unit * list Param :=
  match ps, best with
  | [], _ => (Ok tt, [])
  | p :: ps', [] => (Raise (IndexError "list index out of range"), p :: ps')
  | p :: ps', q :: best' =>
      let '(r, ps'') := restore ps' best' in (r, take_data q p :: ps'')
  end.

(** [all([hist[-i] > best_loss for i in range(1, patience + 1)])], for a
    history longer than [patience]. *)
Definition no_improvement (hist : list Q) (best : Float) (patience : Z)
  : bool :=
  forallb (fun q => above q best) (firstn (Z.to_nat patience) (rev hist)).

(** The rest of [on_epoch], for the history [hist] read from the
    trainer.  What [print] writes is left out. *)
Definition on_epoch_with (hist : list Q) (cb : EarlyStopping) (tr : Trainer)
  : result unit * EarlyStopping * Trainer :=
  let best := best_loss cb in
  match from_end hist 1 with
  | Raise e => (Raise e, cb, tr)
  | Ok last =>
      let cb :=
        if below last best
        then mkEarlyStopping
               (patience cb) (use_best_params cb) (target cb) (Finite last)
               (if use_best_params cb
                then Some (model_parameters tr)
                else best_params cb)
        else cb in
      if Z.of_nat (List.length hist) <=? patience cb then (Ok tt, cb, tr)
      else if no_improvement hist best (patience cb) then
        if use_best_params cb then
          match best_params cb with
          | None => (Raise (KeyError "best_params"), cb, tr)
          | Some saved =>
              match restore (model_parameters tr) saved with
              | (Raise e, ps) =>
                  (Raise e, cb, mkTrainer (state tr) ps (abort tr))
              | (Ok _, ps) => (Ok tt, cb, mkTrainer (state tr) ps true)
              end
          end
        else (Ok tt, cb, mkTrainer (state tr) (model_parameters tr) true)
      else (Ok tt, cb, tr)
  end.

(** [EarlyStopping.on_epoch(trainer)]. *)
Definition on_epoch (cb : EarlyStopping) (tr : Trainer)
  : result unit * EarlyStopping * Trainer :=
  match read_history cb tr with
  | Raise e => (Raise e, cb, tr)
  | Ok (AHistory hist) => on_epoch_with hist cb tr
  | Ok (AScalar _) =>
      (Raise (TypeError "'float' object is not subscriptable"), cb, tr)
  end.

(** *** A training loop that drives the callback *)

(** What one epoch of training leaves: its loss and the parameters as the
    optimizer updated them. *)
Record Epoch : Type := mkEpoch { e_loss : Q; e_params : list Param }.

(** The trainer after an epoch of training, before the callback runs: the
    loss is appended to the history kept under ["epoch_loss"]. *)
Definition after_training (e : Epoch) (tr : Trainer) : Trainer :=
  let hist := match state tr !! "epoch_loss" with
              | Some (AHistory h) => h
              | _ => []
              end in
  mkTrainer (<["epoch_loss" := AHistory (hist ++ [e_loss e])]>
               (<["loss" := AScalar (e_loss e)]> (state tr)))
            (e_params e) (abort tr).

(** The callback and the trainer after each epoch, the callback being
    called once per epoch; training ends when the callback raises or sets
    the abort flag. *)
Fixpoint drive (cb : EarlyStopping) (tr : Trainer) (epochs : list Epoch)
  : list (result unit * EarlyStopping * Trainer) :=
  match epochs with
  | [] => []
  | e :: rest =>
      let '(r, cb', tr') := on_epoch cb (after_training e tr) in
      (r, cb', tr')
        :: (if is_ok r && negb (abort tr') then drive cb' tr' rest else [])
  end.

Definition new_trainer : Trainer := mkTrainer ∅ [] false.

End EarlyStop.
Import EarlyStop.

(* ===================================================================== *)
(** ** Data loading (nn/dataloaders.py) *)
(* ===================================================================== *)

Module DataLoaders.

(** [l[lo:hi]] for Python integers: a negative bound counts from the end,
    and bounds are clamped to the list. *)
Definition clamp (n i : Z) : Z :=
  if i <? 0 then Z.max (i + n) 0 else Z.min i n.

Definition slice {T : Type} (l : list T) (lo hi : Z) : list T :=
  let n := Z.of_nat (List.length l) in
  let lo' := clamp n lo in
  let hi' := clamp n hi in
  firstn (Z.to_nat (hi' - lo')) (skipn (Z.to_nat lo') l).

(** [l[lo:]]. *)
Definition slice_from {T : Type} (l : list T) (lo : Z) : list T :=
  slice l lo (Z.of_nat (List.length l)).

(** [l[idx]] for a list of indices. *)
Definition take_indices {T : Type} (l : list T) (idx : list nat) : list T :=
  omap (fun i => nth_error l i) idx.

Section Loader.

(** A tensor is the list of its samples along the first axis; [A] is a
    sample of [x] and [B] a sample of [y]. *)
Variables A B : Type.

(** [shuffle] of random is not under src/: [draw n] is the order it
    draws for [n] samples. *)
Variable draw : nat -> list nat.

Record DataLoader : Type :=
  mkDataLoader { x : list A;
                 y : option (list B);
                 batch_size : Z;
                 device : Device;
                 drop_remaining : bool;
                 shuffle : bool }.

(** A batch, on the device it was sent to. *)
Record Batch (T : Type) : Type :=
  mkBatch { samples : list T; on_device : Device }.
Arguments mkBatch {T} samples on_device.
Arguments samples {T} b.

(** [DataLoader.__len__]. *)
Definition __len__ (dl : DataLoader) : result Z :=
  if batch_size dl =? 0
  then Raise (ZeroDivisionError "integer division or modulo by zero")
  else Ok (Z.max 1 (Z.of_nat (List.length (x dl)) / batch_size dl)).

(** [range(k)]. *)
Definition range (k : Z) : list Z :=
  List.map Z.of_nat (seq 0 (Z.to_nat k)).

(** [DataLoader.__call__]: the loader as the call leaves it and the
    batches the generator yields, in order. *)
Definition __call__ (dl : DataLoader)
  : result (list (Batch A * option (Batch B))) * DataLoader :=
  let n := Z.of_nat (List.length (x dl)) in
  match __len__ dl with
  | Raise e => (Raise e, dl)
  | Ok n_steps =>
      let b := Z.min (batch_size dl) n in
      let n_trunc := n_steps * b in
      let dl :=
        if shuffle dl then
          let idx := draw (List.length (x dl)) in
          mkDataLoader (take_indices (x dl) idx)
                       (option_map (fun ys => take_indices ys idx) (y dl))
                       (batch_size dl) (device dl) (drop_remaining dl)
                       (shuffle dl)
        else dl in
      let send {T} (l : list T) := mkBatch l (device dl) in
      (Ok
         (match y dl with
          | None =>
              List.map (fun i => (send (slice (x dl) (i * b) ((i + 1) * b)),
                                  None))
                       (range n_steps)
              ++ (if negb (drop_remaining dl) && (n_trunc <? n)
                  then [(send (slice_from (x dl) n_trunc), None)]
                  else [])
          | Some ys =>
              List.map (fun i => (send (slice (x dl) (i * b) ((i + 1) * b)),
                                  Some (send (slice ys (i * b) ((i + 1) * b)))))
                       (range n_steps)
              ++ (if negb (drop_remaining dl) && (n_trunc <? n)
                  then [(send (slice_from (x dl) n_trunc),
                         Some (send (slice_from ys n_trunc)))]
                  else [])
          end),
       dl)
  end.

(** The samples of [x] in the batches, batch by batch. *)
Definition x_batches (bs : list (Batch A * option (Batch B)))
  : list (list A) :=
  List.map (fun p => samples (fst p)) bs.

(** The samples of [y] in the batches. *)
Definition y_batches (bs : list (Batch A * option (Batch B)))
  : list (option (list B)) :=
  List.map (fun p => option_map samples (snd p)) bs.

End Loader.

Arguments mkDataLoader {A B} x y batch_size device drop_remaining shuffle.
Arguments x {A B} d.
Arguments y {A B} d.
Arguments batch_size {A B} d.
Arguments drop_remaining {A B} d.
Arguments shuffle {A B} d.
Arguments __len__ {A B} dl.
Arguments __call__ {A B} draw dl.
Arguments x_batches {A B} bs.
Arguments y_batches {A B} bs.

(** The batches the specification describes for a tensor [l] that goes
    with [n] samples: [k] chunks of [b] samples each, in order, and then
    the samples left, if any of the [n] are and they are not dropped. *)
Definition chunk {T : Type} (b : nat) (l : list T) (i : nat) : list T :=
  firstn b (skipn (i * b) l).

Definition spec_batches {T : Type} (n k b : nat) (keep_rest : bool)
           (l : list T) : list (list T) :=
  List.map (chunk b l) (seq 0 k)
  ++ (if keep_rest && (k * b <? n)%nat then [skipn (k * b) l] else []).

End DataLoaders.

(* ===================================================================== *)
(** ** Sample objects *)
(* ===================================================================== *)

(** A Flatten in training mode that was never called, and a gradient. *)
Definition fresh_flatten : NNModule := Flatten__init__ None true.
Definition gradient_2x3 : Tensor := ones [2%nat; 3%nat].

(** Train, call, switch to inference, call again. *)
Definition train_then_infer : list Op :=
  [OSetTraining true; OForward (ones [2%nat; 2%nat; 3%nat]);
   OSetTraining false; OForward (ones [2%nat; 2%nat; 3%nat])].

(** A Batchnorm1d over two channels in training mode, and a batch of three
    samples. *)
Definition sample_batchnorm : NNModule :=
  Batchnorm1d__init__ 2 (1 # 100000) (1 # 10) FLOAT32 None true.
Definition batch_3x2 : Tensor := ones [3%nat; 2%nat].

(** A fully connected layer with one input, one output, the weight 1 and no
    bias, in training mode; the base class keeps nothing. *)
Definition keep_nothing (v : Walnut.Matrix) (u : unit) : unit := u.
Definition one_by_one : Walnut.Matrix := Walnut.mat_ones 1 1.
Definition unit_linear : Walnut.Linear unit :=
  Walnut.Linear__init__ 1 1 (Some (Walnut.mkWTensor one_by_one None)) false
                        one_by_one true tt.

(* ===================================================================== *)
(** ** What a saved module keeps *)
(* ===================================================================== *)

(** Every tensor the module owns is in the memory of the module's device:
    the state the constructor builds and [to_device] keeps. *)
Definition on_own_device (m : NNModule) : Prop :=
  Forall (fun p => t_device (p_tensor p) = _device m) (parameters m) /\
  Forall (fun b => t_device (b_tensor b) = _device m) (buffers m).

(** The label, shape, element type, values and flag of a Parameter, and the
    label, shape, element type and values of a Buffer. *)
Definition param_content (p : Param)
  : string * list nat * Dtype * list Q * bool :=
  (p_label p, t_shape (p_tensor p), dtype (data (p_tensor p)),
   elems (data (p_tensor p)), requires_grad p).

Definition buffer_content (b : Buffer) : string * list nat * Dtype * list Q :=
  (b_label b, t_shape (b_tensor b), dtype (data (b_tensor b)),
   elems (data (b_tensor b))).

(** A Batchnorm1d in training mode that holds a continuation and
    gradients. *)
Definition trained_batchnorm : NNModule :=
  snd (pass sample_batchnorm1d batch_3x2 batch_3x2 sample_batchnorm).

(* ===================================================================== *)
(** ** The early-stopping scenario *)
(* ===================================================================== *)

(** Five epochs with the losses 1.0, 0.9, 0.95, 0.97 and 0.99; [ps k] are
    the parameters the optimizer leaves in epoch [k]. *)
Definition loss_history : list Q := [1; 9 # 10; 95 # 100; 97 # 100; 99 # 100]%Q.

Definition five_epochs (p1 p2 p3 p4 p5 : list Param) : list Epoch :=
  [mkEpoch 1 p1; mkEpoch (9 # 10) p2; mkEpoch (95 # 100) p3;
   mkEpoch (97 # 100) p4; mkEpoch (99 # 100) p5].

(** The history the trainer keeps under ["epoch_loss"]. *)
Definition history_of (tr : Trainer) : list Q :=
  match state tr !! "epoch_loss" with
  | Some (AHistory h) => h
  | _ => []
  end.

(** The arrays of a list of parameters. *)
Definition arrays_of (ps : list Param) : list Array :=
  List.map (fun p => data (p_tensor p)) ps.

(** One parameter with the value [q]. *)
Definition one_parameter (q : Q) : list Param :=
  [mkParameter (tensor [1%nat] [q]) true "w"].

(* ===================================================================== *)
(** ** Predicates of the proofs *)
(* ===================================================================== *)

(** What the invariant needs of a [forward]: it keeps the mode, stores a
    continuation when it returns in training mode, and otherwise leaves the
    stored one alone. *)
Definition stores_when_training
           (fwd : Tensor -> NNModule -> result Tensor * NNModule) : Prop :=
  forall (x : Tensor) (m : NNModule),
    _training (snd (fwd x m)) = _training m /\
    ((is_ok (fst (fwd x m)) && training m = true
      /\ has_continuation (snd (fwd x m)) = true) \/
     (is_ok (fst (fwd x m)) && training m = false
      /\ _backward (snd (fwd x m)) = _backward m)).


(** What holds of a module and the history of its calls. *)
Definition continuation_invariant (st : NNModule * History) : Prop :=
  has_continuation (fst st) = trained (snd st) /\
  (last_in_training (snd st) = true -> trained (snd st) = true).


(** What a loop over the parameters does to one attribute. *)
Definition attr_for_parameter (f : Param -> Param) (v : Attr) : Attr :=
  match v with
  | AParameter p => AParameter (f p)
  | _ => v
  end.


(** The gradient of the Parameter in slot [a] of the slots [s]. *)
Definition grad_in (a : string) (s : Attrs) : option Array :=
  match getattr a s with
  | Ok (AParameter p) => p_grad p
  | _ => None
  end.


(** Two slot lists that differ in gradients only. *)
Definition same_but_grads (s t : Attrs) : Prop :=
  for_parameters (p_set_grad None) s = for_parameters (p_set_grad None) t.


(** The slots a Batchnorm1d forward call leaves. *)
Definition with_statistics (rmean rvar : Buffer) (s : Attrs) : Attrs :=
  setattr "rvar" (ABuffer rvar) (setattr "rmean" (ABuffer rmean) s).


(* ===================================================================== *)
(** ** Sample loaders *)
(* ===================================================================== *)

(** No shuffling is drawn. *)
Definition no_draw (n : nat) : list nat := [].

(** Five samples with their targets, in batches of two. *)
Definition five_samples : DataLoaders.DataLoader nat bool :=
  DataLoaders.mkDataLoader [1; 2; 3; 4; 5]%nat (Some [true; false; true; false; true])
               2 CPU false false.

(** One sample and the batch size 0. *)
Definition zero_batch_size : DataLoaders.DataLoader nat bool :=
  DataLoaders.mkDataLoader [7%nat] None 0 CPU false false.

(* ===================================================================== *)
(** ** Predicates on modules *)
(* ===================================================================== *)

(** The module, its retained output, its parameters and their gradients and
    its buffers are all in the memory of the device [d]. *)
Definition tensor_on (d : Device) (t : Tensor) : Prop :=
  t_device t = d /\ (forall g, grad t = Some g -> device g = d).

Definition all_on (d : Device) (m : NNModule) : Prop :=
  _device m = d /\
  (forall t, y m = Some t -> tensor_on d t) /\
  Forall (fun p => tensor_on d (p_tensor p)) (parameters m) /\
  Forall (fun b => tensor_on d (b_tensor b)) (buffers m).

(** The label and the tensor of a Parameter up to the device: what no
    operation of the base class changes but [reset], which clears the
    gradient. *)
Definition array_content (a : Array) : list nat * Dtype * list Q :=
  (shape a, dtype a, elems a).

Definition param_record (p : Param)
  : string * (list nat * Dtype * list Q) * option (list nat * Dtype * list Q)
    * bool :=
  (p_label p, array_content (data (p_tensor p)),
   option_map array_content (p_grad p), requires_grad p).

(** A module with one parameter that does not require a gradient; its
    trainable flag is set, as the constructor leaves it. *)
Definition frozen_parameter : Param :=
  mkParameter (ones [2%nat]) false "w".
Definition module_with_frozen_parameter : NNModule :=
  __init__ "Module" None false [("w", AParameter frozen_parameter)].

(* ===================================================================== *)
(** ** Batchnorm2d and Layernorm (nn/modules/normalization.py) *)
(* ===================================================================== *)

Module NormalizationLayers.

(** [Batchnorm2d.__init__(channels, eps, m, dtype, label, training)]. *)
Definition Batchnorm2d__init__ (channels : nat) (eps m : Q) (dt : Dtype)
           (lbl : option string) (training : bool) : NNModule :=
  __init__ "Batchnorm2d" lbl training
    [("channels", AInt (Z.of_nat channels));
     ("eps", AFloat eps);
     ("m", AFloat m);
     ("dtype", ADtype dt);
     ("w", AParameter (mkParameter (as_type dt (ones [channels])) true "bn2d_w"));
     ("b", AParameter (mkParameter (as_type dt (zeros [channels])) true "bn2d_b"));
     ("rmean", ABuffer (mkBuffer (as_type dt (zeros [channels])) "bn2d_rmean"));
     ("rvar", ABuffer (mkBuffer (as_type dt (ones [channels])) "bn2d_rvar"))].

(** [Layernorm.__init__(normalized_shape, eps, dtype, label, training)]. *)
Definition Layernorm__init__ (normalized_shape : list nat) (eps : Q)
           (dt : Dtype) (lbl : option string) (training : bool) : NNModule :=
  __init__ "Layernorm" lbl training
    [("normalized_shape", AShape (shape_as_target normalized_shape));
     ("eps", AFloat eps);
     ("dtype", ADtype dt);
     ("w", AParameter (mkParameter (as_type dt (ones normalized_shape)) true
                                   "ln_w"));
     ("b", AParameter (mkParameter (as_type dt (zeros normalized_shape)) true
                                   "ln_b"))].

(** The closures [_backward] that [Batchnorm2d.forward] and
    [Layernorm.forward] build are, line for line, the one of
    [Batchnorm1d.forward]. *)
Definition Batchnorm2d_backward (grad_func : GradFunc) : Continuation :=
  Batchnorm1d_backward grad_func.

Definition Layernorm_backward (grad_func : GradFunc) : Continuation :=
  Batchnorm1d_backward grad_func.

Section Functionals.

(** The functionals [batchnorm2d] and [layernorm] of
    nn/functional/normalizatons are not under src/: they are taken as
    given, as [batchnorm1d] is. *)
Variable batchnorm2d :
  Tensor -> Buffer -> Buffer -> Array -> Array -> Q -> Q -> bool ->
  Tensor * Buffer * Buffer * option GradFunc.

Variable layernorm :
  Tensor -> Array -> Array -> Q -> bool -> Tensor * option GradFunc.

(** [Batchnorm2d.forward]; it reads the slots [Batchnorm1d.forward]
    reads. *)
Definition Batchnorm2d_forward (x : Tensor) (md : NNModule)
  : result Tensor * NNModule :=
  match _check_dims x [4%nat] md with
  | Raise e => (Raise e, md)
  | Ok _ =>
      match Batchnorm1d_args (slots md) with
      | Raise e => (Raise e, md)
      | Ok (dt, rmean, rvar, w, b, m, eps) =>
          let x := as_type dt x in
          let '(v, rmean', rvar', grad_func) :=
            batchnorm2d x rmean rvar (data (p_tensor w)) (data (p_tensor b))
                        m eps (_training md) in
          let md1 :=
            set_slots (setattr "rvar" (ABuffer rvar')
                         (setattr "rmean" (ABuffer rmean') (slots md))) md in
          (Ok v,
           match _training md, grad_func with
           | true, Some gf =>
               set_backward_field (Some (Batchnorm2d_backward gf)) md1
           | _, _ => md1
           end)
      end
  end.

(** The arguments [Layernorm.forward] reads from the slots. *)
Definition Layernorm_args (s : Attrs) : result (Dtype * Param * Param * Q) :=
  try dt := get_dtype "dtype" s in
  try w := get_parameter "w" s in
  try b := get_parameter "b" s in
  try eps := get_float "eps" s in
  Ok (dt, w, b, eps).

(** [Layernorm.forward]. *)
Definition Layernorm_forward (x : Tensor) (md : NNModule)
  : result Tensor * NNModule :=
  match Layernorm_args (slots md) with
  | Raise e => (Raise e, md)
  | Ok (dt, w, b, eps) =>
      let x := as_type dt x in
      let '(v, grad_func) :=
        layernorm x (data (p_tensor w)) (data (p_tensor b)) eps
                  (_training md) in
      (Ok v,
       match _training md, grad_func with
       | true, Some gf => set_backward_field (Some (Layernorm_backward gf)) md
       | _, _ => md
       end)
  end.

End Functionals.

(** A layer-normalization functional to run the module with: the output is
    the input and the gradients of [w] and [b] are the first entries of the
    output gradient. *)
Definition sample_layernorm (x : Tensor) (w b : Array) (eps : Q)
           (training : bool) : Tensor * option GradFunc :=
  (x,
   if training
   then Some (fun dy => (dy, Some (first_entries (a_size w) dy),
                         Some (first_entries (a_size b) dy)))
   else None).

End NormalizationLayers.
Import NormalizationLayers.

(** What a forward call may change in a module: the buffers, but not their
    number, and the stored continuation; it changes no parameter, no
    gradient, no flag and no slot name, it stores a continuation in training
    mode only, and it changes nothing when it raises. *)
Definition forward_frame
           (fwd : Tensor -> NNModule -> result Tensor * NNModule) : Prop :=
  forall (x : Tensor) (m : NNModule),
    parameters (snd (fwd x m)) = parameters m /\
    List.map fst (slots (snd (fwd x m))) = List.map fst (slots m) /\
    List.length (buffers (snd (fwd x m))) = List.length (buffers m) /\
    y (snd (fwd x m)) = y m /\
    label (snd (fwd x m)) = label m /\
    _device (snd (fwd x m)) = _device m /\
    _training (snd (fwd x m)) = _training m /\
    _trainable (snd (fwd x m)) = _trainable m /\
    _retain_values (snd (fwd x m)) = _retain_values m /\
    (training m = false -> _backward (snd (fwd x m)) = _backward m) /\
    (forall e, fst (fwd x m) = Raise e -> snd (fwd x m) = m).

(** A Layernorm over vectors of two entries, in training mode. *)
Definition sample_layernorm_module : NNModule :=
  Layernorm__init__ [2%nat] (1 # 100000) FLOAT32 None true.

(** One pass through a module with the forward function [fwd]: a call and,
    if it returns, [backward]. *)
Definition pass_of (fwd : Tensor -> NNModule -> result Tensor * NNModule)
           (x dy : Tensor) (md : NNModule)
  : result (option Tensor) * NNModule :=
  match __call__ fwd x md with
  | (Ok _, md1) => backward dy md1
  | (Raise e, md1) => (Raise e, md1)
  end.

(** In training mode the layer-normalization functional returns a gradient
    function. *)
Definition layernorm_gives_gradient
           (ln : Tensor -> Array -> Array -> Q -> bool ->
                 Tensor * option GradFunc) : Prop :=
  forall x w b eps, snd (ln x w b eps true) <> None.

(** What two passes leave in the GradientSlots of [w] and [b]: a pass from
    a state that holds gradients leaves the sums of those and of the
    gradients the same pass writes after [reset]. *)
Definition accumulates
           (fwd : Tensor -> NNModule -> result Tensor * NNModule) : Prop :=
  forall (ma mb : NNModule) (x dy : Tensor) (r : option Tensor),
    pass_of fwd x dy ma = (Ok r, mb) ->
    exists md,
      pass_of fwd x dy (reset ma) = (Ok r, md) /\
      grad_of "w" mb = grad_sum (grad_of "w" ma) (grad_of "w" md) /\
      grad_of "b" mb = grad_sum (grad_of "b" ma) (grad_of "b" md).

(* ===================================================================== *)
(** ** Shapes in the fully connected layer *)
(* ===================================================================== *)

(** An array of [n] rows and [k] columns. *)
Definition has_shape (n k : nat) (a : Walnut.Matrix) : Prop :=
  Walnut.nrows a = n /\ Walnut.ncols a = k /\ Walnut.mat_well_formed a.

(** A layer whose weights have [k] rows and [m] columns and whose bias, if
    it is used, is there and has [m] entries. *)
Definition linear_of_shape {Y : Type} (k m : nat) (l : Walnut.Linear Y)
  : Prop :=
  has_shape k m (Walnut.wdata (Walnut.w (Walnut.core l))) /\
  (Walnut.use_bias (Walnut.core l) = true ->
   exists bt, Walnut.b (Walnut.core l) = Some bt /\
              List.length (Walnut.bdata bt) = m).

(** The values of the weights and of the bias. *)
Definition linear_values {Y : Type} (l : Walnut.Linear Y)
  : Walnut.Matrix * option (list Q) * bool :=
  (Walnut.wdata (Walnut.w (Walnut.core l)),
   option_map Walnut.bdata (Walnut.b (Walnut.core l)),
   Walnut.use_bias (Walnut.core l)).

(** A layer with two inputs, three outputs and a bias, in training mode. *)
Definition linear_2x3 : Walnut.Linear unit :=
  Walnut.Linear__init__ 2 3 None true (Walnut.mat_ones 2 3) true tt.

(* ===================================================================== *)
(** ** The binary cross entropy (nn/functional/losses.py) *)
(* ===================================================================== *)

Module BinaryCrossEntropy.

Fixpoint zip_elems (f : Q -> Q -> Q) (a b : list Q) : list Q :=
  match a, b with
  | x :: a', z :: b' => f x z :: zip_elems f a' b'
  | _, _ => []
  end.

(** Modelled from the spec: the arithmetic of the Tensor class is not under
    src/.  As for [t_sub], an operation on two tensors works entry by entry
    on tensors of one shape and "fails immediately" on others; the result
    is a new tensor with the element type and device of the left one. *)
Definition t_zip (f : Q -> Q -> Q) (a b : Tensor) : result Tensor :=
  if bool_decide (t_shape a = t_shape b)
  then Ok (of_array (mkArray (t_shape a)
                             (zip_elems f (elems (data a)) (elems (data b)))
                             (dtype (data a)) (device (data a))))
  else Raise (ShapeError "operands could not be broadcast together").

(** [a * b], [a + b], [a / b], [-a] and [1 - a]. *)
Definition t_mul (a b : Tensor) : result Tensor := t_zip Qmult a b.
Definition t_add (a b : Tensor) : result Tensor := t_zip Qplus a b.
Definition t_div (a b : Tensor) : result Tensor := t_zip Qdiv a b.
Definition t_neg (a : Tensor) : Tensor := t_map Qopp a.
Definition one_minus (a : Tensor) : Tensor := t_map (fun x => 1 - x)%Q a.

(** [clip(a, lo, hi)] of tensor_ops.transforming, numpy's clip: every entry
    is raised to [lo] and then lowered to [hi]. *)
Definition clip_number (lo hi x : Q) : Q :=
  let x := if Qle_bool lo x then x else lo in
  if Qle_bool x hi then x else hi.

Definition clip (a : Tensor) (lo hi : Q) : Tensor :=
  t_map (clip_number lo hi) a.

Section Logarithm.

(** [log] of tensor_ops.transforming is not under src/: the function it
    applies to every entry is taken as given. *)
Variable log_number : Q -> Q.

Definition log (a : Tensor) : Tensor := t_map log_number a.

(** [FBinaryCrossEntropy.forward(cache, y_pred, y_true)]. *)
Definition FBinaryCrossEntropy_forward (cache : Cache)
           (y_pred y_true : Tensor) : result (Tensor * Cache) :=
  let clip_value := 100%Q in
  let log_y_pred := clip (log y_pred) (- clip_value) clip_value in
  let log_one_minus_y_pred :=
    clip (log (one_minus y_pred)) (- clip_value) clip_value in
  try left := t_mul y_true log_y_pred in
  try right := t_mul (one_minus y_true) log_one_minus_y_pred in
  try total := t_add left right in
  let v := t_neg (mean total) in
  let cache := cache_set "y_pred" y_pred cache in
  let cache := cache_set "y_true" y_true cache in
  Ok (v, cache).

End Logarithm.

(** [FBinaryCrossEntropy.backward(cache)]. *)
Definition FBinaryCrossEntropy_backward (cache : Cache) : result Tensor :=
  try y_pred := cache_get "y_pred" cache in
  try y_true := cache_get "y_true" cache in
  try left := t_div (t_neg y_true) y_pred in
  try right := t_div (one_minus y_true) (one_minus y_pred) in
  try total := t_add left right in
  Ok (t_div_scalar total (float_of_nat (size y_pred))).

(** [binary_cross_entropy(y_pred, y_true)]. *)
Definition binary_cross_entropy (log_number : Q -> Q)
           (y_pred y_true : Tensor) : result Tensor :=
  rmap fst (FBinaryCrossEntropy_forward log_number PseudoCache y_pred y_true).

(** The gradient of the binary cross entropy in closed form, entry by
    entry: [(p - t) / (p * (1 - p) * n)]. *)
Definition closed_gradient (n p t : Q) : Q := ((p - t) / (p * (1 - p) * n))%Q.

End BinaryCrossEntropy.
Import BinaryCrossEntropy.

(** Every entry of a tensor lies between [lo] and [hi]. *)
Definition entries_within (lo hi : Q) (a : Tensor) : Prop :=
  Forall (fun x => lo <= x /\ x <= hi)%Q (elems (data a)).

(** Every entry lies strictly between 0 and 1. *)
Definition entries_inside (a : Tensor) : Prop :=
  Forall (fun x => 0 < x /\ x < 1)%Q (elems (data a)).

(** A logarithm to run the loss with: its values play no part in what is
    proved. *)
Definition sample_log (x : Q) : Q := (x - 1)%Q.

Definition half_half : Tensor := tensor [2%nat] [(1 # 2)%Q; (1 # 4)%Q].
Definition one_zero : Tensor := tensor [2%nat] [1%Q; 0%Q].

(* ===================================================================== *)
(** ** Early stopping along a training run *)
(* ===================================================================== *)

(** The best epoch of a run: the first one whose loss no later one is
    strictly below. *)
Definition better (acc : option Epoch) (e : Epoch) : option Epoch :=
  match acc with
  | None => Some e
  | Some b => if Qltb (e_loss e) (e_loss b) then Some e else Some b
  end.

Definition running_best (seen : list Epoch) : option Epoch :=
  fold_left better seen None.

(** What [restore] leaves of a parameter: all but its data. *)
Definition param_frame (p : Param) : string * bool * option Array :=
  (p_label p, requires_grad p, p_grad p).

(** Five epochs with the losses of the scenario and one parameter whose
    value is the number of the epoch. *)
Definition numbered_epochs : list Epoch :=
  five_epochs (one_parameter 1) (one_parameter 2) (one_parameter 3)
              (one_parameter 4) (one_parameter 5).

(** What the callback knows after the epochs [seen]: the loss of the best
    of them and, if it keeps parameters, those of that epoch. *)
Definition knows_best (u : bool) (p : Z) (seen : list Epoch)
           (cb : EarlyStopping) : Prop :=
  target cb = "loss" /\ use_best_params cb = u /\ patience cb = p /\
  match running_best seen with
  | None => best_loss cb = Infinity
  | Some b =>
      best_loss cb = Finite (e_loss b) /\
      (u = true -> best_params cb = Some (e_params b))
  end.

(** What an entry of [drive] holds after the epochs [seen], the last of
    which is [e]. *)
Definition entry_after (u : bool) (p : Z) (seen : list Epoch) (e : Epoch)
           (s : result unit * EarlyStopping * Trainer) : Prop :=
  fst (fst s) = Ok tt /\
  knows_best u p seen (snd (fst s)) /\
  history_of (snd s) = List.map e_loss seen /\
  (abort (snd s) = false \/ u = false ->
   model_parameters (snd s) = e_params e) /\
  (abort (snd s) = true -> u = true ->
   exists b, running_best seen = Some b /\
             arrays_of (model_parameters (snd s)) = arrays_of (e_params b)).

(* ===================================================================== *)
(** ** The decorator [batched] (nn/dataloaders.py) *)
(* ===================================================================== *)

Module Batching.

(** [concatenate] of tensor_f is not under src/; it is numpy's
    concatenate along the first axis, which raises on an empty list. *)
Definition concatenate {C : Type} (ys : list (list C)) : result (list C) :=
  match ys with
  | [] => Raise (ValueError "need at least one array to concatenate")
  | _ => Ok (concat ys)
  end.

(** The loop [for x_batch, _ in dataloader(): ys.append(func(x_batch))]:
    the first call of [func] that raises ends it. *)
Fixpoint collect {A B C : Type}
         (func : DataLoaders.Batch A -> result (list C))
         (batches : list (DataLoaders.Batch A * option (DataLoaders.Batch B)))
  : result (list (list C)) :=
  match batches with
  | [] => Ok []
  | (x_batch, _) :: rest =>
      try v := func x_batch in
      try vs := collect func rest in
      Ok (v :: vs)
  end.

(** [batched(func, batch_size, device, shuffle_data, drop_remaining)]: the
    wrapper it returns; the loader it builds has no targets. *)
Definition batched {A C : Type} (draw : nat -> list nat)
           (func : DataLoaders.Batch A -> result (list C))
           (batch_size : Z) (device : Device)
           (shuffle_data drop_remaining : bool)
  : list A -> result (list C) :=
  fun x =>
    let dataloader :=
      DataLoaders.mkDataLoader (B := unit) x None batch_size device
                               drop_remaining shuffle_data in
    try batches := fst (DataLoaders.__call__ draw dataloader) in
    try ys := collect func batches in
    concatenate ys.

End Batching.

(* ===================================================================== *)
(** ** The cuts of a data loader *)
(* ===================================================================== *)

(** The slices one iteration takes of a tensor [l] that goes with [n]
    samples: [k] slices of [b] indices each and, if it is kept and [k * b]
    is below [n], the slice from [k * b] on. *)
Definition cuts {T : Type} (l : list T) (n k b : Z) (keep : bool)
  : list (list T) :=
  List.map (fun i => DataLoaders.slice l (i * b) ((i + 1) * b))
           (DataLoaders.range k)
  ++ (if keep && (k * b <? n) then [DataLoaders.slice_from l (k * b)] else []).

(** The loader as an iteration leaves it: shuffled, if it shuffles. *)
Definition shuffled {A B : Type} (draw : nat -> list nat)
           (dl : DataLoaders.DataLoader A B) : DataLoaders.DataLoader A B :=
  if DataLoaders.shuffle dl then
    DataLoaders.mkDataLoader
      (DataLoaders.take_indices (DataLoaders.x dl)
                                (draw (List.length (DataLoaders.x dl))))
      (option_map (fun ys => DataLoaders.take_indices
                               ys (draw (List.length (DataLoaders.x dl))))
                  (DataLoaders.y dl))
      (DataLoaders.batch_size dl) (DataLoaders.device A B dl)
      (DataLoaders.drop_remaining dl) (DataLoaders.shuffle dl)
  else dl.

(** The targets of the batches put end to end. *)
Definition joined {B : Type} (ys : list (option (list B))) : list B :=
  concat (omap id ys).

(** A draw that turns the order around. *)
Definition reversed_draw (n : nat) : list nat := rev (seq 0 n).

(** Five samples with their targets, shuffled, in batches of two. *)
Definition five_shuffled : DataLoaders.DataLoader nat bool :=
  DataLoaders.mkDataLoader [1; 2; 3; 4; 5]%nat
                           (Some [true; false; true; false; true])
                           2 CPU false true.

(** A function that works sample by sample. *)
Definition double_each (b : DataLoaders.Batch nat) : result (list nat) :=
  Ok (List.map (fun v => 2 * v)%nat (DataLoaders.samples nat b)).

(* ===================================================================== *)
(** ** A pickle that fails *)
(* ===================================================================== *)


(* ===================================================================== *)
(** * Properties *)
(* ===================================================================== *)

(** ** Slots *)

Lemma slot_parameters_for_parameters (f : Param -> Param) (s : Attrs) :
  slot_parameters (for_parameters f s) = List.map f (slot_parameters s).
Proof.
  unfold for_parameters, for_buffers.
  induction s as [|[k a] s IH]; [reflexivity|].
  destruct a; cbn; rewrite ?IH; reflexivity.
Qed.

Lemma slot_buffers_for_parameters (f : Param -> Param) (s : Attrs) :
  slot_buffers (for_parameters f s) = slot_buffers s.
Proof.
  unfold for_parameters, for_buffers.
  induction s as [|[k a] s IH]; [reflexivity|].
  destruct a; cbn; rewrite ?IH; reflexivity.
Qed.

Lemma slot_buffers_for_buffers (f : Buffer -> Buffer) (s : Attrs) :
  slot_buffers (for_buffers f s) = List.map f (slot_buffers s).
Proof.
  unfold for_parameters, for_buffers.
  induction s as [|[k a] s IH]; [reflexivity|].
  destruct a; cbn; rewrite ?IH; reflexivity.
Qed.

Lemma slot_parameters_for_buffers (f : Buffer -> Buffer) (s : Attrs) :
  slot_parameters (for_buffers f s) = slot_parameters s.
Proof.
  unfold for_parameters, for_buffers.
  induction s as [|[k a] s IH]; [reflexivity|].
  destruct a; cbn; rewrite ?IH; reflexivity.
Qed.

Lemma for_parameters_compose (f g : Param -> Param) (s : Attrs) :
  for_parameters f (for_parameters g s) = for_parameters (fun p => f (g p)) s.
Proof.
  unfold for_parameters.
  induction s as [|[k a] s IH]; [reflexivity|].
  destruct a; cbn; f_equal; exact IH.
Qed.

Lemma getattr_for_parameters_shape (f : Param -> Param) (a : string)
      (s : Attrs) (sh : list Z) :
  getattr a s = Ok (AShape sh) -> getattr a (for_parameters f s) = Ok (AShape sh).
Proof.
  unfold for_parameters.
  induction s as [|[k v] s IH]; cbn; [discriminate|].
  destruct v; cbn; destruct (String.eqb k a); auto; discriminate.
Qed.

(** ** Reset *)

Lemma reset_fields (m : NNModule) :
  y (reset m) = None /\ _backward (reset m) = None /\
  label (reset m) = label m /\ _device (reset m) = _device m /\
  _retain_values (reset m) = _retain_values m /\
  _training (reset m) = _training m /\ _trainable (reset m) = _trainable m /\
  slots (reset m) = for_parameters (p_set_grad None) (slots m).
Proof. repeat split. Qed.

Lemma reset_parameters (m : NNModule) :
  parameters (reset m) = List.map (p_set_grad None) (parameters m).
Proof. apply slot_parameters_for_parameters. Qed.

Lemma reset_idempotent (m : NNModule) : reset (reset m) = reset m.
Proof.
  unfold reset, set_slots, set_backward_field, set_y_field; cbn [y _backward label _device _retain_values _training _trainable slots].
  f_equal. rewrite for_parameters_compose. reflexivity.
Qed.

Lemma getattr_reset (m : NNModule) (a : string) :
  match getattr a (slots m) with
  | Ok (AParameter p) =>
      getattr a (slots (reset m)) = Ok (AParameter (p_set_grad None p))
  | r => getattr a (slots (reset m)) = r
  end.
Proof.
  unfold reset, for_parameters; cbn.
  induction (slots m) as [|[k v] s IH]; [reflexivity|].
  cbn. destruct v; cbn; destruct (String.eqb k a); auto.
Qed.

(** After [reset] a [Reshape] and a [Flatten] answer a call as before: what
    [reset] clears is not read by [forward]. *)
Lemma Reshape_forward_reset (x : Tensor) (m : NNModule) :
  fst (Reshape_forward x (reset m)) = fst (Reshape_forward x m).
Proof.
  unfold Reshape_forward. destruct (t_shape x) as [|d0 ds]; [reflexivity|].
  pose proof (getattr_reset m "output_shape") as H.
  destruct (getattr "output_shape" (slots m)) as [[]|]; rewrite H; try reflexivity.
  destruct (reshape x _); reflexivity.
Qed.

Lemma Flatten_forward_reset (x : Tensor) (m : NNModule) :
  fst (Flatten_forward x (reset m)) = fst (Flatten_forward x m).
Proof.
  unfold Flatten_forward. destruct (t_shape x) as [|d0 ds]; [reflexivity|].
  destruct (reshape x _); reflexivity.
Qed.

Lemma reset_clears_gradients (m : NNModule) :
  Forall (fun p => p_grad p = None) (parameters (reset m)).
Proof.
  rewrite reset_parameters.
  induction (parameters m) as [|p ps IH]; constructor; [reflexivity|exact IH].
Qed.

(** C8. Reset postcondition and idempotence: after [reset] the retained
    output and the backward continuation are absent and the GradientSlot of
    every owned Parameter is absent; a second [reset] changes nothing; and
    the module then accepts a forward call: the base class returns its input,
    and a Reshape or a Flatten answers as it did before the reset. *)
Theorem reset_postcondition_and_idempotence (m : NNModule) :
  y (reset m) = None /\
  _backward (reset m) = None /\
  Forall (fun p => p_grad p = None) (parameters (reset m)) /\
  reset (reset m) = reset m /\
  (forall x : Tensor, fst (__call__ forward x (reset m)) = Ok x) /\
  (forall x : Tensor,
      fst (__call__ Reshape_forward x (reset m))
      = fst (__call__ Reshape_forward x m)) /\
  (forall x : Tensor,
      fst (__call__ Flatten_forward x (reset m))
      = fst (__call__ Flatten_forward x m)).
Proof.
  split; [reflexivity|]. split; [reflexivity|].
  split; [apply reset_clears_gradients|].
  split; [apply reset_idempotent|].
  split; [reflexivity|].
  split; intros x; unfold __call__.
  - pose proof (Reshape_forward_reset x m) as H.
    destruct (Reshape_forward x (reset m)) as [[v|e] m1];
      destruct (Reshape_forward x m) as [[v'|e'] m1']; cbn in *; congruence.
  - pose proof (Flatten_forward_reset x m) as H.
    destruct (Flatten_forward x (reset m)) as [[v|e] m1];
      destruct (Flatten_forward x m) as [[v'|e'] m1']; cbn in *; congruence.
Qed.

(** ** Mode gating of [backward] *)

Lemma prodZ_of_nat (s : list nat) :
  prodZ (shape_as_target s) = Z.of_nat (prod_shape s).
Proof.
  unfold prodZ, shape_as_target, prod_shape.
  induction s as [|d s IH]; [reflexivity|].
  cbn [List.map fold_right]. rewrite IH, Nat2Z.inj_mul. reflexivity.
Qed.

Lemma shape_as_target_no_negative (s : list nat) :
  existsb (fun d => d <? -1) (shape_as_target s) = false.
Proof.
  induction s as [|d s IH]; [reflexivity|]. cbn.
  rewrite orb_false_iff. split; [apply Z.ltb_ge; lia|exact IH].
Qed.

Lemma shape_as_target_no_unknown (s : list nat) :
  List.filter is_unknown (shape_as_target s) = [].
Proof.
  induction s as [|d s IH]; [reflexivity|]. cbn.
  unfold is_unknown at 1.
  destruct (Z.eqb_spec (Z.of_nat d) (-1)); [lia|exact IH].
Qed.

Lemma resolve_shape_of_nat (s : list nat) :
  resolve_shape (Z.of_nat (prod_shape s)) (shape_as_target s) = Ok s.
Proof.
  unfold resolve_shape.
  rewrite shape_as_target_no_negative, shape_as_target_no_unknown. cbn [List.length].
  rewrite prodZ_of_nat, Z.eqb_refl. f_equal.
  unfold shape_as_target. rewrite List.map_map.
  rewrite <- (List.map_id s) at 2. apply List.map_ext. intros; apply Nat2Z.id.
Qed.

Lemma resolve_shape_no_unknown_inv (n : Z) (s : list nat) (s' : list nat) :
  resolve_shape n (shape_as_target s) = Ok s' -> s' = s /\ n = Z.of_nat (prod_shape s).
Proof.
  unfold resolve_shape.
  rewrite shape_as_target_no_negative, shape_as_target_no_unknown. cbn [List.length]. rewrite prodZ_of_nat.
  destruct (Z.eqb_spec (Z.of_nat (prod_shape s)) n) as [E|E]; [|discriminate].
  intros H. injection H as <-. split; [|lia].
  unfold shape_as_target. rewrite List.map_map.
  rewrite <- (List.map_id s) at 2. apply List.map_ext. intros; apply Nat2Z.id.
Qed.

(** The closure of a Reshape or a Flatten gives the gradient the shape of
    the input of the forward call, exactly when the sizes agree. *)
Lemma reshape_back_shape (x dy : Tensor) (s : Attrs) :
  (size dy = size x ->
   exists dx, reshape_back x dy s = (Ok (Some dx), s) /\ t_shape dx = t_shape x) /\
  (forall r, fst (reshape_back x dy s) = Ok r ->
             exists dx, r = Some dx /\ t_shape dx = t_shape x /\ size dy = size x).
Proof.
  unfold reshape_back, reshape, rmap, bind. split.
  - intros E. unfold size, a_size in E. unfold size, a_size. rewrite E.
    unfold t_shape. rewrite resolve_shape_of_nat. eexists; split; reflexivity.
  - intros r. cbn [fst].
    destruct (resolve_shape _ _) as [s'|e] eqn:R; [|discriminate].
    apply resolve_shape_no_unknown_inv in R. destruct R as [-> Hn].
    intros H. injection H as <-. eexists; repeat split.
    unfold size, a_size, t_shape in *. lia.
Qed.

Lemma _set_y_fields (v : Tensor) (m : NNModule) :
  _backward (_set_y v m) = _backward m /\ _training (_set_y v m) = _training m /\
  slots (_set_y v m) = slots m /\ label (_set_y v m) = label m.
Proof. unfold _set_y. destruct (_retain_values m), (y m); repeat split. Qed.

Lemma _set_dy_fields (dy : Tensor) (m : NNModule) :
  _backward (_set_dy dy m) = _backward m /\ _training (_set_dy dy m) = _training m /\
  slots (_set_dy dy m) = slots m /\ label (_set_dy dy m) = label m.
Proof. unfold _set_dy. destruct (_retain_values m), (y m); repeat split. Qed.

(** What a successful call of a Reshape or a Flatten in training mode leaves
    in [_backward]. *)
Lemma Reshape_call_training (x v : Tensor) (m m1 : NNModule) :
  training m = true ->
  __call__ Reshape_forward x m = (Ok v, m1) ->
  _backward m1 = Some (reshape_back x) /\ _training m1 = true.
Proof.
  unfold __call__, Reshape_forward, training. intros T.
  destruct (t_shape x) as [|d0 ds]; [discriminate|].
  destruct (getattr _ _) as [[]|]; try discriminate.
  destruct (reshape x _); [|discriminate]. rewrite T.
  intros H. injection H as _ <-.
  destruct (_set_y_fields a (set_backward_field (Some (reshape_back x)) m))
    as (-> & -> & _). split; [reflexivity|exact T].
Qed.

Lemma Flatten_call_training (x v : Tensor) (m m1 : NNModule) :
  training m = true ->
  __call__ Flatten_forward x m = (Ok v, m1) ->
  _backward m1 = Some (reshape_back x) /\ _training m1 = true.
Proof.
  unfold __call__, Flatten_forward, training. intros T.
  destruct (t_shape x) as [|d0 ds]; [discriminate|].
  destruct (reshape x _); [|discriminate]. rewrite T.
  intros H. injection H as _ <-.
  destruct (_set_y_fields a (set_backward_field (Some (reshape_back x)) m))
    as (-> & -> & _). split; [reflexivity|exact T].
Qed.

Lemma backward_with_reshape_back (x dy : Tensor) (m1 : NNModule) :
  _backward m1 = Some (reshape_back x) -> _training m1 = true ->
  size dy = size x ->
  exists dx, fst (backward dy m1) = Ok (Some dx) /\ t_shape dx = t_shape x.
Proof.
  intros K T E. unfold backward, training. rewrite T. cbn [negb].
  destruct (_set_dy_fields dy m1) as (-> & _ & S & _). rewrite K.
  destruct (reshape_back_shape x dy (slots (_set_dy dy m1))) as [H _].
  destruct (H E) as (dx & -> & Hs). exists dx. split; [reflexivity|exact Hs].
Qed.

(** C2 (amended). Mode gating: [backward(dy)] raises an error naming the
    module's label exactly when the module is not in training mode, and then
    leaves the module as it was.  In training mode with no continuation
    stored it returns [dy] itself; with a continuation stored it returns what
    the continuation returns.  After a successful call of a Reshape or a
    Flatten in training mode, [backward] of a gradient that has as many
    entries as the input succeeds and returns a gradient of the shape of that
    input. *)
Theorem backward_mode_gating (m : NNModule) (dy : Tensor) :
  (training m = false ->
   backward dy m
   = (Raise (AttributeError (label m +:+ " is not in training mode.")), m) /\
   names (label m +:+ " is not in training mode.") (label m)) /\
  (training m = true -> _backward m = None ->
   fst (backward dy m) = Ok (Some dy)) /\
  (training m = true ->
   forall k, _backward m = Some k ->
             fst (backward dy m) = fst (k dy (slots m))) /\
  (training m = true ->
   forall (fwd : Tensor -> NNModule -> result Tensor * NNModule)
          (x v : Tensor) (m1 : NNModule),
     fwd = Reshape_forward \/ fwd = Flatten_forward ->
     __call__ fwd x m = (Ok v, m1) ->
     size dy = size x ->
     exists dx, fst (backward dy m1) = Ok (Some dx) /\ t_shape dx = t_shape x).
Proof.
  split; [|split; [|split]].
  - intros T. unfold backward. rewrite T. split; [reflexivity|].
    exists "", " is not in training mode.". reflexivity.
  - intros T K. unfold backward. rewrite T. cbn [negb].
    destruct (_set_dy_fields dy m) as (-> & _). rewrite K. reflexivity.
  - intros T k K. unfold backward. rewrite T. cbn [negb].
    destruct (_set_dy_fields dy m) as (-> & _ & -> & _). rewrite K.
    destruct (k dy (slots m)); reflexivity.
  - intros T fwd x v m1 [-> | ->] C E.
    + destruct (Reshape_call_training x v m m1 T C) as [K T1].
      exact (backward_with_reshape_back x dy m1 K T1 E).
    + destruct (Flatten_call_training x v m m1 T C) as [K T1].
      exact (backward_with_reshape_back x dy m1 K T1 E).
Qed.

(** C2, as stated, fails: in training mode with no continuation stored,
    [backward] raises nothing and hands [dy] through. *)
Lemma backward_without_continuation_passes_through :
  ~ (forall (m : NNModule) (dy : Tensor),
        (training m = false \/ _backward m = None) <->
        (exists msg, fst (backward dy m) = Raise (AttributeError msg)
                     /\ names msg (label m))).
Proof.
  intros H.
  destruct (H fresh_flatten gradient_2x3) as [H1 _].
  destruct (H1 (or_intror eq_refl)) as (msg & E & _).
  cbv in E. discriminate E.
Qed.

Lemma backward_mode_gating_witness :
  (backward gradient_2x3 (set_training false fresh_flatten)
   = (Raise (AttributeError "Flatten is not in training mode."),
      set_training false fresh_flatten)) /\
  fst (backward gradient_2x3 fresh_flatten) = Ok (Some gradient_2x3) /\
  (exists dx,
      fst (backward (ones [2%nat; 6%nat])
                    (snd (__call__ Flatten_forward (ones [2%nat; 2%nat; 3%nat])
                                   fresh_flatten)))
      = Ok (Some dx) /\ t_shape dx = [2%nat; 2%nat; 3%nat]).
Proof.
  split; [|split].
  - exact (proj1 (proj1 (backward_mode_gating
                           (set_training false fresh_flatten) gradient_2x3)
                        eq_refl)).
  - exact (proj1 (proj2 (backward_mode_gating fresh_flatten gradient_2x3))
                 eq_refl eq_refl).
  - destruct (backward_mode_gating fresh_flatten (ones [2%nat; 6%nat]))
      as (_ & _ & _ & H).
    eapply (H eq_refl Flatten_forward (ones [2%nat; 2%nat; 3%nat])).
    + right; reflexivity.
    + vm_compute; reflexivity.
    + reflexivity.
Defined.

(** ** The stored continuation along a sequence of calls *)

Lemma Reshape_forward_stores : stores_when_training Reshape_forward.
Proof.
  intros x m. unfold Reshape_forward, training.
  destruct (t_shape x) as [|d0 ds]; [split; [reflexivity|right; split; reflexivity]|].
  destruct (getattr _ _) as [[]|];
    try (split; [reflexivity|right; split; reflexivity]).
  destruct (reshape x _); [|split; [reflexivity|right; split; reflexivity]].
  destruct (_training m) eqn:T; cbn.
  - split; [exact T|left; split; reflexivity].
  - split; [exact T|right; split; reflexivity].
Qed.

Lemma Flatten_forward_stores : stores_when_training Flatten_forward.
Proof.
  intros x m. unfold Flatten_forward, training.
  destruct (t_shape x) as [|d0 ds]; [split; [reflexivity|right; split; reflexivity]|].
  destruct (reshape x _); [|split; [reflexivity|right; split; reflexivity]].
  destruct (_training m) eqn:T; cbn.
  - split; [exact T|left; split; reflexivity].
  - split; [exact T|right; split; reflexivity].
Qed.

Lemma backward_keeps_continuation (dy : Tensor) (m : NNModule) :
  _backward (snd (backward dy m)) = _backward m.
Proof.
  unfold backward. destruct (negb (training m)); [reflexivity|].
  destruct (_set_dy_fields dy m) as (E & _).
  destruct (_backward (_set_dy dy m)) as [k|] eqn:K.
  - destruct (k dy _) as [r s]. cbn. congruence.
  - cbn. congruence.
Qed.

Lemma step_keeps_invariant fwd (st : NNModule * History) (op : Op) :
  stores_when_training fwd ->
  continuation_invariant st -> continuation_invariant (step fwd st op).
Proof.
  intros F. destruct st as [m h]. unfold continuation_invariant.
  cbn [fst snd]. intros [I1 I2].
  destruct op as [x|dy| |v]; cbn [step].
  - unfold __call__. destruct (F x m) as [T C].
    destruct (fwd x m) as [[v|e] m1]; cbn [fst snd is_ok] in *.
    + destruct (_set_y_fields v m1) as (B & _).
      unfold has_continuation in *. rewrite B. unfold last_in_training.
      cbn [last_forward trained].
      destruct C as [[C1 C2]|[C1 C2]]; cbn in C1; rewrite C1.
      * rewrite orb_true_r. split; [exact C2|reflexivity].
      * rewrite orb_false_r, C2. split; [exact I1|discriminate].
    + destruct C as [[C1 _]|[_ C2]]; [discriminate|].
      unfold has_continuation in *. rewrite C2. split; assumption.
  - cbn [fst snd]. unfold has_continuation in *.
    rewrite backward_keeps_continuation. split; assumption.
  - cbn [fst snd]. split; [reflexivity|discriminate].
  - cbn [fst snd]. split; assumption.
Qed.

Lemma run_keeps_invariant fwd (m : NNModule) (ops : list Op) :
  stores_when_training fwd ->
  _backward m = None ->
  continuation_invariant (run fwd m ops).
Proof.
  intros F K. unfold run.
  assert (I0 : continuation_invariant (m, no_history)).
  { split; cbn; [unfold has_continuation; rewrite K; reflexivity|discriminate]. }
  revert I0. generalize (m, no_history). 
  induction ops as [|op ops IH]; intros st I; [exact I|].
  cbn [fold_left]. apply IH. apply step_keeps_invariant; assumption.
Qed.

(** C3 (amended). Along every sequence of forward, backward, reset and
    set_training calls on a Reshape or a Flatten, a backward continuation is
    stored exactly when some forward call since the object was built or last
    reset returned in training mode.  In particular it is stored when the
    most recent such forward call ran in training mode; a forward call that
    runs with training false leaves the stored continuation as it is. *)
Theorem continuation_iff_trained_since_reset
        (output_shape : list Z) (lbl : option string) (tr : bool)
        (ops : list Op) :
  let r := run Reshape_forward (Reshape__init__ output_shape lbl tr) ops in
  let f := run Flatten_forward (Flatten__init__ lbl tr) ops in
  has_continuation (fst r) = trained (snd r) /\
  implb (last_in_training (snd r)) (has_continuation (fst r)) = true /\
  has_continuation (fst f) = trained (snd f) /\
  implb (last_in_training (snd f)) (has_continuation (fst f)) = true /\
  (forall (x : Tensor) (m : NNModule),
      training m = false ->
      _backward (snd (__call__ Reshape_forward x m)) = _backward m /\
      _backward (snd (__call__ Flatten_forward x m)) = _backward m).
Proof.
  cbv zeta.
  destruct (run_keeps_invariant Reshape_forward
              (Reshape__init__ output_shape lbl tr) ops
              Reshape_forward_stores eq_refl) as [R1 R2].
  destruct (run_keeps_invariant Flatten_forward
              (Flatten__init__ lbl tr) ops
              Flatten_forward_stores eq_refl) as [F1 F2].
  split; [exact R1|]. split.
  { rewrite R1. clear F1 F2. destruct (last_in_training _); [|reflexivity].
    rewrite (R2 eq_refl). reflexivity. }
  split; [exact F1|]. split.
  { rewrite F1. clear R1 R2. destruct (last_in_training _); [|reflexivity].
    rewrite (F2 eq_refl). reflexivity. }
  intros x m T. split; unfold __call__.
  - destruct (Reshape_forward_stores x m) as [_ [[C _]|[_ C]]].
    + rewrite T, andb_false_r in C. discriminate.
    + destruct (Reshape_forward x m) as [[v|e] m1]; cbn [snd] in *; [|exact C].
      destruct (_set_y_fields v m1) as (-> & _). exact C.
  - destruct (Flatten_forward_stores x m) as [_ [[C _]|[_ C]]].
    + rewrite T, andb_false_r in C. discriminate.
    + destruct (Flatten_forward x m) as [[v|e] m1]; cbn [snd] in *; [|exact C].
      destruct (_set_y_fields v m1) as (-> & _). exact C.
Qed.

(** C3, as stated, fails: after a forward call in training mode, a forward
    call with training false leaves the earlier continuation stored. *)
Lemma stale_continuation_after_inference_forward :
  ~ (forall (output_shape : list Z) (lbl : option string) (tr : bool)
            (ops : list Op),
        let r := run Reshape_forward (Reshape__init__ output_shape lbl tr) ops in
        has_continuation (fst r) = last_in_training (snd r)).
Proof.
  intros H. specialize (H [6] None false train_then_infer).
  vm_compute in H. discriminate H.
Qed.

Lemma continuation_iff_trained_since_reset_witness :
  let m := fst (run Reshape_forward (Reshape__init__ [6] None false)
                    [OSetTraining true; OForward (ones [2%nat; 2%nat; 3%nat]);
                     OSetTraining false]) in
  training m = false /\
  has_continuation m = true /\
  _backward (snd (__call__ Reshape_forward (ones [2%nat; 2%nat; 3%nat]) m))
  = _backward m.
Proof.
  cbv zeta. split; [reflexivity|]. split; [reflexivity|].
  destruct (continuation_iff_trained_since_reset [6] None false
              [OSetTraining true; OForward (ones [2%nat; 2%nat; 3%nat]);
               OSetTraining false]) as (_ & _ & _ & _ & H).
  apply H. reflexivity.
Defined.

(** ** Gradient accumulation *)

Lemma getattr_setattr_ne (a c : string) (v : Attr) (s : Attrs) :
  a <> c -> getattr a (setattr c v s) = getattr a s.
Proof.
  intros N. induction s as [|[k u] s IH]; [reflexivity|]. cbn.
  destruct (String.eqb_spec k c) as [->|Nc]; cbn.
  - destruct (String.eqb_spec c a) as [->|_]; [contradiction|reflexivity].
  - destruct (String.eqb k a); [reflexivity|exact IH].
Qed.

Lemma getattr_setattr_eq (a : string) (u v : Attr) (s : Attrs) :
  getattr a s = Ok u -> getattr a (setattr a v s) = Ok v.
Proof.
  induction s as [|[k w] s IH]; cbn; [discriminate|].
  destruct (String.eqb k a) eqn:E; cbn; rewrite E; [reflexivity|exact IH].
Qed.

Lemma getattr_for_parameters (f : Param -> Param) (a : string) (s : Attrs) :
  getattr a (for_parameters f s) = rmap (attr_for_parameter f) (getattr a s).
Proof.
  unfold for_parameters.
  induction s as [|[k v] s IH]; [reflexivity|].
  cbn [List.map]. destruct v; cbn; destruct (String.eqb k a); auto.
Qed.

Lemma setattr_for_parameters (f : Param -> Param) (a : string) (v : Attr)
      (s : Attrs) :
  for_parameters f (setattr a v s)
  = setattr a (attr_for_parameter f v) (for_parameters f s).
Proof.
  unfold for_parameters.
  induction s as [|[k u] s IH]; [reflexivity|].
  cbn [setattr List.map].
  destruct u; cbn [setattr]; destruct (String.eqb k a); cbn [List.map];
    try rewrite IH; try reflexivity; destruct v; reflexivity.
Qed.

Lemma grad_of_slots (a : string) (md : NNModule) :
  grad_of a md = grad_in a (slots md).
Proof. reflexivity. Qed.

Lemma grad_in_cleared (a : string) (s : Attrs) :
  grad_in a (for_parameters (p_set_grad None) s) = None.
Proof.
  unfold grad_in. rewrite getattr_for_parameters.
  destruct (getattr a s) as [[]|]; reflexivity.
Qed.

Lemma grad_iadd_sum (g : option Array) (dw : Tensor) (g' : option Array) :
  grad_iadd g dw = Ok g' ->
  grad_iadd None dw = Ok (Some (data dw)) /\ g' = grad_sum g (Some (data dw)).
Proof.
  unfold grad_iadd. destruct g as [a|].
  - destruct (bool_decide _); [|discriminate]. intros H; injection H as <-.
    split; reflexivity.
  - intros H; injection H as <-. split; reflexivity.
Qed.

(** [self.<a>.grad += dw] on the slots as they are and on the slots with the
    gradients cleared. *)
Lemma iadd_parameter_grad_sum (a : string) (dw : Tensor) (s s1 : Attrs) :
  iadd_parameter_grad a dw s = Ok s1 ->
  iadd_parameter_grad a dw (for_parameters (p_set_grad None) s)
  = Ok (setattr a (attr_for_parameter (p_set_grad (Some (data dw)))
                     (match getattr a s with Ok v => v | Raise _ => ANone end))
                (for_parameters (p_set_grad None) s)) /\
  grad_in a s1 = grad_sum (grad_in a s) (Some (data dw)) /\
  (forall c, c <> a -> getattr c s1 = getattr c s).
Proof.
  unfold iadd_parameter_grad, grad_in.
  rewrite getattr_for_parameters.
  destruct (getattr a s) as [v|] eqn:G; [|discriminate].
  destruct v; try discriminate. cbn [rmap bind attr_for_parameter].
  destruct (grad_iadd (p_grad p) dw) as [g'|] eqn:I; [|discriminate].
  intros H; injection H as <-.
  destruct (grad_iadd_sum _ _ _ I) as [I0 ->].
  split; [|split].
  - unfold p_grad at 1. cbn. reflexivity.
  - rewrite (getattr_setattr_eq _ _ _ _ G). reflexivity.
  - intros c N. apply getattr_setattr_ne. exact N.
Qed.

Lemma same_but_grads_cleared (s : Attrs) :
  same_but_grads s (for_parameters (p_set_grad None) s).
Proof.
  unfold same_but_grads. rewrite for_parameters_compose. reflexivity.
Qed.

Lemma same_but_grads_getattr (a : string) (s t : Attrs) :
  same_but_grads s t ->
  rmap (attr_for_parameter (p_set_grad None)) (getattr a s)
  = rmap (attr_for_parameter (p_set_grad None)) (getattr a t).
Proof.
  intros E. rewrite <- !getattr_for_parameters. rewrite E. reflexivity.
Qed.

Lemma same_but_grads_setattr (a : string) (u v : Attr) (s t : Attrs) :
  same_but_grads s t ->
  attr_for_parameter (p_set_grad None) u
  = attr_for_parameter (p_set_grad None) v ->
  same_but_grads (setattr a u s) (setattr a v t).
Proof.
  unfold same_but_grads. intros E A.
  rewrite !setattr_for_parameters, E, A. reflexivity.
Qed.

Lemma grad_in_setattr_ne (a c : string) (v : Attr) (s : Attrs) :
  a <> c -> grad_in a (setattr c v s) = grad_in a s.
Proof. intros N. unfold grad_in. rewrite getattr_setattr_ne; auto. Qed.

Lemma same_but_grads_get_dtype (a : string) (s t : Attrs) :
  same_but_grads s t -> get_dtype a s = get_dtype a t.
Proof.
  intros E. pose proof (same_but_grads_getattr a s t E) as H.
  unfold get_dtype.
  destruct (getattr a s) as [[]|], (getattr a t) as [[]|];
    cbn in H; congruence.
Qed.

Lemma iadd_parameter_grad_related (a : string) (dw : Tensor)
      (s t s1 : Attrs) :
  same_but_grads s t -> grad_in a t = None ->
  iadd_parameter_grad a dw s = Ok s1 ->
  exists t1,
    iadd_parameter_grad a dw t = Ok t1 /\ same_but_grads s1 t1 /\
    grad_in a s1 = grad_sum (grad_in a s) (Some (data dw)) /\
    grad_in a t1 = Some (data dw) /\
    (forall c, c <> a -> grad_in c s1 = grad_in c s /\ grad_in c t1 = grad_in c t).
Proof.
  intros E N. pose proof (same_but_grads_getattr a s t E) as R.
  unfold iadd_parameter_grad, grad_in in *.
  destruct (getattr a s) as [v|] eqn:G; [|discriminate].
  destruct v; try discriminate.
  destruct (getattr a t) as [u|] eqn:G'; [|discriminate R].
  destruct u; try discriminate R. cbn in R.
  assert (R' : p_set_grad None p = p_set_grad None p0) by congruence.
  clear R. rewrite N. cbn [grad_iadd].
  destruct (grad_iadd (p_grad p) dw) as [g'|] eqn:I; [|discriminate].
  intros HI; injection HI as <-.
  destruct (grad_iadd_sum _ _ _ I) as [_ ->].
  eexists. split; [reflexivity|]. split; [|split; [|split]].
  - apply same_but_grads_setattr; [exact E|].
    cbn. f_equal. unfold p_set_grad, set_grad in *. cbn in *. congruence.
  - rewrite (getattr_setattr_eq _ _ _ _ G). reflexivity.
  - rewrite (getattr_setattr_eq _ _ _ _ G'). reflexivity.
  - intros c Nc. rewrite !getattr_setattr_ne by exact Nc. split; reflexivity.
Qed.

Lemma grad_sum_none_r (g : option Array) : grad_sum g None = g.
Proof. destruct g; reflexivity. Qed.

(** The closure of a Batchnorm1d on slots that hold gradients and on the
    same slots without: the same result, and the gradients left are the sums
    of those held and those written. *)
Lemma Batchnorm1d_backward_accumulates (gf : GradFunc) (dy : Tensor)
      (s t s2 : Attrs) (r : option Tensor) :
  same_but_grads s t -> grad_in "w" t = None -> grad_in "b" t = None ->
  Batchnorm1d_backward gf dy s = (Ok r, s2) ->
  exists t2,
    Batchnorm1d_backward gf dy t = (Ok r, t2) /\
    grad_in "w" s2 = grad_sum (grad_in "w" s) (grad_in "w" t2) /\
    grad_in "b" s2 = grad_sum (grad_in "b" s) (grad_in "b" t2).
Proof.
  intros E Nw Nb. unfold Batchnorm1d_backward.
  rewrite <- (same_but_grads_get_dtype "dtype" s t E).
  destruct (get_dtype "dtype" s) as [dt|]; [|discriminate].
  destruct (gf (as_type dt dy)) as [[dx dw] db].
  assert (Hwb : "w" <> "b") by discriminate.
  assert (Hbw : "b" <> "w") by discriminate.
  destruct dw as [dw|].
  - destruct (iadd_parameter_grad "w" dw s) as [s1|] eqn:I1; [|discriminate].
    destruct (iadd_parameter_grad_related _ _ _ _ _ E Nw I1)
      as (t1 & -> & E1 & Gs & Gt & O).
    destruct (O "b" Hbw) as [Obs Obt].
    destruct db as [db|].
    + destruct (iadd_parameter_grad "b" db s1) as [s2'|] eqn:I2; [|discriminate].
      assert (Nb1 : grad_in "b" t1 = None) by congruence.
      destruct (iadd_parameter_grad_related _ _ _ _ _ E1 Nb1 I2)
        as (t2 & -> & E2 & Gs2 & Gt2 & O2).
      destruct (O2 "w" Hwb) as [Ows Owt].
      intros H; injection H as <- <-. exists t2. split; [reflexivity|].
      split; congruence.
    + intros H; injection H as <- <-. exists t1. split; [reflexivity|].
      split; [congruence|]. rewrite Obs, Obt, Nb, grad_sum_none_r. reflexivity.
  - destruct db as [db|].
    + destruct (iadd_parameter_grad "b" db s) as [s2'|] eqn:I2; [|discriminate].
      destruct (iadd_parameter_grad_related _ _ _ _ _ E Nb I2)
        as (t2 & -> & E2 & Gs2 & Gt2 & O2).
      destruct (O2 "w" Hwb) as [Ows Owt].
      intros H; injection H as <- <-. exists t2. split; [reflexivity|].
      split; [|congruence]. rewrite Ows, Owt, Nw, grad_sum_none_r. reflexivity.
    + intros H; injection H as <- <-. exists t. split; [reflexivity|].
      rewrite Nw, Nb, !grad_sum_none_r. split; reflexivity.
Qed.

Lemma Batchnorm1d_args_cleared (s : Attrs) :
  Batchnorm1d_args (for_parameters (p_set_grad None) s)
  = rmap (fun '(dt, rmean, rvar, w, b, m, eps) =>
            (dt, rmean, rvar, p_set_grad None w, p_set_grad None b, m, eps))
         (Batchnorm1d_args s).
Proof.
  unfold Batchnorm1d_args, get_dtype, get_buffer, get_parameter, get_float.
  rewrite !getattr_for_parameters.
  destruct (getattr "dtype" s) as [[]|]; try reflexivity.
  destruct (getattr "rmean" s) as [[]|]; try reflexivity.
  destruct (getattr "rvar" s) as [[]|]; try reflexivity.
  destruct (getattr "w" s) as [[]|]; try reflexivity.
  destruct (getattr "b" s) as [[]|]; try reflexivity.
  destruct (getattr "m" s) as [[]|]; try reflexivity.
  destruct (getattr "eps" s) as [[]|]; reflexivity.
Qed.

Lemma backward_unfold (md : NNModule) (dy : Tensor) (k : Continuation) :
  _training md = true -> _backward md = Some k ->
  backward dy md
  = (fst (k dy (slots md)), set_slots (snd (k dy (slots md))) (_set_dy dy md)).
Proof.
  intros T K. unfold backward, training. rewrite T. cbn [negb].
  destruct (_set_dy_fields dy md) as (-> & _ & -> & _). rewrite K.
  destruct (k dy (slots md)); reflexivity.
Qed.

Lemma backward_not_training (md : NNModule) (dy : Tensor) :
  _training md = false -> is_ok (fst (backward dy md)) = false.
Proof. intros T. unfold backward, training. rewrite T. reflexivity. Qed.

Lemma with_statistics_related (rmean rvar : Buffer) (s : Attrs) :
  same_but_grads (with_statistics rmean rvar s)
                 (with_statistics rmean rvar
                                  (for_parameters (p_set_grad None) s)) /\
  (forall a, a = "w" \/ a = "b" ->
             grad_in a (with_statistics rmean rvar s) = grad_in a s /\
             grad_in a (with_statistics rmean rvar
                                        (for_parameters (p_set_grad None) s))
             = None).
Proof.
  unfold with_statistics. split.
  - repeat apply same_but_grads_setattr; try reflexivity.
    apply same_but_grads_cleared.
  - intros a [-> | ->]; rewrite !grad_in_setattr_ne by discriminate;
      rewrite grad_in_cleared; split; reflexivity.
Qed.

(** One pass of a Batchnorm1d from a state that holds gradients, and the
    same pass from that state after [reset]: the gradients left by the first
    are the sums of those held before and those the second writes. *)
Lemma pass_accumulates
      (bn : Tensor -> Buffer -> Buffer -> Array -> Array -> Q -> Q -> bool ->
            Tensor * Buffer * Buffer * option GradFunc)
      (ma mb : NNModule) (x dy : Tensor) (r : option Tensor) :
  gives_gradient_when_training bn ->
  pass bn x dy ma = (Ok r, mb) ->
  exists md,
    pass bn x dy (reset ma) = (Ok r, md) /\
    grad_of "w" mb = grad_sum (grad_of "w" ma) (grad_of "w" md) /\
    grad_of "b" mb = grad_sum (grad_of "b" ma) (grad_of "b" md).
Proof.
  intros G. unfold pass, __call__, Batchnorm1d_forward.
  change (_check_dims x [2%nat; 3%nat] (reset ma))
    with (_check_dims x [2%nat; 3%nat] ma).
  destruct (_check_dims x [2%nat; 3%nat] ma); [|discriminate].
  change (slots (reset ma)) with (for_parameters (p_set_grad None) (slots ma)).
  rewrite Batchnorm1d_args_cleared.
  destruct (Batchnorm1d_args (slots ma))
    as [[[[[[[dt rmean] rvar] w] b] m] eps]|]; [|discriminate].
  cbn [rmap bind].
  change (data (p_tensor (p_set_grad None w))) with (data (p_tensor w)).
  change (data (p_tensor (p_set_grad None b))) with (data (p_tensor b)).
  change (_training (reset ma)) with (_training ma).
  destruct (_training ma) eqn:T.
  - destruct (bn (as_type dt x) rmean rvar (data (p_tensor w))
                 (data (p_tensor b)) m eps true)
      as [[[v rmean'] rvar'] [gf|]] eqn:B.
    + fold (with_statistics rmean' rvar' (slots ma)).
      fold (with_statistics rmean' rvar'
              (for_parameters (p_set_grad None) (slots ma))).
      set (s := with_statistics rmean' rvar' (slots ma)).
      set (t := with_statistics rmean' rvar'
                  (for_parameters (p_set_grad None) (slots ma))).
      set (mr := _set_y v (set_backward_field
                             (Some (Batchnorm1d_backward gf)) (set_slots s ma))).
      set (mi := _set_y v (set_backward_field
                             (Some (Batchnorm1d_backward gf))
                             (set_slots t (reset ma)))).
      assert (Fr : _training mr = true /\
                   _backward mr = Some (Batchnorm1d_backward gf) /\
                   slots mr = s).
      { subst mr. destruct (_set_y_fields v (set_backward_field
                     (Some (Batchnorm1d_backward gf)) (set_slots s ma)))
          as (-> & -> & -> & _). cbn. auto. }
      assert (Fi : _training mi = true /\
                   _backward mi = Some (Batchnorm1d_backward gf) /\
                   slots mi = t).
      { subst mi. destruct (_set_y_fields v (set_backward_field
                     (Some (Batchnorm1d_backward gf)) (set_slots t (reset ma))))
          as (-> & -> & -> & _). cbn. auto. }
      destruct Fr as (Tr & Kr & Sr). destruct Fi as (Ti & Ki & Si).
      rewrite (backward_unfold mr dy _ Tr Kr), (backward_unfold mi dy _ Ti Ki).
      rewrite Sr, Si.
      destruct (Batchnorm1d_backward gf dy s) as [r0 s2] eqn:K.
      cbn [fst snd]. intros H. injection H as -> <-.
      destruct (with_statistics_related rmean' rvar' (slots ma)) as [E N].
      destruct (N "w" (or_introl eq_refl)) as [Nw1 Nw2].
      destruct (N "b" (or_intror eq_refl)) as [Nb1 Nb2].
      destruct (Batchnorm1d_backward_accumulates gf dy s t s2 r E Nw2 Nb2 K)
        as (t2 & -> & Gw & Gb).
      eexists. split; [reflexivity|].
      rewrite !grad_of_slots. cbn [slots set_slots fst snd].
      subst s. rewrite Nw1 in Gw. rewrite Nb1 in Gb. split; assumption.
    + exfalso. apply (G (as_type dt x) rmean rvar (data (p_tensor w))
                        (data (p_tensor b)) m eps). rewrite B. reflexivity.
  - destruct (bn _ _ _ _ _ _ _ _) as [[[v rmean'] rvar'] gfo].
    intros H. exfalso.
    match type of H with
    | backward dy ?mm = _ =>
        assert (F : is_ok (fst (backward dy mm)) = false)
    end.
    { apply backward_not_training.
      match goal with
      | |- _training (_set_y ?v ?m0) = false =>
          destruct (_set_y_fields v m0) as (_ & -> & _)
      end.
      destruct gfo; exact T. }
    rewrite H in F. discriminate F.
Qed.

(** A pass of the fully connected layer writes [x.T @ y_grad] into the
    GradientSlot of the weights, whatever the slot held. *)
Lemma Linear_backward_overwrites
      (Y : Type) (set_y set_y_grad : Walnut.Matrix -> Y -> Y)
      (l l1 l2 : Walnut.Linear Y) (x g v xg : Walnut.Matrix) :
  Walnut.training l = true ->
  Walnut.Linear__call__ set_y set_y_grad x l = (Ok v, l1) ->
  Walnut.call_backward g l1 = (Ok xg, l2) ->
  exists G, Walnut.matmul (Walnut.transpose x) g = Ok G /\
            Walnut.weight_grad l2 = Some G.
Proof.
  intros T. unfold Walnut.Linear__call__.
  destruct (Walnut.matmul x _) as [v0|]; [|discriminate].
  destruct (if Walnut.use_bias (Walnut.core l) then _ else _) as [v1|];
    [|discriminate].
  rewrite T. intros H; injection H as _ <-.
  unfold Walnut.call_backward. cbn [Walnut.backward Walnut.core].
  unfold Walnut.Linear_backward.
  destruct (Walnut.matmul g _) as [xg0|]; [|discriminate].
  change (Walnut.transpose_axes (Walnut.w_ax (Walnut.mat_ndim x)) x)
    with (Ok (A := Walnut.Matrix) (Walnut.transpose x)).
  cbn [bind].
  destruct (Walnut.matmul (Walnut.transpose x) g) as [G|]; [|discriminate].
  cbn [Walnut.use_bias Walnut.b Walnut.w Walnut.kept].
  destruct (Walnut.use_bias (Walnut.core l)).
  - destruct (Walnut.b (Walnut.core l)); [|discriminate].
    intros H; injection H as _ <-. exists G. split; reflexivity.
  - intros H; injection H as _ <-. exists G. split; reflexivity.
Qed.

(** C1 (amended). Gradient accumulation.  In a Batchnorm1d, whose backward
    closure writes with [+=], a second pass (call and [backward]) that
    follows a first one without [reset] leaves in the GradientSlots of [w]
    and [b] the sum of what the first pass left and what the second pass
    writes when it runs alone, after [reset].  In the fully connected layer
    of walnut, whose backward closure assigns, every pass leaves [x.T @
    y_grad] of that pass alone in the GradientSlot of the weights. *)
Theorem gradient_accumulation :
  (forall (bn : Tensor -> Buffer -> Buffer -> Array -> Array -> Q -> Q -> bool ->
                Tensor * Buffer * Buffer * option GradFunc)
          (m0 ma mb : NNModule) (x1 dy1 x2 dy2 : Tensor)
          (r1 r2 : option Tensor),
      gives_gradient_when_training bn ->
      pass bn x1 dy1 (reset m0) = (Ok r1, ma) ->
      pass bn x2 dy2 ma = (Ok r2, mb) ->
      exists mi,
        pass bn x2 dy2 (reset ma) = (Ok r2, mi) /\
        grad_of "w" mb = grad_sum (grad_of "w" ma) (grad_of "w" mi) /\
        grad_of "b" mb = grad_sum (grad_of "b" ma) (grad_of "b" mi)) /\
  (forall (Y : Type) (set_y set_y_grad : Walnut.Matrix -> Y -> Y)
          (l l1 l2 : Walnut.Linear Y) (x g v xg : Walnut.Matrix),
      Walnut.training l = true ->
      Walnut.Linear__call__ set_y set_y_grad x l = (Ok v, l1) ->
      Walnut.call_backward g l1 = (Ok xg, l2) ->
      exists G, Walnut.matmul (Walnut.transpose x) g = Ok G /\
                Walnut.weight_grad l2 = Some G).
Proof.
  split.
  - intros bn m0 ma mb x1 dy1 x2 dy2 r1 r2 G _ P2.
    exact (pass_accumulates bn ma mb x2 dy2 r2 G P2).
  - exact Linear_backward_overwrites.
Qed.

Lemma sample_batchnorm1d_gives_gradient :
  gives_gradient_when_training sample_batchnorm1d.
Proof. intros x rmean rvar w b m eps. cbn. discriminate. Qed.

(** C1, as stated, fails: two passes of the fully connected layer without
    reset leave the gradient of the second pass in the GradientSlot of the
    weights, not the sum of the gradients of the two. *)
Lemma linear_second_backward_overwrites :
  ~ (forall (l : Walnut.Linear unit) (x1 g1 x2 g2 : Walnut.Matrix),
        Walnut.training l = true ->
        Walnut.weight_grad l = None ->
        Walnut.option_mat_eq
          (Walnut.weight_grad
             (Walnut.forward_backward keep_nothing keep_nothing x2 g2
                (Walnut.forward_backward keep_nothing keep_nothing x1 g1 l)))
          (Walnut.mat_grad_sum
             (Walnut.weight_grad
                (Walnut.forward_backward keep_nothing keep_nothing x1 g1 l))
             (Walnut.weight_grad
                (Walnut.forward_backward keep_nothing keep_nothing x2 g2 l)))).
Proof.
  intros H.
  specialize (H unit_linear one_by_one one_by_one one_by_one one_by_one
                eq_refl eq_refl).
  vm_compute in H. destruct H as (_ & _ & H).
  inversion H as [|? ? ? ? R _]; subst. inversion R as [|? ? ? ? Q _]; subst.
  discriminate Q.
Qed.

Lemma gradient_accumulation_witness :
  (exists r2 ma mb mi,
      pass sample_batchnorm1d batch_3x2 batch_3x2 ma = (Ok r2, mb) /\
      pass sample_batchnorm1d batch_3x2 batch_3x2 (reset ma) = (Ok r2, mi) /\
      grad_of "w" mb = grad_sum (grad_of "w" ma) (grad_of "w" mi) /\
      grad_of "b" mb = grad_sum (grad_of "b" ma) (grad_of "b" mi)) /\
  (exists G, Walnut.matmul (Walnut.transpose one_by_one) one_by_one = Ok G /\
             Walnut.weight_grad
               (Walnut.forward_backward keep_nothing keep_nothing
                                        one_by_one one_by_one unit_linear)
             = Some G).
Proof.
  split.
  - destruct (proj1 gradient_accumulation sample_batchnorm1d sample_batchnorm
                    (snd (pass sample_batchnorm1d batch_3x2 batch_3x2
                               (reset sample_batchnorm)))
                    (snd (pass sample_batchnorm1d batch_3x2 batch_3x2
                               (snd (pass sample_batchnorm1d batch_3x2 batch_3x2
                                          (reset sample_batchnorm)))))
                    batch_3x2 batch_3x2 batch_3x2 batch_3x2
                    (Some batch_3x2) (Some batch_3x2)
                    sample_batchnorm1d_gives_gradient eq_refl eq_refl)
      as (mi & P & Gw & Gb).
    exists (Some batch_3x2),
      (snd (pass sample_batchnorm1d batch_3x2 batch_3x2
                 (reset sample_batchnorm))),
      (snd (pass sample_batchnorm1d batch_3x2 batch_3x2
                 (snd (pass sample_batchnorm1d batch_3x2 batch_3x2
                            (reset sample_batchnorm))))),
      mi.
    split; [reflexivity|]. split; [exact P|].
    split; [exact Gw|exact Gb].
  - eapply (proj2 gradient_accumulation unit keep_nothing keep_nothing
                  unit_linear _ _ one_by_one one_by_one);
      reflexivity.
Defined.

(** ** The fully connected layer on a batch of ones *)

(** C5. A fully connected layer with 3 inputs, 2 outputs, no bias and the
    weights [W], called in training mode on the all-ones input of shape
    (4, 3), returns in each of the 4 rows the sums of the columns of [W];
    the closure it stored, called with the all-ones output gradient of shape
    (4, 2), sets the weight gradient to [input.T @ ones], the 3x2 matrix
    whose entries are all 4, and returns the input gradient [ones @ W.T]. *)
Theorem linear_layer_on_ones
        (Y : Type) (set_y set_y_grad : Walnut.Matrix -> Y -> Y)
        (kept : Y) (drawn : Walnut.Matrix) (w00 w01 w10 w11 w20 w21 : Q) :
  let W := Walnut.mkMatrix 3 2 [[w00; w01]; [w10; w11]; [w20; w21]] in
  let l := Walnut.Linear__init__ 3 2 (Some (Walnut.mkWTensor W None)) false
                                 drawn true kept in
  let x := Walnut.mat_ones 4 3 in
  let dy := Walnut.mat_ones 4 2 in
  exists (v xg G : Walnut.Matrix) (l1 l2 : Walnut.Linear Y),
    Walnut.Linear__call__ set_y set_y_grad x l = (Ok v, l1) /\
    Walnut.mat_eq v
      (Walnut.mkMatrix 4 2
         (repeat [w00 + w10 + w20; w01 + w11 + w21]%Q 4)) /\
    Walnut.call_backward dy l1 = (Ok xg, l2) /\
    Walnut.matmul (Walnut.transpose x) dy = Ok G /\
    Walnut.weight_grad l2 = Some G /\
    Walnut.mat_eq G (Walnut.mat_full 3 2 4%Q) /\
    Walnut.matmul dy (Walnut.transpose W) = Ok xg /\
    Walnut.mat_eq xg
      (Walnut.mkMatrix 4 3
         (repeat [w00 + w01; w10 + w11; w20 + w21]%Q 4)).
Proof.
  cbv zeta.
  eexists _, _, _, _, _.
  split; [reflexivity|].
  split.
  { repeat split. cbn -[Qplus Qmult].
    repeat (constructor; [repeat (constructor; [ring|]); constructor|]).
    constructor. }
  split; [reflexivity|].
  split; [reflexivity|].
  split; [reflexivity|].
  split.
  { repeat split. cbn -[Qplus Qmult].
    repeat (constructor; [repeat (constructor; [ring|]); constructor|]).
    constructor. }
  split; [reflexivity|].
  repeat split. cbn -[Qplus Qmult].
  repeat (constructor; [repeat (constructor; [ring|]); constructor|]).
  constructor.
Qed.

(** ** Saving and loading *)

Lemma to_device_cpu (cuda : bool) (m : NNModule) :
  exists m1,
    to_device cuda CPU m = (Ok tt, m1) /\
    _device m1 = CPU /\
    label m1 = label m /\ _training m1 = _training m /\
    _trainable m1 = _trainable m /\ _retain_values m1 = _retain_values m /\
    List.map param_content (parameters m1) = List.map param_content (parameters m) /\
    List.map buffer_content (buffers m1) = List.map buffer_content (buffers m) /\
    (on_own_device m -> on_own_device m1).
Proof.
  unfold to_device. destruct (_device m) eqn:D; cbn [Device_eqb].
  - exists m. do 8 (split; [auto|]). auto.
  - cbn [_check_device_availability]. eexists. split; [reflexivity|].
    unfold on_own_device, parameters, buffers.
    cbn [slots set_slots set_y_field set_device_field _device label
         _training _trainable _retain_values].
    rewrite slot_parameters_for_parameters, slot_parameters_for_buffers.
    rewrite slot_buffers_for_parameters, slot_buffers_for_buffers.
    rewrite !List.map_map.
    do 7 (split; [reflexivity|]).
    intros _. split.
    + induction (slot_parameters (slots m)); constructor; auto.
    + induction (slot_buffers (slots m)); constructor; auto.
Qed.

Lemma reset_buffers (m : NNModule) : buffers (reset m) = buffers m.
Proof.
  unfold buffers.
  change (slots (reset m)) with (for_parameters (p_set_grad None) (slots m)).
  apply slot_buffers_for_parameters.
Qed.

Lemma reset_content (m : NNModule) :
  List.map param_content (parameters (reset m)) = List.map param_content (parameters m) /\
  buffers (reset m) = buffers m /\
  (on_own_device m -> on_own_device (reset m)).
Proof.
  split; [rewrite reset_parameters, List.map_map; reflexivity|].
  split; [apply reset_buffers|].
  unfold on_own_device. rewrite reset_buffers, reset_parameters.
  change (_device (reset m)) with (_device m).
  intros [P B]. split; [|exact B].
  induction P; constructor; auto.
Qed.

(** C4 (amended). Save and load: [save_module] moves the module to the CPU
    device and clears the transient state with [reset] before it pickles
    the module; for a module whose tensors are on the module's device, every
    owned tensor is then on the CPU.  With a pickle that reads back what it
    wrote, [load_module] returns the module as it was saved: the same label,
    the same labels, shapes, element types and values of parameters and
    buffers as [m], no retained output, no continuation, no gradient, and the
    training flag [m] had when it was saved. *)
Theorem save_then_load
        (blob : Type) (empty_file : blob)
        (pickle_dump : NNModule -> result blob)
        (pickle_load : blob -> result NNModule)
        (cuda : bool) (m : NNModule) (filepath : string)
        (fs : gmap string blob) :
  pickle_round_trip blob pickle_dump pickle_load ->
  on_own_device m ->
  exists (m' : NNModule) (fs' : gmap string blob),
    save_module blob empty_file pickle_dump cuda m filepath fs
    = (Ok tt, m', fs') /\
    m' = reset (snd (to_device cuda CPU m)) /\
    _device m' = CPU /\
    Forall (fun p => t_device (p_tensor p) = CPU) (parameters m') /\
    Forall (fun b => t_device (b_tensor b) = CPU) (buffers m') /\
    load_module blob pickle_load filepath fs' = Ok m' /\
    y m' = None /\ _backward m' = None /\
    Forall (fun p => p_grad p = None) (parameters m') /\
    label m' = label m /\
    List.map param_content (parameters m') = List.map param_content (parameters m) /\
    List.map buffer_content (buffers m') = List.map buffer_content (buffers m) /\
    _training m' = _training m.
Proof.
  intros RT O. unfold save_module.
  destruct (to_device_cpu cuda m)
    as (m1 & -> & D & L & T & _ & _ & PC & BC & O1).
  destruct (RT (reset m1) eq_refl) as (b & -> & Ld).
  destruct (reset_content m1) as (RP & RB & RO).
  destruct (RO (O1 O)) as [OP OB]. change (_device (reset m1)) with (_device m1) in *.
  rewrite D in OP, OB.
  exists (reset m1), (<[filepath := b]> fs).
  split; [reflexivity|]. split; [reflexivity|]. split; [exact D|].
  split; [exact OP|]. split; [exact OB|].
  split. { unfold load_module. rewrite lookup_insert_eq. exact Ld. }
  split; [reflexivity|]. split; [reflexivity|].
  split; [apply reset_clears_gradients|].
  split; [exact L|]. split; [congruence|]. split; [rewrite RB; exact BC|].
  exact T.
Qed.

Lemma graph_pickle_round_trip :
  pickle_round_trip (option NNModule) graph_dump graph_load.
Proof.
  intros m K. exists (Some m). unfold graph_dump. rewrite K.
  split; reflexivity.
Qed.

Lemma trained_batchnorm_on_own_device : on_own_device trained_batchnorm.
Proof. split; repeat constructor. Qed.

(** C4, as stated, fails: a module saved in training mode is loaded in
    training mode. *)
Lemma loaded_module_keeps_training_flag :
  ~ (forall (m : NNModule) (filepath : string)
            (fs : gmap string (option NNModule)),
        on_own_device m ->
        exists m',
          load_module (option NNModule) graph_load filepath
            (snd (save_module (option NNModule) None graph_dump false
                              m filepath fs))
          = Ok m' /\ _training m' = false).
Proof.
  intros H.
  destruct (H trained_batchnorm "model.pkl" ∅ trained_batchnorm_on_own_device)
    as (m' & L & T).
  unfold load_module, save_module in L. cbn in L.
  rewrite lookup_insert_eq in L. injection L as <-.
  discriminate T.
Qed.

Lemma save_then_load_witness :
  exists m',
    load_module (option NNModule) graph_load "model.pkl"
      (snd (save_module (option NNModule) None graph_dump false
                        trained_batchnorm "model.pkl" ∅))
    = Ok m' /\
    _backward m' = None /\ _training m' = true /\
    List.map param_content (parameters m')
    = List.map param_content (parameters trained_batchnorm).
Proof.
  destruct (save_then_load (option NNModule) None graph_dump graph_load false
              trained_batchnorm "model.pkl" ∅
              graph_pickle_round_trip trained_batchnorm_on_own_device)
    as (m' & fs' & S & _ & _ & _ & _ & L & _ & B & _ & _ & P & _ & T).
  exists m'. rewrite S. cbn [snd]. split; [exact L|].
  split; [exact B|]. split; [rewrite T; reflexivity|exact P].
Defined.

(** ** The gradient of the mean squared error *)

Lemma backward_elems_as_specified (n : Q) (p t : list Q) :
  Forall2 Qeq
          (List.map (fun x => x / n)%Q
                    (List.map (fun x => x * 2)%Q (sub_elems p t)))
          (spec_gradient_elems n p t).
Proof.
  revert t. induction p as [|x p IH]; intros [|z t]; cbn; constructor.
  - unfold Qdiv. ring.
  - apply IH.
Qed.

(** The squared error along a move [h] of the prediction: the change is the
    inner product of the gradient with [h] plus the mean of the squares of
    [h]. *)
Lemma squared_error_expansion (n : Q) (p t h : list Q) :
  List.length t = List.length p -> List.length h = List.length p ->
  (sumQ (List.map (fun x => x * x) (sub_elems (add_elems p h) t)) / n
   - sumQ (List.map (fun x => x * x) (sub_elems p t)) / n
   == inner (List.map (fun x => x / n)
                      (List.map (fun x => x * 2) (sub_elems p t))) h
      + sumQ (List.map (fun x => x * x) h) / n)%Q.
Proof.
  revert t h. induction p as [|x p IH]; intros [|z t] [|k h] Lt Lh;
    try discriminate.
  - cbn. unfold Qdiv. ring.
  - cbn in Lt, Lh. injection Lt as Lt. injection Lh as Lh.
    specialize (IH t h Lt Lh). cbn. unfold sumQ in *. unfold Qdiv in *.
    set (S1 := fold_right Qplus 0%Q
                 (List.map (fun x => x * x)%Q (sub_elems (add_elems p h) t))) in *.
    set (S2 := fold_right Qplus 0%Q
                 (List.map (fun x => x * x)%Q (sub_elems p t))) in *.
    set (S3 := fold_right Qplus 0%Q (List.map (fun x => x * x)%Q h)) in *.
    set (I := inner _ h) in *.
    setoid_replace (((x + k - z) * (x + k - z) + S1) * / n
                    - ((x - z) * (x - z) + S2) * / n)%Q
      with (((x + k - z) * (x + k - z) - (x - z) * (x - z)) * / n
            + (S1 * / n - S2 * / n))%Q using relation Qeq by ring.
    rewrite IH. ring.
Qed.

(** C6. The gradient of the mean squared error: for predictions and targets
    of one shape, [backward] on the cache that [forward] filled returns
    [2 * (y_pred - y_true) / size(y_pred)], entry by entry, in the shape of
    [y_pred]; and this is the gradient of the loss [mean((y_pred -
    y_true)^2)] at the cached prediction: moving the prediction by [h]
    changes the loss by the inner product of the returned gradient with [h]
    plus the mean of the squares of [h]. *)
Theorem mean_squared_error_gradient
        (fields : gmap string Tensor) (y_pred y_true : Tensor) :
  t_shape y_pred = t_shape y_true ->
  exists (loss g : Tensor) (cache : Cache),
    FMeanSquaredError_forward (FunctionCache fields) y_pred y_true
    = Ok (loss, cache) /\
    FMeanSquaredError_backward cache = Ok g /\
    same_array (data g) (spec_gradient y_pred y_true) /\
    (a_well_formed (data y_pred) -> a_well_formed (data y_true) ->
     forall h : list Q,
       List.length h = size y_pred ->
       (loss_value (moved h y_pred) y_true - loss_value y_pred y_true
        == inner (elems (data g)) h
           + sumQ (List.map (fun x => x * x) h) / float_of_nat (size y_pred))%Q).
Proof.
  intros S. unfold FMeanSquaredError_forward, t_sub.
  rewrite (bool_decide_eq_true_2 _ S). cbn [bind].
  eexists _, _, _. split; [reflexivity|].
  unfold FMeanSquaredError_backward, cache_set, cache_get.
  rewrite lookup_insert_eq.
  rewrite lookup_insert_ne by discriminate. rewrite lookup_insert_eq.
  cbn [bind]. split; [reflexivity|]. split.
  - split; [reflexivity|]. cbn. apply backward_elems_as_specified.
  - intros Wp Wt h Lh. unfold loss_value, FMeanSquaredError_forward, t_sub.
    assert (S' : t_shape (moved h y_pred) = t_shape y_true) by exact S.
    rewrite (bool_decide_eq_true_2 _ S), (bool_decide_eq_true_2 _ S').
    cbn. unfold a_well_formed, a_size in Wp, Wt. unfold size, a_size in Lh.
    unfold a_size. apply squared_error_expansion.
    + unfold t_shape in S. rewrite Wt, Wp, S. reflexivity.
    + rewrite Lh, Wp. reflexivity.
Qed.

Lemma mean_squared_error_gradient_witness :
  exists g : Tensor,
    FMeanSquaredError_backward
      (FunctionCache
         (<["dif" := tensor [2%nat] [1 # 2; 3 # 2]%Q]>
            (<["y_pred" := tensor [2%nat] [1; 2]%Q]> ∅)))
    = Ok g /\
    same_array (data g) (mkArray [2%nat] [1 # 2; 3 # 2]%Q FLOAT32 CPU) /\
    (loss_value (moved [1; 1]%Q (tensor [2%nat] [1; 2]%Q))
                (tensor [2%nat] [1 # 2; 1 # 2]%Q)
     - loss_value (tensor [2%nat] [1; 2]%Q) (tensor [2%nat] [1 # 2; 1 # 2]%Q)
     == inner (elems (data g)) [1; 1] + (1 * 1 + (1 * 1 + 0)) / 2)%Q.
Proof.
  destruct (mean_squared_error_gradient
              ∅ (tensor [2%nat] [1; 2]%Q) (tensor [2%nat] [1 # 2; 1 # 2]%Q)
              eq_refl) as (loss & g & cache & F & B & [Sh El] & X).
  injection F as _ <-. exists g. split; [exact B|]. split.
  - split; [exact Sh|].
    cbn in El. inversion El as [|? ? ? ? E1 El1]; subst.
    inversion El1 as [|? ? ? ? E2 El2]; subst. inversion El2; subst.
    constructor; [rewrite E1; reflexivity|].
    constructor; [rewrite E2; reflexivity|constructor].
  - exact (X eq_refl eq_refl [1; 1]%Q eq_refl).
Defined.

(** ** Lookups by name *)

Lemma METRICS_lookup (name : string) :
  METRICS !! name
  = if String.eqb name "accuracy" then Some Accuracy
    else if String.eqb name "r2" then Some R2 else None.
Proof.
  unfold METRICS.
  destruct (String.eqb_spec name "accuracy") as [->|N1].
  { apply lookup_insert_eq. }
  rewrite lookup_insert_ne by congruence.
  destruct (String.eqb_spec name "r2") as [->|N2].
  { apply lookup_insert_eq. }
  rewrite lookup_insert_ne by congruence. apply lookup_empty.
Qed.

(** C9. Lookups by name: [get_metric_function] returns the metric for the
    names "accuracy" and "r2" (and an instance as it is) and, for every
    other name, raises a ValueError whose text names that name; the read of
    the target metric at the start of [EarlyStopping.on_epoch] returns the
    entry of the trainer state it reads or raises an error that names a key
    missing from the trainer state, the target or the key of the history it
    reads. *)
Theorem lookup_by_name :
  (forall m : Metric, get_metric_function (AnInstance m) = Ok m) /\
  get_metric_function (AName "accuracy") = Ok Accuracy /\
  get_metric_function (AName "r2") = Ok R2 /\
  (forall name : string,
      name <> "accuracy" -> name <> "r2" ->
      get_metric_function (AName name)
      = Raise (ValueError ("Unknown metric function: " +:+ name +:+ ".")) /\
      names (message (ValueError ("Unknown metric function: " +:+ name +:+ ".")))
            name) /\
  (forall (cb : EarlyStopping) (tr : Trainer),
      match read_history cb tr with
      | Ok v =>
          is_Some (state tr !! target cb) /\
          state tr !! ("epoch_" +:+ target cb) = Some v
      | Raise e =>
          exists key : string,
            (key = target cb \/ key = "epoch_" +:+ target cb) /\
            state tr !! key = None /\
            names (message e) key
      end).
Proof.
  split; [reflexivity|]. split; [reflexivity|]. split; [reflexivity|].
  split.
  - intros name N1 N2. unfold get_metric_function.
    rewrite METRICS_lookup.
    destruct (String.eqb_spec name "accuracy"); [contradiction|].
    destruct (String.eqb_spec name "r2"); [contradiction|].
    split; [reflexivity|].
    exists "Unknown metric function: ", ".". reflexivity.
  - intros cb tr. unfold read_history.
    destruct (state tr !! target cb) as [v0|] eqn:T.
    + destruct (state tr !! ("epoch_" +:+ target cb)) as [v|] eqn:H.
      * split; [eauto|reflexivity].
      * exists ("epoch_" +:+ target cb). split; [right; reflexivity|].
        split; [exact H|]. exists "'", "'". reflexivity.
    + exists (target cb). split; [left; reflexivity|]. split; [exact T|].
      exists "", " not found in trainer state.". reflexivity.
Qed.

Lemma lookup_by_name_witness :
  get_metric_function (AName "f1")
  = Raise (ValueError "Unknown metric function: f1.") /\
  names "Unknown metric function: f1." "f1".
Proof.
  destruct lookup_by_name as (_ & _ & _ & H & _).
  apply (H "f1"); discriminate.
Defined.

(** ** Early stopping *)

Lemma restore_same_length (ps best : list Param) :
  List.length ps = List.length best ->
  exists ps', restore ps best = (Ok tt, ps') /\ arrays_of ps' = arrays_of best.
Proof.
  revert best. induction ps as [|p ps IH]; intros [|q best] L; try discriminate.
  - exists []. split; reflexivity.
  - injection L as L. destruct (IH best L) as (ps' & R & A).
    exists (take_data q p :: ps'). cbn. rewrite R. split; [reflexivity|].
    unfold arrays_of in *. cbn. rewrite A. reflexivity.
Qed.

(** The callback called after an epoch of training reads the history with
    the loss of the epoch appended. *)
Lemma on_epoch_after_training (cb : EarlyStopping) (tr : Trainer) (e : Epoch) :
  target cb = "loss" ->
  on_epoch cb (after_training e tr)
  = on_epoch_with (history_of tr ++ [e_loss e]) cb (after_training e tr) /\
  history_of (after_training e tr) = history_of tr ++ [e_loss e].
Proof.
  intros T. unfold on_epoch, read_history, history_of, after_training.
  rewrite T. cbn [state].
  rewrite lookup_insert_ne by discriminate. rewrite lookup_insert_eq.
  change ("epoch_" +:+ "loss") with "epoch_loss". rewrite lookup_insert_eq.
  split; reflexivity.
Qed.

Lemma history_of_same_state (tr : Trainer) (ps : list Param) (a : bool) :
  history_of (mkTrainer (state tr) ps a) = history_of tr.
Proof. reflexivity. Qed.

(** C7. Early stopping with patience 3 and restoration of the best
    parameters, called once per epoch over the losses 1.0, 0.9, 0.95, 0.97,
    0.99: the callback returns normally in every epoch, the abort flag is
    unset after the epochs 1 to 4 and set after epoch 5, and the arrays of
    the model's parameters are then those of the parameters of epoch 2, the
    epoch of the best loss. *)
Theorem early_stopping_scenario (p1 p2 p3 p4 p5 : list Param) :
  List.length p5 = List.length p2 ->
  let trace := drive (EarlyStopping__init__ 3 true "loss") new_trainer
                     (five_epochs p1 p2 p3 p4 p5) in
  List.map (fun s => is_ok (fst (fst s))) trace
  = [true; true; true; true; true] /\
  List.map (fun s => abort (snd s)) trace
  = [false; false; false; false; true] /\
  List.map (fun s => best_loss (snd (fst s))) trace
  = [Finite 1; Finite (9 # 10); Finite (9 # 10); Finite (9 # 10);
     Finite (9 # 10)] /\
  exists final,
    List.last trace final = final /\
    nth_error trace 4 = Some final /\
    arrays_of (model_parameters (snd final)) = arrays_of p2.
Proof.
  intros L. cbv zeta.
  destruct (restore_same_length p5 p2 L) as (ps' & R & A).
  set (cb0 := EarlyStopping__init__ 3 true "loss").
  set (cb1 := mkEarlyStopping 3 true "loss" (Finite 1) (Some p1)).
  set (cb2 := mkEarlyStopping 3 true "loss" (Finite (9 # 10)) (Some p2)).
  set (t1 := after_training (mkEpoch 1 p1) new_trainer).
  set (t2 := after_training (mkEpoch (9 # 10) p2) t1).
  set (t3 := after_training (mkEpoch (95 # 100) p3) t2).
  set (t4 := after_training (mkEpoch (97 # 100) p4) t3).
  set (t5 := after_training (mkEpoch (99 # 100) p5) t4).
  destruct (on_epoch_after_training cb0 new_trainer (mkEpoch 1 p1) eq_refl)
    as [O1 H1].
  destruct (on_epoch_after_training cb1 t1 (mkEpoch (9 # 10) p2) eq_refl)
    as [O2 H2].
  destruct (on_epoch_after_training cb2 t2 (mkEpoch (95 # 100) p3) eq_refl)
    as [O3 H3].
  destruct (on_epoch_after_training cb2 t3 (mkEpoch (97 # 100) p4) eq_refl)
    as [O4 H4].
  destruct (on_epoch_after_training cb2 t4 (mkEpoch (99 # 100) p5) eq_refl)
    as [O5 H5].
  fold t1 in O1, H1. fold t2 in O2, H2. fold t3 in O3, H3.
  fold t4 in O4, H4. fold t5 in O5, H5.
  change (history_of new_trainer) with (@nil Q) in *.
  rewrite H1 in O2, H2. rewrite H2 in O3, H3. rewrite H3 in O4, H4.
  rewrite H4 in O5. cbn [app e_loss] in O1, O2, O3, O4, O5.
  assert (E1 : on_epoch cb0 t1 = (Ok tt, cb1, t1)) by (rewrite O1; reflexivity).
  assert (E2 : on_epoch cb1 t2 = (Ok tt, cb2, t2)) by (rewrite O2; reflexivity).
  assert (E3 : on_epoch cb2 t3 = (Ok tt, cb2, t3)) by (rewrite O3; reflexivity).
  assert (E4 : on_epoch cb2 t4 = (Ok tt, cb2, t4)) by (rewrite O4; reflexivity).
  assert (E5 : on_epoch cb2 t5
               = (Ok tt, cb2, mkTrainer (state t5) ps' true)).
  { rewrite O5.
    transitivity (match restore p5 p2 with
                  | (Raise e, ps) =>
                      (Raise e, cb2, mkTrainer (state t5) ps (abort t5))
                  | (Ok _, ps) => (Ok tt, cb2, mkTrainer (state t5) ps true)
                  end); [reflexivity|].
    rewrite R. reflexivity. }
  assert (T : drive cb0 new_trainer (five_epochs p1 p2 p3 p4 p5)
              = [(Ok tt, cb1, t1); (Ok tt, cb2, t2); (Ok tt, cb2, t3);
                 (Ok tt, cb2, t4);
                 (Ok tt, cb2, mkTrainer (state t5) ps' true)]).
  { unfold five_epochs, drive.
    fold t1. rewrite E1. cbv beta iota.
    change (is_ok (Ok tt) && negb (abort t1)) with true. cbv beta iota.
    fold t2. rewrite E2. cbv beta iota.
    change (is_ok (Ok tt) && negb (abort t2)) with true. cbv beta iota.
    fold t3. rewrite E3. cbv beta iota.
    change (is_ok (Ok tt) && negb (abort t3)) with true. cbv beta iota.
    fold t4. rewrite E4. cbv beta iota.
    change (is_ok (Ok tt) && negb (abort t4)) with true. cbv beta iota.
    fold t5. rewrite E5. reflexivity. }
  rewrite T. split; [reflexivity|]. split; [reflexivity|].
  split; [reflexivity|].
  eexists. split; [reflexivity|]. split; [reflexivity|]. exact A.
Qed.

Lemma early_stopping_scenario_witness :
  let trace := drive (EarlyStopping__init__ 3 true "loss") new_trainer
                     (five_epochs (one_parameter 1) (one_parameter 2)
                                  (one_parameter 3) (one_parameter 4)
                                  (one_parameter 5)) in
  List.map (fun s => abort (snd s)) trace
  = [false; false; false; false; true].
Proof.
  exact (proj1 (proj2 (early_stopping_scenario
                         (one_parameter 1) (one_parameter 2) (one_parameter 3)
                         (one_parameter 4) (one_parameter 5) eq_refl))).
Defined.

(** ** Batches of a data loader *)

Lemma slice_chunk {T : Type} (l : list T) (a c : nat) :
  DataLoaders.slice l (Z.of_nat a) (Z.of_nat (a + c)) = firstn c (skipn a l).
Proof.
  unfold DataLoaders.slice, DataLoaders.clamp.
  destruct (Z.ltb_spec (Z.of_nat a) 0) as [?|_]; [lia|].
  destruct (Z.ltb_spec (Z.of_nat (a + c)) 0) as [?|_]; [lia|].
  destruct (Nat.le_gt_cases (List.length l) a) as [G|G].
  - replace (Z.to_nat (Z.min (Z.of_nat a) (Z.of_nat (List.length l))))
      with (List.length l) by lia.
    rewrite List.skipn_all, (List.skipn_all2 l G), !List.firstn_nil.
    reflexivity.
  - replace (Z.to_nat (Z.min (Z.of_nat a) (Z.of_nat (List.length l))))
      with a by lia.
    destruct (Nat.le_gt_cases (a + c) (List.length l)) as [H|H].
    + f_equal. lia.
    + rewrite !List.firstn_all2; [reflexivity| |];
        rewrite List.length_skipn; lia.
Qed.

Lemma slice_from_skipn {T : Type} (l : list T) (a : nat) :
  DataLoaders.slice_from l (Z.of_nat a) = skipn a l.
Proof.
  unfold DataLoaders.slice_from.
  destruct (Nat.le_gt_cases a (List.length l)) as [G|G].
  - replace (Z.of_nat (List.length l))
      with (Z.of_nat (a + (List.length l - a))) by lia.
    rewrite slice_chunk. apply List.firstn_all2.
    rewrite List.length_skipn. lia.
  - unfold DataLoaders.slice, DataLoaders.clamp.
    destruct (Z.ltb_spec (Z.of_nat a) 0) as [?|_]; [lia|].
    destruct (Z.ltb_spec (Z.of_nat (List.length l)) 0) as [?|_]; [lia|].
    replace (Z.to_nat (Z.min (Z.of_nat a) (Z.of_nat (List.length l))))
      with (List.length l) by lia.
    rewrite List.skipn_all, List.firstn_nil, List.skipn_all2 by lia.
    reflexivity.
Qed.

Lemma firstn_add {T : Type} (l : list T) (a c : nat) :
  firstn (a + c) l = firstn a l ++ firstn c (skipn a l).
Proof.
  revert l. induction a as [|a IH]; intros l; [reflexivity|].
  destruct l as [|t l]; cbn.
  - rewrite List.firstn_nil. reflexivity.
  - rewrite IH. reflexivity.
Qed.

(** The chunks put end to end are the first samples. *)
Lemma concat_chunks {T : Type} (l : list T) (b k : nat) :
  concat (List.map (DataLoaders.chunk b l) (seq 0 k)) = firstn (k * b) l.
Proof.
  induction k as [|k IH]; [reflexivity|].
  rewrite List.seq_S, List.map_app, List.concat_app, IH.
  cbn [List.map concat Nat.add]. rewrite List.app_nil_r.
  unfold DataLoaders.chunk. replace (S k * b)%nat with (k * b + b)%nat by lia.
  symmetry. apply firstn_add.
Qed.

(** Every chunk that lies within the list has [b] samples. *)
Lemma chunks_full {T : Type} (l : list T) (b k : nat) :
  (k * b <= List.length l)%nat ->
  Forall (fun c => List.length c = b) (List.map (DataLoaders.chunk b l) (seq 0 k)).
Proof.
  intros H. apply List.Forall_forall. intros c Hc.
  apply List.in_map_iff in Hc. destruct Hc as (j & <- & Hj).
  apply List.in_seq in Hj. unfold DataLoaders.chunk.
  rewrite List.length_firstn, List.length_skipn. nia.
Qed.

Lemma slice_is_chunk {T : Type} (l : list T) (j b : nat) :
  DataLoaders.slice l (Z.of_nat j * Z.of_nat b) ((Z.of_nat j + 1) * Z.of_nat b)
  = DataLoaders.chunk b l j.
Proof.
  replace (Z.of_nat j * Z.of_nat b) with (Z.of_nat (j * b)) by lia.
  replace ((Z.of_nat j + 1) * Z.of_nat b) with (Z.of_nat (j * b + b)) by lia.
  apply slice_chunk.
Qed.

(** The number of batches and their size, for a batch size of 1 or more. *)
Lemma steps_and_size (n : nat) (bs : Z) :
  1 <= bs ->
  let k := Z.to_nat (Z.max 1 (Z.of_nat n / bs)) in
  let b := Z.to_nat (Z.min bs (Z.of_nat n)) in
  Z.of_nat k = Z.max 1 (Z.of_nat n / bs) /\
  Z.of_nat b = Z.min bs (Z.of_nat n) /\
  (k * b <= n)%nat /\
  (k * b <? n)%nat = (bs <=? Z.of_nat n) && negb (Z.of_nat n mod bs =? 0) /\
  ((k * b < n)%nat -> Z.of_nat (n - k * b) = Z.of_nat n mod bs).
Proof.
  intros Hbs. cbv zeta.
  pose proof (Z.div_mod (Z.of_nat n) bs ltac:(lia)) as DM.
  pose proof (Z.mod_pos_bound (Z.of_nat n) bs ltac:(lia)) as MB.
  pose proof (Z.div_pos (Z.of_nat n) bs ltac:(lia) ltac:(lia)) as DP.
  set (q := Z.of_nat n / bs) in *. set (r := Z.of_nat n mod bs) in *.
  assert (Hk : Z.of_nat (Z.to_nat (Z.max 1 q)) = Z.max 1 q) by lia.
  assert (Hb : Z.of_nat (Z.to_nat (Z.min bs (Z.of_nat n)))
               = Z.min bs (Z.of_nat n)) by lia.
  split; [exact Hk|]. split; [exact Hb|].
  assert (P : Z.of_nat (Z.to_nat (Z.max 1 q) * Z.to_nat (Z.min bs (Z.of_nat n)))
              = Z.max 1 q * Z.min bs (Z.of_nat n)).
  { rewrite Nat2Z.inj_mul, Hk, Hb. reflexivity. }
  destruct (Z.le_gt_cases bs (Z.of_nat n)) as [Le|Gt].
  - assert (1 <= q) by nia.
    rewrite Z.max_r in P by lia. rewrite Z.min_l in P by lia.
    split; [nia|]. split.
    + destruct (Nat.ltb_spec (Z.to_nat (Z.max 1 q)
                              * Z.to_nat (Z.min bs (Z.of_nat n))) n);
        destruct (Z.leb_spec bs (Z.of_nat n)); try lia;
          destruct (Z.eqb_spec r 0); cbn; try reflexivity; nia.
    + intros _. nia.
  - assert (q = 0) by (subst q; apply Z.div_small; lia).
    rewrite Z.max_l in P by lia. rewrite Z.min_r in P by lia.
    split; [lia|]. split.
    + destruct (Nat.ltb_spec (Z.to_nat (Z.max 1 q)
                              * Z.to_nat (Z.min bs (Z.of_nat n))) n);
        destruct (Z.leb_spec bs (Z.of_nat n)); try lia; reflexivity.
    + intros H'. lia.
Qed.

(** C10 (amended). The batches of a data loader: for a batch size of 1 or
    more, [n >= 1] samples and no shuffling, one iteration yields
    [max(1, n // batch_size)] batches of [min(batch_size, n)] samples each,
    in the order of the samples, followed, when [drop_remaining] is false,
    by one batch of the [n mod batch_size] samples left when [batch_size <=
    n] and [batch_size] does not divide [n]; the batches of [x] put end to
    end are [x], the batches of [y] are cut at the same indices, and with
    [drop_remaining] true the trailing batch is not yielded.  The loader is
    left as it was. *)
Theorem dataloader_partition
        (A B : Type) (draw : nat -> list nat)
        (xs : list A) (ys : option (list B)) (bs : Z) (dev : Device)
        (drop : bool) :
  1 <= bs -> (1 <= List.length xs)%nat ->
  let dl := DataLoaders.mkDataLoader xs ys bs dev drop false in
  let n := List.length xs in
  let k := Z.to_nat (Z.max 1 (Z.of_nat n / bs)) in
  let b := Z.to_nat (Z.min bs (Z.of_nat n)) in
  exists batches,
    DataLoaders.__call__ draw dl = (Ok batches, dl) /\
    DataLoaders.x_batches batches = DataLoaders.spec_batches n k b (negb drop) xs /\
    DataLoaders.y_batches batches
    = match ys with
      | None => repeat None (List.length batches)
      | Some l => List.map Some (DataLoaders.spec_batches n k b (negb drop) l)
      end /\
    Forall (fun c => List.length c = b) (List.map (DataLoaders.chunk b xs) (seq 0 k)) /\
    (k * b <? n)%nat = (bs <=? Z.of_nat n) && negb (Z.of_nat n mod bs =? 0) /\
    ((k * b < n)%nat ->
     Z.of_nat (List.length (skipn (k * b) xs)) = Z.of_nat n mod bs) /\
    (drop = false -> concat (DataLoaders.x_batches batches) = xs) /\
    (drop = true -> DataLoaders.x_batches batches = List.map (DataLoaders.chunk b xs) (seq 0 k)).
Proof.
  intros Hbs Hn. cbv zeta.
  destruct (steps_and_size (List.length xs) bs Hbs) as (Hk & Hb & Le & Rem & RemLen).
  set (n := List.length xs) in *.
  set (k := Z.to_nat (Z.max 1 (Z.of_nat n / bs))) in *.
  set (b := Z.to_nat (Z.min bs (Z.of_nat n))) in *.
  unfold DataLoaders.__call__, DataLoaders.__len__.
  cbn [DataLoaders.x DataLoaders.y DataLoaders.batch_size DataLoaders.drop_remaining DataLoaders.shuffle DataLoaders.device].
  destruct (Z.eqb_spec bs 0) as [?|_]; [lia|].
  fold n. rewrite <- Hk, <- Hb.
  assert (Tr : (Z.of_nat k * Z.of_nat b <? Z.of_nat n) = (k * b <? n)%nat).
  { destruct (Z.ltb_spec (Z.of_nat k * Z.of_nat b) (Z.of_nat n));
      destruct (Nat.ltb_spec (k * b) n); try reflexivity; nia. }
  rewrite Tr.
  replace (Z.of_nat k * Z.of_nat b) with (Z.of_nat (k * b)) by lia.
  unfold DataLoaders.range. rewrite Nat2Z.id.
  eexists. split; [reflexivity|].
  assert (X : DataLoaders.x_batches
                (match ys with
                 | None =>
                     List.map
                       (fun i =>
                          (DataLoaders.mkBatch A (DataLoaders.slice xs (i * Z.of_nat b)
                                            ((i + 1) * Z.of_nat b)) dev,
                           @None (DataLoaders.Batch B)))
                       (List.map Z.of_nat (seq 0 k))
                     ++ (if negb drop && (k * b <? n)%nat
                         then [(DataLoaders.mkBatch A (DataLoaders.slice_from xs (Z.of_nat (k * b))) dev,
                                None)]
                         else [])
                 | Some l =>
                     List.map
                       (fun i =>
                          (DataLoaders.mkBatch A (DataLoaders.slice xs (i * Z.of_nat b)
                                            ((i + 1) * Z.of_nat b)) dev,
                           Some (DataLoaders.mkBatch B (DataLoaders.slice l (i * Z.of_nat b)
                                                  ((i + 1) * Z.of_nat b)) dev)))
                       (List.map Z.of_nat (seq 0 k))
                     ++ (if negb drop && (k * b <? n)%nat
                         then [(DataLoaders.mkBatch A (DataLoaders.slice_from xs (Z.of_nat (k * b))) dev,
                                Some (DataLoaders.mkBatch B (DataLoaders.slice_from l (Z.of_nat (k * b)))
                                              dev))]
                         else [])
                 end)
              = DataLoaders.spec_batches n k b (negb drop) xs).
  { unfold DataLoaders.x_batches, DataLoaders.spec_batches.
    destruct ys as [l|]; rewrite List.map_app, !List.map_map; cbn [fst DataLoaders.samples];
      (f_equal;
       [apply List.map_ext; intros j; apply slice_is_chunk
       |destruct (negb drop && (k * b <? n)%nat); [|reflexivity];
        cbn; rewrite slice_from_skipn; reflexivity]). }
  split; [exact X|].
  split.
  { unfold DataLoaders.y_batches, DataLoaders.spec_batches.
    destruct ys as [l|].
    - rewrite !List.map_app, !List.map_map. cbn [snd option_map DataLoaders.samples].
      f_equal.
      + apply List.map_ext; intros j. rewrite slice_is_chunk. reflexivity.
      + destruct (negb drop && (k * b <? n)%nat); [|reflexivity].
        cbn. rewrite slice_from_skipn. reflexivity.
    - rewrite List.map_app, List.map_map. cbn [snd option_map].
      rewrite List.length_app, !List.length_map, List.repeat_app.
      f_equal.
      + clear. induction (seq 0 k); cbn; [reflexivity|f_equal; assumption].
      + destruct (negb drop && (k * b <? n)%nat); reflexivity. }
  split; [apply chunks_full; exact Le|].
  split; [exact Rem|].
  split; [intros H; rewrite List.length_skipn; apply RemLen; exact H|].
  rewrite X. unfold DataLoaders.spec_batches. split.
  - intros ->. cbn [negb andb]. rewrite List.concat_app, concat_chunks.
    destruct (Nat.ltb_spec (k * b) n) as [Lt|Ge].
    + cbn. rewrite List.app_nil_r. apply List.firstn_skipn.
    + cbn. rewrite List.app_nil_r. apply List.firstn_all2. fold n. lia.
  - intros ->. cbn [negb andb]. apply List.app_nil_r.
Qed.

(** C10, as stated, fails: with the batch size 0 the loader raises a
    ZeroDivisionError and yields no batch. *)
Lemma zero_batch_size_raises :
  ~ (forall (dl : DataLoaders.DataLoader nat bool),
        (1 <= List.length (DataLoaders.x dl))%nat ->
        DataLoaders.shuffle dl = false -> DataLoaders.drop_remaining dl = false ->
        exists batches,
          fst (DataLoaders.__call__ no_draw dl) = Ok batches /\
          concat (DataLoaders.x_batches batches) = DataLoaders.x dl).
Proof.
  intros H.
  destruct (H zero_batch_size (le_n 1) eq_refl eq_refl) as (batches & E & _).
  discriminate E.
Qed.

Lemma dataloader_partition_witness :
  exists batches,
    DataLoaders.__call__ no_draw five_samples = (Ok batches, five_samples) /\
    DataLoaders.x_batches batches = [[1; 2]; [3; 4]; [5]]%nat /\
    DataLoaders.y_batches batches = [Some [true; false]; Some [true; false]; Some [true]].
Proof.
  destruct (dataloader_partition nat bool no_draw [1; 2; 3; 4; 5]%nat
              (Some [true; false; true; false; true]) 2 CPU false
              ltac:(lia) ltac:(cbn; lia))
    as (batches & C & X & Y & _).
  exists batches. split; [exact C|]. split; [exact X|exact Y].
Defined.

(* ===================================================================== *)
(** * Further properties *)
(* ===================================================================== *)

(** ** The module base class *)

Lemma Device_eqb_eq (a b : Device) : Device_eqb a b = true <-> a = b.
Proof. destruct a, b; cbn; split; congruence. Qed.

Lemma tensor_on_to_device (d : Device) (t : Tensor) :
  tensor_on d (Tensors.to_device d t).
Proof.
  split; [reflexivity|]. intros g. cbn. destruct (grad t); cbn; [|discriminate].
  intros H. injection H as <-. reflexivity.
Qed.

Lemma param_content_to_device (d : Device) (p : Param) :
  param_content (p_to_device d p) = param_content p /\
  param_record (p_to_device d p) = param_record p.
Proof.
  unfold param_content, param_record, p_to_device, p_grad. cbn.
  destruct (grad (p_tensor p)); split; reflexivity.
Qed.

(** X1. [to_device]: moving a module to the device it is on changes
    nothing; moving it to another, available device puts the module, its
    retained output, every parameter with its gradient and every buffer on
    that device and changes no label, shape, element type, value or flag;
    moving it to a device that is not available raises and changes
    nothing. *)
Theorem to_device_transfers (cuda : bool) (d : Device) (m : NNModule) :
  to_device cuda (_device m) m = (Ok tt, m) /\
  (d <> _device m -> _check_device_availability cuda d = Ok tt ->
   exists m',
     to_device cuda d m = (Ok tt, m') /\
     all_on d m' /\
     List.map param_record (parameters m') = List.map param_record (parameters m) /\
     List.map buffer_content (buffers m') = List.map buffer_content (buffers m) /\
     label m' = label m /\ _training m' = _training m /\
     _trainable m' = _trainable m /\ _retain_values m' = _retain_values m /\
     _backward m' = _backward m) /\
  (forall e, d <> _device m -> _check_device_availability cuda d = Raise e ->
             to_device cuda d m = (Raise e, m)).
Proof.
  split; [|split].
  - unfold to_device. rewrite (proj2 (Device_eqb_eq _ _) eq_refl). reflexivity.
  - intros N A. unfold to_device.
    destruct (Device_eqb d (_device m)) eqn:E;
      [apply Device_eqb_eq in E; contradiction|].
    rewrite A. eexists. split; [reflexivity|].
    unfold all_on, parameters, buffers.
    cbn [slots set_slots set_y_field set_device_field _device label y
         _training _trainable _retain_values _backward].
    rewrite slot_parameters_for_parameters, slot_parameters_for_buffers.
    rewrite slot_buffers_for_parameters, slot_buffers_for_buffers.
    rewrite !List.map_map.
    split; [|split; [|split; [|repeat split]]].
    + split; [reflexivity|]. split; [|split].
      * intros t. destruct (y m) as [t0|]; cbn; [|discriminate].
        intros H. injection H as <-. apply tensor_on_to_device.
      * induction (slot_parameters (slots m)); constructor; auto.
        apply tensor_on_to_device.
      * induction (slot_buffers (slots m)); constructor; auto.
        apply tensor_on_to_device.
    + apply List.map_ext. intros p. apply param_content_to_device.
    + reflexivity.
  - intros e N A. unfold to_device.
    destruct (Device_eqb d (_device m)) eqn:E;
      [apply Device_eqb_eq in E; contradiction|].
    rewrite A. reflexivity.
Qed.

Lemma to_device_transfers_witness :
  exists m',
    to_device true CUDA trained_batchnorm = (Ok tt, m') /\ all_on CUDA m' /\
    to_device false CUDA trained_batchnorm
    = (Raise (AttributeError "device is not available"), trained_batchnorm).
Proof.
  destruct (to_device_transfers true CUDA trained_batchnorm) as (_ & H & _).
  destruct (H ltac:(discriminate) eq_refl) as (m' & T & A & _).
  exists m'. split; [exact T|]. split; [exact A|].
  destruct (to_device_transfers false CUDA trained_batchnorm) as (_ & _ & F).
  exact (F _ ltac:(discriminate) eq_refl).
Defined.

(** X2. [set_trainable]: the flag is set; when the flag changes, every
    parameter's [requires_grad] becomes the new value; when the module
    already has the flag, nothing is changed, a parameter whose
    [requires_grad] differs included; labels, tensors and gradients stay,
    and a second call with the same value changes nothing. *)
Theorem set_trainable_marks_parameters (v : bool) (m : NNModule) :
  _trainable (set_trainable v m) = v /\
  (_trainable m <> v ->
   Forall (fun p => requires_grad p = v) (parameters (set_trainable v m))) /\
  (_trainable m = v -> set_trainable v m = m) /\
  List.map (fun p => (p_label p, p_tensor p)) (parameters (set_trainable v m))
  = List.map (fun p => (p_label p, p_tensor p)) (parameters m) /\
  buffers (set_trainable v m) = buffers m /\
  set_trainable v (set_trainable v m) = set_trainable v m.
Proof.
  unfold set_trainable.
  destruct (Bool.eqb (_trainable m) v) eqn:E.
  - apply Bool.eqb_prop in E.
    split; [exact E|]. split; [intros N; contradiction|].
    split; [reflexivity|]. split; [reflexivity|]. split; [reflexivity|].
    rewrite E, Bool.eqb_reflx. reflexivity.
  - apply Bool.eqb_false_iff in E.
    split; [reflexivity|]. split.
    { intros _. unfold parameters. cbn [slots].
      rewrite slot_parameters_for_parameters.
      induction (slot_parameters (slots m)); constructor; auto. }
    split; [intros H; contradiction|].
    unfold parameters, buffers. cbn [slots _trainable].
    rewrite slot_parameters_for_parameters, slot_buffers_for_parameters,
      List.map_map.
    split; [reflexivity|]. split; [reflexivity|].
    rewrite Bool.eqb_reflx. reflexivity.
Qed.

Lemma set_trainable_marks_parameters_witness :
  set_trainable true module_with_frozen_parameter
  = module_with_frozen_parameter /\
  parameters (set_trainable true module_with_frozen_parameter)
  = [frozen_parameter] /\
  Forall (fun p => requires_grad p = true)
         (parameters (set_trainable true
                        (set_trainable false module_with_frozen_parameter))).
Proof.
  destruct (set_trainable_marks_parameters true module_with_frozen_parameter)
    as (_ & _ & H & _).
  split; [exact (H eq_refl)|]. split; [rewrite (H eq_refl); reflexivity|].
  destruct (set_trainable_marks_parameters
              true (set_trainable false module_with_frozen_parameter))
    as (_ & F & _).
  apply F. discriminate.
Defined.

Lemma set_slots_y (s : Attrs) (m : NNModule) : y (set_slots s m) = y m.
Proof. reflexivity. Qed.

Lemma backward_y (dy : Tensor) (m : NNModule) :
  training m = true -> y (snd (backward dy m)) = y (_set_dy dy m).
Proof.
  intros T. unfold backward. rewrite T. cbn [negb].
  destruct (_backward (_set_dy dy m)) as [k|]; [|reflexivity].
  destruct (k dy (slots (_set_dy dy m))). reflexivity.
Qed.

(** X3. Retained values: when [retain_values] is set, a call followed by a
    backward call in training mode leaves in [y] the data of the output and,
    as its gradient, the output gradient, whatever [y] held before; when it
    is not set, the two calls leave [y] as [forward] left it.  A backward
    call on a module that retains values but holds no output records no
    gradient. *)
Theorem call_then_backward_retains
        (fwd : Tensor -> NNModule -> result Tensor * NNModule)
        (x v dy : Tensor) (m m1 : NNModule) :
  fwd x m = (Ok v, m1) -> training m1 = true ->
  (_retain_values m1 = true ->
   y (snd (backward dy (snd (__call__ fwd x m))))
   = Some (mkTensor (data v) (Some (data dy)))) /\
  (_retain_values m1 = false ->
   y (snd (backward dy (snd (__call__ fwd x m)))) = y m1) /\
  (y m1 = None -> y (snd (backward dy m1)) = None).
Proof.
  intros F T. unfold __call__. rewrite F. cbn [snd].
  split; [|split].
  - intros R. rewrite backward_y.
    + unfold _set_y, _set_dy. rewrite R.
      destruct (y m1); cbn; rewrite R; reflexivity.
    + unfold _set_y. rewrite R. destruct (y m1); exact T.
  - intros R. rewrite backward_y.
    + unfold _set_y, _set_dy. rewrite R. rewrite R. reflexivity.
    + unfold _set_y. rewrite R. exact T.
  - intros N. rewrite (backward_y _ _ T). unfold _set_dy. rewrite N.
    destruct (_retain_values m1); exact N.
Qed.

Lemma call_then_backward_retains_witness :
  y (snd (backward (ones [2%nat; 3%nat])
            (snd (__call__ Flatten_forward (ones [2%nat; 3%nat])
                    (set_retain_values true (Flatten__init__ None true))))))
  = Some (mkTensor (data (ones [2%nat; 3%nat]))
                   (Some (data (ones [2%nat; 3%nat])))).
Proof.
  refine (proj1 (call_then_backward_retains Flatten_forward
                   (ones [2%nat; 3%nat]) (ones [2%nat; 3%nat])
                   (ones [2%nat; 3%nat])
                   (set_retain_values true (Flatten__init__ None true))
                   _ _ _) _).
  - vm_compute. reflexivity.
  - reflexivity.
  - reflexivity.
Defined.

Lemma existsb_eqb_In (n : nat) (l : list nat) :
  existsb (Nat.eqb n) l = true <-> List.In n l.
Proof.
  rewrite List.existsb_exists. split.
  - intros (k & I & E). apply Nat.eqb_eq in E. subst. exact I.
  - intros I. exists n. split; [exact I|apply Nat.eqb_refl].
Qed.

(** X4. [_check_dims]: the check passes exactly when the number of
    dimensions of the tensor is one of the valid ones; otherwise it raises a
    ShapeError whose message starts with the label of the module. *)
Theorem check_dims_accepts_valid_ranks
        (x : Tensor) (valid_dims : list nat) (m : NNModule) :
  (_check_dims x valid_dims m = Ok tt <-> List.In (ndim x) valid_dims) /\
  (~ List.In (ndim x) valid_dims ->
   exists msg, _check_dims x valid_dims m = Raise (ShapeError msg) /\
               exists post, msg = label m +:+ post).
Proof.
  unfold _check_dims.
  destruct (existsb (Nat.eqb (ndim x)) valid_dims) eqn:E.
  - apply existsb_eqb_In in E. split; [tauto|]. intros N. contradiction.
  - assert (N : ~ List.In (ndim x) valid_dims).
    { intros I. apply existsb_eqb_In in I. congruence. }
    split; [split; [discriminate|contradiction]|].
    intros _. eexists. split; [reflexivity|]. eexists. reflexivity.
Qed.

Lemma check_dims_accepts_valid_ranks_witness :
  _check_dims (ones [2%nat; 3%nat]) [2%nat; 3%nat] fresh_flatten = Ok tt /\
  exists msg,
    _check_dims (ones [2%nat; 3%nat]) [4%nat] fresh_flatten
    = Raise (ShapeError msg) /\
    exists post, msg = label fresh_flatten +:+ post.
Proof.
  split.
  - apply (proj1 (check_dims_accepts_valid_ranks
                    (ones [2%nat; 3%nat]) [2%nat; 3%nat] fresh_flatten)).
    left. reflexivity.
  - apply (proj2 (check_dims_accepts_valid_ranks
                    (ones [2%nat; 3%nat]) [4%nat] fresh_flatten)).
    intros [H|[]]. discriminate H.
Defined.

(** ** Reshape and Flatten *)

Lemma prod_shape_to_nat (s : list Z) :
  Forall (fun d => 0 <= d) s ->
  Z.of_nat (prod_shape (List.map Z.to_nat s)) = prodZ s.
Proof.
  unfold prod_shape, prodZ.
  induction 1 as [|d s Hd _ IH]; [reflexivity|].
  cbn [List.map fold_right]. rewrite Nat2Z.inj_mul, IH, Z2Nat.id by exact Hd.
  reflexivity.
Qed.

Lemma no_negative_Forall (s : list Z) :
  existsb (fun d => d <? -1) s = false -> Forall (fun d => -1 <= d) s.
Proof.
  induction s as [|d s IH]; [constructor|].
  cbn [existsb]. rewrite orb_false_iff. intros [H1 H2].
  constructor; [apply Z.ltb_ge in H1; exact H1|exact (IH H2)].
Qed.

Lemma no_unknown_Forall (s : list Z) :
  Forall (fun d => -1 <= d) s -> List.filter is_unknown s = [] ->
  Forall (fun d => 0 <= d) s.
Proof.
  induction 1 as [|d s Hd _ IH]; [constructor|].
  cbn [List.filter]. destruct (is_unknown d) eqn:U; [discriminate|].
  unfold is_unknown in U. apply Z.eqb_neq in U.
  intros F. constructor; [lia|exact (IH F)].
Qed.

Lemma known_nonneg (s : list Z) :
  Forall (fun d => -1 <= d) s ->
  0 <= prodZ (List.filter (fun d => negb (is_unknown d)) s).
Proof.
  unfold prodZ.
  induction 1 as [|d s Hd _ IH]; [cbn; lia|].
  cbn [List.filter]. destruct (is_unknown d) eqn:U; cbn [negb]; [exact IH|].
  unfold is_unknown in U. apply Z.eqb_neq in U.
  cbn [fold_right]. apply Z.mul_nonneg_nonneg; [lia|exact IH].
Qed.

Lemma prod_shape_with_unknown (q : Z) (s : list Z) :
  0 <= q -> Forall (fun d => -1 <= d) s ->
  Z.of_nat (prod_shape
              (List.map (fun d => if is_unknown d then Z.to_nat q
                                  else Z.to_nat d) s))
  = q ^ Z.of_nat (List.length (List.filter is_unknown s))
    * prodZ (List.filter (fun d => negb (is_unknown d)) s).
Proof.
  intros Hq. unfold prod_shape, prodZ.
  induction 1 as [|d s Hd _ IH]; [reflexivity|].
  cbn [List.map List.filter fold_right]. rewrite Nat2Z.inj_mul, IH.
  destruct (is_unknown d) eqn:U; cbn [negb List.length fold_right].
  - rewrite Z2Nat.id by exact Hq. rewrite Nat2Z.inj_succ, Z.pow_succ_r by lia.
    ring.
  - unfold is_unknown in U. apply Z.eqb_neq in U.
    rewrite Z2Nat.id by lia. ring.
Qed.

(** [reshape] keeps the number of entries. *)
Lemma resolve_shape_product (n : Z) (s : list Z) (s' : list nat) :
  0 <= n -> resolve_shape n s = Ok s' -> Z.of_nat (prod_shape s') = n.
Proof.
  intros Hn. unfold resolve_shape.
  destruct (existsb (fun d => d <? -1) s) eqn:N; [discriminate|].
  apply no_negative_Forall in N.
  destruct (List.length (List.filter is_unknown s)) as [|[|k]] eqn:L;
    [| |discriminate].
  - destruct (Z.eqb_spec (prodZ s) n) as [E|E]; [|discriminate].
    intros H. injection H as <-. rewrite prod_shape_to_nat; [exact E|].
    apply no_unknown_Forall; [exact N|].
    destruct (List.filter is_unknown s); [reflexivity|discriminate].
  - set (known := prodZ (List.filter (fun d => negb (is_unknown d)) s)).
    destruct (Z.eqb_spec known 0) as [K|K]; [discriminate|].
    destruct (Z.eqb_spec (n mod known) 0) as [M|M]; [|discriminate].
    cbn [orb negb]. intros H. injection H as <-.
    pose proof (known_nonneg s N) as K0. fold known in K0.
    rewrite prod_shape_with_unknown;
      [|apply Z.div_pos; lia|exact N].
    rewrite L. fold known. change (Z.of_nat 1) with 1. rewrite Z.pow_1_r.
    rewrite Z.mul_comm. symmetry. apply Z.div_exact; [exact K|exact M].
Qed.

Lemma resolve_shape_head (n : Z) (d0 : nat) (s : list Z) (s' : list nat) :
  resolve_shape n (Z.of_nat d0 :: s) = Ok s' ->
  exists r, s' = d0 :: r.
Proof.
  unfold resolve_shape.
  destruct (existsb _ _); [discriminate|].
  destruct (List.length _) as [|[|k]]; [| |discriminate].
  - destruct (_ =? _); [|discriminate]. intros H. injection H as <-.
    cbn [List.map]. rewrite Nat2Z.id. eexists. reflexivity.
  - destruct (_ || _); [discriminate|]. intros H. injection H as <-.
    cbn [List.map]. unfold is_unknown at 1.
    destruct (Z.eqb_spec (Z.of_nat d0) (-1)) as [E|E]; [lia|].
    rewrite Nat2Z.id. eexists. reflexivity.
Qed.

(** What [reshape] returns: the entries, the element type and the device
    of its argument under a shape of as many entries. *)
Lemma reshape_output (x v : Tensor) (s : list Z) :
  reshape x s = Ok v ->
  exists s', resolve_shape (Z.of_nat (size x)) s = Ok s' /\
             v = of_array (mkArray s' (elems (data x)) (dtype (data x))
                                   (device (data x))) /\
             size v = size x.
Proof.
  unfold reshape, bind.
  destruct (resolve_shape _ s) as [s'|e] eqn:R; [|discriminate].
  intros H. injection H as <-. exists s'. split; [reflexivity|].
  split; [reflexivity|].
  apply resolve_shape_product in R; [|lia].
  apply Nat2Z.inj. exact R.
Qed.

Lemma resolve_shape_flatten (d0 p : nat) :
  d0 <> 0%nat ->
  resolve_shape (Z.of_nat (d0 * p)) [Z.of_nat d0; -1] = Ok [d0; p].
Proof.
  intros D. unfold resolve_shape. cbn [existsb List.filter].
  destruct (Z.ltb_spec (Z.of_nat d0) (-1)) as [E|_]; [lia|].
  change (-1 <? -1) with false. cbn [orb].
  unfold is_unknown.
  destruct (Z.eqb_spec (Z.of_nat d0) (-1)) as [E|_]; [lia|].
  change (-1 =? -1) with true. cbn [negb List.length List.map].
  unfold prodZ. cbn [fold_right]. rewrite Z.mul_1_r.
  destruct (Z.eqb_spec (Z.of_nat d0) 0) as [E|_]; [lia|]. cbn [orb].
  rewrite Nat2Z.inj_mul, Z.mul_comm, Z.mod_mul by lia.
  change (0 =? 0) with true. cbn [negb].
  rewrite Z.div_mul by lia. rewrite !Nat2Z.id.
  destruct (Z.eqb_spec (Z.of_nat d0) (-1)) as [E|_]; [lia|].
  change (-1 =? -1) with true. reflexivity.
Qed.

Lemma Reshape_forward_output (x v : Tensor) (m m1 : NNModule) :
  Reshape_forward x m = (Ok v, m1) ->
  exists d0 rest s,
    t_shape x = d0 :: rest /\
    v = of_array (mkArray (d0 :: s) (elems (data x)) (dtype (data x))
                          (device (data x))) /\
    size v = size x.
Proof.
  unfold Reshape_forward.
  destruct (t_shape x) as [|d0 rest] eqn:S; [discriminate|].
  destruct (getattr _ _) as [[]|]; try discriminate.
  destruct (reshape x _) as [v'|] eqn:R; [|discriminate].
  intros H. injection H as <- _.
  destruct (reshape_output _ _ _ R) as (s' & Rs & -> & Sz).
  destruct (resolve_shape_head _ _ _ _ Rs) as (r & ->).
  exists d0, rest, r. repeat split; assumption.
Qed.

Lemma Flatten_forward_output (x v : Tensor) (m m1 : NNModule) :
  Flatten_forward x m = (Ok v, m1) ->
  exists d0 rest,
    t_shape x = d0 :: rest /\ d0 <> 0%nat /\
    v = of_array (mkArray [d0; prod_shape rest] (elems (data x))
                          (dtype (data x)) (device (data x))) /\
    size v = size x.
Proof.
  unfold Flatten_forward.
  destruct (t_shape x) as [|d0 rest] eqn:S; [discriminate|].
  destruct (reshape x _) as [v'|] eqn:R; [|discriminate].
  intros H. injection H as <- _.
  destruct (reshape_output _ _ _ R) as (s' & Rs & -> & Sz).
  destruct (Nat.eq_dec d0 0%nat) as [D|D].
  { subst d0. discriminate Rs. }
  unfold size, a_size in Rs. fold (t_shape x) in Rs. rewrite S in Rs.
  change (prod_shape (d0 :: rest)) with (d0 * prod_shape rest)%nat in Rs.
  rewrite (resolve_shape_flatten d0 _ D) in Rs. injection Rs as <-.
  exists d0, rest. repeat split; assumption.
Qed.

Lemma Flatten_forward_succeeds (x : Tensor) (m : NNModule) (d0 : nat)
      (rest : list nat) :
  t_shape x = d0 :: rest -> d0 <> 0%nat ->
  Flatten_forward x m
  = (Ok (of_array (mkArray [d0; prod_shape rest] (elems (data x))
                           (dtype (data x)) (device (data x)))),
     if training m then set_backward_field (Some (reshape_back x)) m else m).
Proof.
  intros S D. unfold Flatten_forward, reshape, bind. rewrite S.
  unfold size, a_size. fold (t_shape x). rewrite S.
  change (prod_shape (d0 :: rest)) with (d0 * prod_shape rest)%nat.
  rewrite (resolve_shape_flatten d0 _ D). reflexivity.
Qed.

Lemma Reshape_forward_failure (x : Tensor) (m m1 : NNModule) (e : exn) :
  Reshape_forward x m = (Raise e, m1) -> m1 = m.
Proof.
  unfold Reshape_forward.
  destruct (t_shape x); [congruence|].
  destruct (getattr _ _) as [[]|]; try congruence.
  destruct (reshape x _); congruence.
Qed.

Lemma Flatten_forward_failure (x : Tensor) (m m1 : NNModule) (e : exn) :
  Flatten_forward x m = (Raise e, m1) -> m1 = m.
Proof.
  unfold Flatten_forward.
  destruct (t_shape x); [congruence|].
  destruct (reshape x _); congruence.
Qed.

(** X5. The output of [Reshape.forward] and [Flatten.forward]: it holds the
    entries of the input in their order, with the element type and device of
    the input and no gradient; its shape starts with the first dimension of
    the input, and for a Flatten it is that dimension followed by the product
    of the others.  A Flatten succeeds on every input whose first dimension
    is not zero; on an input of no dimension, or whose first dimension is
    zero, it raises.  A forward call that raises leaves the module as it
    was. *)
Theorem reshape_forward_output (x : Tensor) (m : NNModule) :
  (forall v m1, Reshape_forward x m = (Ok v, m1) ->
     exists d0 rest s,
       t_shape x = d0 :: rest /\
       v = of_array (mkArray (d0 :: s) (elems (data x)) (dtype (data x))
                             (device (data x))) /\
       size v = size x) /\
  (forall d0 rest, t_shape x = d0 :: rest -> d0 <> 0%nat ->
     fst (Flatten_forward x m)
     = Ok (of_array (mkArray [d0; prod_shape rest] (elems (data x))
                             (dtype (data x)) (device (data x))))) /\
  (forall rest, t_shape x = [] \/ t_shape x = 0%nat :: rest ->
     exists e, Flatten_forward x m = (Raise e, m)) /\
  (forall e m1,
     Reshape_forward x m = (Raise e, m1) \/ Flatten_forward x m = (Raise e, m1) ->
     m1 = m).
Proof.
  split; [|split; [|split]].
  - intros v m1. apply Reshape_forward_output.
  - intros d0 rest S D. rewrite (Flatten_forward_succeeds x m d0 rest S D).
    reflexivity.
  - intros rest [S|S]; unfold Flatten_forward; rewrite S.
    + eexists. reflexivity.
    + eexists. reflexivity.
  - intros e m1 [H|H].
    + exact (Reshape_forward_failure _ _ _ _ H).
    + exact (Flatten_forward_failure _ _ _ _ H).
Qed.

Lemma reshape_forward_output_witness :
  fst (Flatten_forward (ones [2%nat; 2%nat; 3%nat]) fresh_flatten)
  = Ok (ones [2%nat; 6%nat]) /\
  (exists e, Flatten_forward (tensor [0%nat; 3%nat] []) fresh_flatten
             = (Raise e, fresh_flatten)).
Proof.
  destruct (reshape_forward_output (ones [2%nat; 2%nat; 3%nat]) fresh_flatten)
    as (_ & F & _).
  split; [exact (F 2%nat [2%nat; 3%nat] eq_refl ltac:(discriminate))|].
  destruct (reshape_forward_output (tensor [0%nat; 3%nat] []) fresh_flatten)
    as (_ & _ & R & _).
  exact (R [3%nat] (or_intror eq_refl)).
Defined.

Lemma array_eta (a : Array) :
  mkArray (shape a) (elems a) (dtype a) (device a) = a.
Proof. destruct a. reflexivity. Qed.

Lemma reshape_back_round_trip (x v : Tensor) (s : list nat) (a : Attrs) :
  v = of_array (mkArray s (elems (data x)) (dtype (data x)) (device (data x))) ->
  size v = size x ->
  reshape_back x v a = (Ok (Some (of_array (data x))), a).
Proof.
  intros -> Sz. unfold reshape_back, reshape, bind, rmap. rewrite Sz.
  unfold size, a_size. fold (t_shape x). rewrite resolve_shape_of_nat.
  cbn [data of_array elems dtype device]. unfold t_shape.
  rewrite array_eta. reflexivity.
Qed.

(** X6. Round trip through a Reshape or a Flatten: after a successful call
    in training mode, [backward] of the output of that call returns the
    input, without its gradient slot. *)
Theorem reshape_round_trip
        (fwd : Tensor -> NNModule -> result Tensor * NNModule)
        (x v : Tensor) (m m1 : NNModule) :
  fwd = Reshape_forward \/ fwd = Flatten_forward ->
  training m = true ->
  __call__ fwd x m = (Ok v, m1) ->
  fst (backward v m1) = Ok (Some (of_array (data x))).
Proof.
  intros F T C.
  assert (K : _backward m1 = Some (reshape_back x) /\ _training m1 = true).
  { destruct F as [-> | ->].
    - exact (Reshape_call_training x v m m1 T C).
    - exact (Flatten_call_training x v m m1 T C). }
  assert (V : exists s, v = of_array (mkArray s (elems (data x))
                                              (dtype (data x)) (device (data x)))
                        /\ size v = size x).
  { unfold __call__ in C. destruct (fwd x m) as [[v'|e] m'] eqn:E;
      [|discriminate]. injection C as -> _.
    destruct F as [-> | ->].
    - destruct (Reshape_forward_output _ _ _ _ E) as (d0 & rest & s & _ & V & Sz).
      exists (d0 :: s). split; assumption.
    - destruct (Flatten_forward_output _ _ _ _ E) as (d0 & rest & _ & _ & V & Sz).
      eexists. split; [exact V|exact Sz]. }
  destruct K as [K T1]. destruct V as (s & V & Sz).
  unfold backward, training. rewrite T1. cbn [negb].
  destruct (_set_dy_fields v m1) as (-> & _ & S & _). rewrite K.
  rewrite (reshape_back_round_trip x v s _ V Sz). reflexivity.
Qed.

Lemma reshape_round_trip_witness :
  fst (backward (ones [2%nat; 6%nat])
         (snd (__call__ Flatten_forward (ones [2%nat; 2%nat; 3%nat])
                 fresh_flatten)))
  = Ok (Some (ones [2%nat; 2%nat; 3%nat])).
Proof.
  apply (reshape_round_trip Flatten_forward (ones [2%nat; 2%nat; 3%nat])
           (ones [2%nat; 6%nat]) fresh_flatten
           (snd (__call__ Flatten_forward (ones [2%nat; 2%nat; 3%nat])
                   fresh_flatten))).
  - right. reflexivity.
  - reflexivity.
  - vm_compute. reflexivity.
Defined.

(** ** The normalization modules *)

Lemma setattr_names (a : string) (v : Attr) (s : Attrs) :
  List.map fst (setattr a v s) = List.map fst s.
Proof.
  induction s as [|[k u] s IH]; [reflexivity|]. cbn [setattr].
  destruct (String.eqb k a); cbn [List.map fst]; [reflexivity|].
  rewrite IH. reflexivity.
Qed.

Lemma setattr_buffer (a : string) (b0 b : Buffer) (s : Attrs) :
  get_buffer a s = Ok b0 ->
  slot_parameters (setattr a (ABuffer b) s) = slot_parameters s /\
  List.length (slot_buffers (setattr a (ABuffer b) s))
  = List.length (slot_buffers s).
Proof.
  unfold get_buffer.
  induction s as [|[k u] s IH]; [discriminate|]. cbn [getattr setattr].
  destruct (String.eqb k a).
  - destruct u; try discriminate. intros _. split; reflexivity.
  - intros G. destruct (IH G) as [IP IB].
    destruct u; cbn [slot_parameters slot_buffers List.length];
      rewrite ?IP, ?IB; split; reflexivity.
Qed.

Lemma get_buffer_setattr_ne (a c : string) (v : Attr) (s : Attrs) :
  a <> c -> get_buffer a (setattr c v s) = get_buffer a s.
Proof. intros N. unfold get_buffer. rewrite getattr_setattr_ne; auto. Qed.

Lemma Batchnorm1d_args_buffers (s : Attrs) dt rmean rvar w b m eps :
  Batchnorm1d_args s = Ok (dt, rmean, rvar, w, b, m, eps) ->
  get_buffer "rmean" s = Ok rmean /\ get_buffer "rvar" s = Ok rvar /\
  get_parameter "w" s = Ok w /\ get_parameter "b" s = Ok b.
Proof.
  unfold Batchnorm1d_args, bind.
  destruct (get_dtype "dtype" s); [|discriminate].
  destruct (get_buffer "rmean" s); [|discriminate].
  destruct (get_buffer "rvar" s); [|discriminate].
  destruct (get_parameter "w" s); [|discriminate].
  destruct (get_parameter "b" s); [|discriminate].
  destruct (get_float "m" s); [|discriminate].
  destruct (get_float "eps" s); [|discriminate].
  intros H. injection H as <- <- <- <- <- <- <-. repeat split.
Qed.

(** The slots a forward call of a batch normalization leaves. *)
Lemma with_statistics_frame (rmean0 rvar0 rmean rvar : Buffer) (s : Attrs) :
  get_buffer "rmean" s = Ok rmean0 -> get_buffer "rvar" s = Ok rvar0 ->
  slot_parameters (with_statistics rmean rvar s) = slot_parameters s /\
  List.map fst (with_statistics rmean rvar s) = List.map fst s /\
  List.length (slot_buffers (with_statistics rmean rvar s))
  = List.length (slot_buffers s).
Proof.
  intros G1 G2. unfold with_statistics.
  assert (G2' : get_buffer "rvar" (setattr "rmean" (ABuffer rmean) s) = Ok rvar0).
  { rewrite get_buffer_setattr_ne by discriminate. exact G2. }
  destruct (setattr_buffer _ _ rmean _ G1) as [P1 B1].
  destruct (setattr_buffer _ _ rvar _ G2') as [P2 B2].
  rewrite P2, P1, B2, B1, !setattr_names. repeat split.
Qed.

Lemma Batchnorm1d_forward_frame bn : forward_frame (Batchnorm1d_forward bn).
Proof.
  intros x m. unfold Batchnorm1d_forward.
  destruct (_check_dims x [2%nat; 3%nat] m);
    [|cbn [fst snd]; repeat split; discriminate].
  destruct (Batchnorm1d_args (slots m))
    as [[[[[[[dt rmean] rvar] w] b] mo] eps]|] eqn:A;
    [|cbn [fst snd]; repeat split; discriminate].
  destruct (Batchnorm1d_args_buffers _ _ _ _ _ _ _ _ A) as (G1 & G2 & _).
  destruct (bn _ _ _ _ _ _ _ _) as [[[v rmean'] rvar'] gfo].
  fold (with_statistics rmean' rvar' (slots m)).
  destruct (with_statistics_frame _ _ rmean' rvar' _ G1 G2) as (P & N & B).
  unfold training.
  destruct (_training m) eqn:T; [destruct gfo|]; cbn [fst snd];
    unfold parameters, buffers;
    cbn [slots set_slots set_backward_field y label _device _training
         _trainable _retain_values _backward];
    rewrite ?P, ?N, ?B; repeat split; try discriminate; auto.
Qed.

Lemma Batchnorm2d_forward_frame bn : forward_frame (Batchnorm2d_forward bn).
Proof.
  intros x m. unfold Batchnorm2d_forward.
  destruct (_check_dims x [4%nat] m);
    [|cbn [fst snd]; repeat split; discriminate].
  destruct (Batchnorm1d_args (slots m))
    as [[[[[[[dt rmean] rvar] w] b] mo] eps]|] eqn:A;
    [|cbn [fst snd]; repeat split; discriminate].
  destruct (Batchnorm1d_args_buffers _ _ _ _ _ _ _ _ A) as (G1 & G2 & _).
  destruct (bn _ _ _ _ _ _ _ _) as [[[v rmean'] rvar'] gfo].
  fold (with_statistics rmean' rvar' (slots m)).
  destruct (with_statistics_frame _ _ rmean' rvar' _ G1 G2) as (P & N & B).
  unfold training.
  destruct (_training m) eqn:T; [destruct gfo|]; cbn [fst snd];
    unfold parameters, buffers;
    cbn [slots set_slots set_backward_field y label _device _training
         _trainable _retain_values _backward];
    rewrite ?P, ?N, ?B; repeat split; try discriminate; auto.
Qed.

Lemma Layernorm_forward_frame ln : forward_frame (Layernorm_forward ln).
Proof.
  intros x m. unfold Layernorm_forward.
  destruct (Layernorm_args (slots m)) as [[[[dt w] b] eps]|];
    [|cbn [fst snd]; repeat split; discriminate].
  destruct (ln _ _ _ _ _) as [v gfo]. unfold training.
  destruct (_training m) eqn:T; [destruct gfo|]; cbn [fst snd];
    repeat split; try discriminate; auto.
Qed.

(** X7. The forward calls of Batchnorm1d, Batchnorm2d and Layernorm, for
    any functional: they change no parameter and no gradient, no flag, no
    label, not the retained output and not the names of the slots or the
    number of buffers; out of training mode they leave the stored
    continuation as it was; and a call that raises leaves the module as it
    was. *)
Theorem normalization_forward_frame
        (bn1 bn2 : Tensor -> Buffer -> Buffer -> Array -> Array -> Q -> Q ->
                   bool -> Tensor * Buffer * Buffer * option GradFunc)
        (ln : Tensor -> Array -> Array -> Q -> bool ->
              Tensor * option GradFunc) :
  forward_frame (Batchnorm1d_forward bn1) /\
  forward_frame (Batchnorm2d_forward bn2) /\
  forward_frame (Layernorm_forward ln).
Proof.
  split; [apply Batchnorm1d_forward_frame|].
  split; [apply Batchnorm2d_forward_frame|apply Layernorm_forward_frame].
Qed.

Lemma normalization_forward_frame_witness :
  parameters (snd (Batchnorm1d_forward sample_batchnorm1d batch_3x2
                     sample_batchnorm))
  = parameters sample_batchnorm /\
  _backward (snd (Layernorm_forward sample_layernorm batch_3x2
                    (set_training false sample_layernorm_module)))
  = _backward (set_training false sample_layernorm_module).
Proof.
  destruct (normalization_forward_frame
              sample_batchnorm1d sample_batchnorm1d sample_layernorm)
    as (F1 & _ & F3).
  split.
  - exact (proj1 (F1 batch_3x2 sample_batchnorm)).
  - destruct (F3 batch_3x2 (set_training false sample_layernorm_module))
      as (_ & _ & _ & _ & _ & _ & _ & _ & _ & K & _).
    exact (K eq_refl).
Defined.

Lemma setattr_same (a : string) (v : Attr) (s : Attrs) :
  getattr a s = Ok v -> setattr a v s = s.
Proof.
  induction s as [|[k u] s IH]; [reflexivity|]. cbn [getattr setattr].
  destruct (String.eqb k a).
  - intros H. injection H as ->. reflexivity.
  - intros H. rewrite (IH H). reflexivity.
Qed.

Lemma iadd_parameter_grad_frame (a : string) (dw : Tensor) (s s1 : Attrs) :
  iadd_parameter_grad a dw s = Ok s1 ->
  same_but_grads s s1 /\ (forall c, c <> a -> getattr c s1 = getattr c s).
Proof.
  unfold iadd_parameter_grad.
  destruct (getattr a s) as [v|] eqn:G; [|discriminate].
  destruct v; try discriminate.
  destruct (grad_iadd (p_grad p) dw) as [g|]; [|discriminate].
  intros H. injection H as <-. split.
  - unfold same_but_grads. rewrite setattr_for_parameters.
    cbn [attr_for_parameter]. symmetry. apply setattr_same.
    rewrite getattr_for_parameters, G. reflexivity.
  - intros c N. apply getattr_setattr_ne. exact N.
Qed.

Lemma same_but_grads_trans (s t u : Attrs) :
  same_but_grads s t -> same_but_grads t u -> same_but_grads s u.
Proof. unfold same_but_grads. congruence. Qed.

Lemma same_but_grads_registry (s t : Attrs) :
  same_but_grads s t ->
  List.map (p_set_grad None) (slot_parameters s)
  = List.map (p_set_grad None) (slot_parameters t) /\
  slot_buffers s = slot_buffers t /\
  List.map fst s = List.map fst t.
Proof.
  unfold same_but_grads. intros E.
  rewrite <- !slot_parameters_for_parameters, E.
  split; [reflexivity|].
  rewrite <- (slot_buffers_for_parameters (p_set_grad None) s), E,
    slot_buffers_for_parameters.
  split; [reflexivity|].
  assert (N : forall r, List.map fst (for_parameters (p_set_grad None) r)
                        = List.map fst r).
  { intros r. unfold for_parameters. rewrite List.map_map.
    apply List.map_ext. intros [k []]; reflexivity. }
  rewrite <- (N s), E, N. reflexivity.
Qed.

Lemma Batchnorm1d_backward_frame (gf : GradFunc) (dy : Tensor) (s s2 : Attrs)
      (r : result (option Tensor)) :
  Batchnorm1d_backward gf dy s = (r, s2) ->
  same_but_grads s s2 /\
  (forall c, c <> "w" -> c <> "b" -> getattr c s2 = getattr c s) /\
  (forall dx, r = Ok dx ->
     exists dt, get_dtype "dtype" s = Ok dt /\
                dx = Some (fst (fst (gf (as_type dt dy))))).
Proof.
  unfold Batchnorm1d_backward.
  destruct (get_dtype "dtype" s) as [dt|].
  2:{ intros H. injection H as <- <-. split; [reflexivity|].
      split; [reflexivity|discriminate]. }
  destruct (gf (as_type dt dy)) as [[dx dw] db] eqn:G.
  assert (W : exists s1,
             (match dw with
              | Some dw => iadd_parameter_grad "w" dw s
              | None => Ok s
              end = Ok s1 /\ same_but_grads s s1 /\
              (forall c, c <> "w" -> getattr c s1 = getattr c s)) \/
             (exists e, match dw with
                        | Some dw => iadd_parameter_grad "w" dw s
                        | None => Ok s
                        end = Raise e)).
  { destruct dw as [dw|].
    - destruct (iadd_parameter_grad "w" dw s) as [s1|e] eqn:I.
      + exists s1. left. split; [reflexivity|].
        exact (iadd_parameter_grad_frame _ _ _ _ I).
      + exists s. right. exists e. reflexivity.
    - exists s. left. repeat split. }
  destruct W as (s1 & [(-> & E1 & O1) | (e & ->)]).
  2:{ intros H. injection H as <- <-. split; [reflexivity|].
      split; [reflexivity|discriminate]. }
  destruct db as [db|].
  - destruct (iadd_parameter_grad "b" db s1) as [s2'|e] eqn:I.
    + destruct (iadd_parameter_grad_frame _ _ _ _ I) as [E2 O2].
      intros H. injection H as <- <-.
      split; [exact (same_but_grads_trans _ _ _ E1 E2)|]. split.
      * intros c Nw Nb. rewrite (O2 c Nb). exact (O1 c Nw).
      * intros dx' H. injection H as <-. exists dt. rewrite G. split; reflexivity.
    + intros H. injection H as <- <-. split; [exact E1|].
      split; [intros c Nw _; exact (O1 c Nw)|discriminate].
  - intros H. injection H as <- <-. split; [exact E1|].
    split; [intros c Nw _; exact (O1 c Nw)|].
    intros dx' H. injection H as <-. exists dt. rewrite G. split; reflexivity.
Qed.

(** X8. The backward closure of a normalization module (the same code in
    Batchnorm1d, Batchnorm2d and Layernorm) writes gradients only: whatever
    [backward] returns or raises, the values, labels and flags of the
    parameters, the buffers, the names of the slots and every slot but [w]
    and [b] are as before, and so are the stored continuation, the label and
    the flags of the module.  When it returns, it returns the input gradient
    the gradient function gives for the output gradient converted to the
    element type of the module. *)
Theorem normalization_backward_writes_gradients_only
        (gf : GradFunc) (k : Continuation) (dy : Tensor) (m : NNModule) :
  k = Batchnorm1d_backward gf \/ k = Batchnorm2d_backward gf \/
  k = Layernorm_backward gf ->
  training m = true -> _backward m = Some k ->
  List.map (p_set_grad None) (parameters (snd (backward dy m)))
  = List.map (p_set_grad None) (parameters m) /\
  buffers (snd (backward dy m)) = buffers m /\
  List.map fst (slots (snd (backward dy m))) = List.map fst (slots m) /\
  (forall c, c <> "w" -> c <> "b" ->
             getattr c (slots (snd (backward dy m))) = getattr c (slots m)) /\
  _backward (snd (backward dy m)) = _backward m /\
  label (snd (backward dy m)) = label m /\
  _training (snd (backward dy m)) = _training m /\
  (forall dx, fst (backward dy m) = Ok dx ->
     exists dt, get_dtype "dtype" (slots m) = Ok dt /\
                dx = Some (fst (fst (gf (as_type dt dy))))).
Proof.
  intros K T B.
  assert (K' : k = Batchnorm1d_backward gf)
    by (destruct K as [->|[->| ->]]; reflexivity).
  subst k. rewrite (backward_unfold m dy _ T B). cbn [fst snd].
  destruct (Batchnorm1d_backward gf dy (slots m)) as [r s2] eqn:E.
  destruct (Batchnorm1d_backward_frame _ _ _ _ _ E) as (S & O & R).
  destruct (same_but_grads_registry _ _ S) as (P & Bf & N).
  destruct (_set_dy_fields dy m) as (Kd & Td & _ & Ld).
  unfold parameters, buffers. cbn [fst snd slots set_slots].
  split; [symmetry; exact P|]. split; [symmetry; exact Bf|].
  split; [symmetry; exact N|]. split; [exact O|].
  split; [exact Kd|]. split; [exact Ld|]. split; [exact Td|exact R].
Qed.

Lemma normalization_backward_writes_gradients_only_witness :
  List.map (p_set_grad None)
           (parameters (snd (backward batch_3x2
                               (snd (__call__
                                       (Batchnorm1d_forward sample_batchnorm1d)
                                       batch_3x2 sample_batchnorm)))))
  = parameters sample_batchnorm.
Proof.
  refine (proj1 (normalization_backward_writes_gradients_only
                   (fun dy => (dy, Some (first_entries 2 dy),
                               Some (first_entries 2 dy)))
                   _ batch_3x2
                   (snd (__call__ (Batchnorm1d_forward sample_batchnorm1d)
                                  batch_3x2 sample_batchnorm))
                   (or_introl eq_refl) _ _)).
  - reflexivity.
  - reflexivity.
Defined.

Lemma check_dims_raises (x : Tensor) (valid_dims : list nat) (m : NNModule) :
  ~ List.In (ndim x) valid_dims ->
  exists msg, _check_dims x valid_dims m = Raise (ShapeError msg) /\
              exists post, msg = label m +:+ post.
Proof.
  intros N. unfold _check_dims.
  destruct (existsb (Nat.eqb (ndim x)) valid_dims) eqn:E.
  - apply existsb_eqb_In in E. contradiction.
  - eexists. split; [reflexivity|]. eexists. reflexivity.
Qed.

Lemma check_dims_passes (x : Tensor) (valid_dims : list nat) (m : NNModule) :
  List.In (ndim x) valid_dims -> _check_dims x valid_dims m = Ok tt.
Proof.
  intros I. unfold _check_dims.
  rewrite (proj2 (existsb_eqb_In _ _) I). reflexivity.
Qed.

(** X9. The first forward call of a normalization module: a Batchnorm1d
    as its constructor builds it accepts an input of 2 or 3 dimensions, a
    Batchnorm2d one of 4 dimensions and a Layernorm any input; the call
    returns what the functional returns for the input converted to the
    element type of the module, a running mean of zeros, a running variance
    of ones, weights of ones and a bias of zeros, and the running statistics
    the functional returns become the buffers.  On an input of another
    number of dimensions the batch normalizations raise a ShapeError that
    starts with the label of the module and change nothing. *)
Theorem fresh_normalization_forward
        (bn1 bn2 : Tensor -> Buffer -> Buffer -> Array -> Array -> Q -> Q ->
                   bool -> Tensor * Buffer * Buffer * option GradFunc)
        (ln : Tensor -> Array -> Array -> Q -> bool ->
              Tensor * option GradFunc)
        (channels : nat) (normalized_shape : list nat) (eps mo : Q)
        (dt : Dtype) (lbl : option string) (tr : bool) (x : Tensor) :
  (forall v rm rv gf,
      ndim x = 2%nat \/ ndim x = 3%nat ->
      bn1 (as_type dt x)
          (mkBuffer (as_type dt (zeros [channels])) "bn1d_rmean")
          (mkBuffer (as_type dt (ones [channels])) "bn1d_rvar")
          (data (as_type dt (ones [channels])))
          (data (as_type dt (zeros [channels]))) mo eps tr
      = (v, rm, rv, gf) ->
      fst (Batchnorm1d_forward bn1 x
             (Batchnorm1d__init__ channels eps mo dt lbl tr)) = Ok v /\
      buffers (snd (Batchnorm1d_forward bn1 x
                      (Batchnorm1d__init__ channels eps mo dt lbl tr)))
      = [rm; rv]) /\
  (forall v rm rv gf,
      ndim x = 4%nat ->
      bn2 (as_type dt x)
          (mkBuffer (as_type dt (zeros [channels])) "bn2d_rmean")
          (mkBuffer (as_type dt (ones [channels])) "bn2d_rvar")
          (data (as_type dt (ones [channels])))
          (data (as_type dt (zeros [channels]))) mo eps tr
      = (v, rm, rv, gf) ->
      fst (Batchnorm2d_forward bn2 x
             (Batchnorm2d__init__ channels eps mo dt lbl tr)) = Ok v /\
      buffers (snd (Batchnorm2d_forward bn2 x
                      (Batchnorm2d__init__ channels eps mo dt lbl tr)))
      = [rm; rv]) /\
  fst (Layernorm_forward ln x
         (Layernorm__init__ normalized_shape eps dt lbl tr))
  = Ok (fst (ln (as_type dt x)
                (data (as_type dt (ones normalized_shape)))
                (data (as_type dt (zeros normalized_shape))) eps tr)) /\
  (forall m, ndim x <> 2%nat -> ndim x <> 3%nat ->
     exists msg, Batchnorm1d_forward bn1 x m = (Raise (ShapeError msg), m) /\
                 exists post, msg = label m +:+ post) /\
  (forall m, ndim x <> 4%nat ->
     exists msg, Batchnorm2d_forward bn2 x m = (Raise (ShapeError msg), m) /\
                 exists post, msg = label m +:+ post).
Proof.
  split; [|split; [|split; [|split]]].
  - intros v rm rv gf R B. unfold Batchnorm1d_forward.
    rewrite check_dims_passes
      by (destruct R as [-> | ->]; [left|right; left]; reflexivity).
    change (Batchnorm1d_args
              (slots (Batchnorm1d__init__ channels eps mo dt lbl tr)))
      with (Ok (A := Dtype * Buffer * Buffer * Param * Param * Q * Q)
               (dt, mkBuffer (as_type dt (zeros [channels])) "bn1d_rmean",
                mkBuffer (as_type dt (ones [channels])) "bn1d_rvar",
                mkParameter (as_type dt (ones [channels])) true "bn1d_w",
                mkParameter (as_type dt (zeros [channels])) true "bn1d_b",
                mo, eps)).
    cbv beta iota.
    change (_training (Batchnorm1d__init__ channels eps mo dt lbl tr)) with tr.
    cbn [p_tensor]. rewrite B.
    split; [reflexivity|]. destruct tr, gf; reflexivity.
  - intros v rm rv gf R B. unfold Batchnorm2d_forward.
    rewrite check_dims_passes by (rewrite R; left; reflexivity).
    change (Batchnorm1d_args
              (slots (Batchnorm2d__init__ channels eps mo dt lbl tr)))
      with (Ok (A := Dtype * Buffer * Buffer * Param * Param * Q * Q)
               (dt, mkBuffer (as_type dt (zeros [channels])) "bn2d_rmean",
                mkBuffer (as_type dt (ones [channels])) "bn2d_rvar",
                mkParameter (as_type dt (ones [channels])) true "bn2d_w",
                mkParameter (as_type dt (zeros [channels])) true "bn2d_b",
                mo, eps)).
    cbv beta iota.
    change (_training (Batchnorm2d__init__ channels eps mo dt lbl tr)) with tr.
    cbn [p_tensor]. rewrite B.
    split; [reflexivity|]. destruct tr, gf; reflexivity.
  - unfold Layernorm_forward.
    change (Layernorm_args
              (slots (Layernorm__init__ normalized_shape eps dt lbl tr)))
      with (Ok (A := Dtype * Param * Param * Q)
               (dt, mkParameter (as_type dt (ones normalized_shape)) true "ln_w",
                mkParameter (as_type dt (zeros normalized_shape)) true "ln_b",
                eps)).
    cbv beta iota.
    change (_training (Layernorm__init__ normalized_shape eps dt lbl tr))
      with tr.
    cbn [p_tensor]. destruct (ln _ _ _ _ _) as [v gf]. reflexivity.
  - intros m N2 N3. unfold Batchnorm1d_forward.
    destruct (check_dims_raises x [2%nat; 3%nat] m) as (msg & -> & P).
    { intros [H|[H|[]]]; congruence. }
    exists msg. split; [reflexivity|exact P].
  - intros m N4. unfold Batchnorm2d_forward.
    destruct (check_dims_raises x [4%nat] m) as (msg & -> & P).
    { intros [H|[]]; congruence. }
    exists msg. split; [reflexivity|exact P].
Qed.

Lemma fresh_normalization_forward_witness :
  fst (Batchnorm1d_forward sample_batchnorm1d batch_3x2 sample_batchnorm)
  = Ok batch_3x2 /\
  (exists msg,
      Batchnorm1d_forward sample_batchnorm1d (ones [3%nat]) sample_batchnorm
      = (Raise (ShapeError msg), sample_batchnorm) /\
      exists post, msg = label sample_batchnorm +:+ post).
Proof.
  destruct (fresh_normalization_forward
              sample_batchnorm1d sample_batchnorm1d sample_layernorm
              2 [2%nat] (1 # 100000) (1 # 10) FLOAT32 None true batch_3x2)
    as (H & _).
  split.
  - refine (proj1 (H _ _ _ _ (or_introl eq_refl) eq_refl)).
  - destruct (fresh_normalization_forward
                sample_batchnorm1d sample_batchnorm1d sample_layernorm
                2 [2%nat] (1 # 100000) (1 # 10) FLOAT32 None true (ones [3%nat]))
      as (_ & _ & _ & R & _).
    apply R; discriminate.
Defined.

(** ** The fully connected layer of walnut *)

Lemma columns_shape (a : Walnut.Matrix) :
  List.length (Walnut.columns a) = Walnut.ncols a /\
  Forall (fun c => List.length c = List.length (Walnut.entries a))
         (Walnut.columns a).
Proof.
  unfold Walnut.columns. split.
  - rewrite List.length_map, List.length_seq. reflexivity.
  - apply List.Forall_forall. intros c Hc.
    apply List.in_map_iff in Hc. destruct Hc as (j & <- & _).
    unfold Walnut.column. apply List.length_map.
Qed.

Lemma transpose_shape (n k : nat) (a : Walnut.Matrix) :
  has_shape n k a -> has_shape k n (Walnut.transpose a).
Proof.
  intros (R & C & L & _). destruct (columns_shape a) as [CL CF].
  unfold has_shape, Walnut.mat_well_formed, Walnut.transpose.
  cbn [Walnut.nrows Walnut.ncols Walnut.entries].
  split; [exact C|]. split; [exact R|]. split; [exact CL|].
  rewrite L in CF. exact CF.
Qed.

Lemma matmul_shape (n k m : nat) (a b : Walnut.Matrix) :
  has_shape n k a -> has_shape k m b ->
  exists c, Walnut.matmul a b = Ok c /\ has_shape n m c.
Proof.
  intros (Ra & Ca & La & _) (Rb & Cb & _).
  unfold Walnut.matmul. rewrite Ca, Rb, Nat.eqb_refl.
  eexists. split; [reflexivity|].
  unfold has_shape, Walnut.mat_well_formed.
  cbn [Walnut.nrows Walnut.ncols Walnut.entries].
  split; [exact Ra|]. split; [exact Cb|].
  split; [rewrite List.length_map; exact La|].
  apply List.Forall_forall. intros r Hr.
  apply List.in_map_iff in Hr. destruct Hr as (r0 & <- & _).
  rewrite List.length_map. apply (proj1 (columns_shape b)).
Qed.

Lemma matmul_mismatch (a b : Walnut.Matrix) :
  Walnut.ncols a <> Walnut.nrows b ->
  exists msg, Walnut.matmul a b = Raise (ValueError msg).
Proof.
  intros N. unfold Walnut.matmul.
  destruct (Nat.eqb_spec (Walnut.ncols a) (Walnut.nrows b)); [contradiction|].
  eexists. reflexivity.
Qed.

Lemma add_rows_length (u v : list Q) :
  List.length u = List.length v ->
  List.length (Walnut.add_rows u v) = List.length u.
Proof.
  revert v. induction u as [|x u IH]; intros [|z v]; cbn; try discriminate;
    [reflexivity|].
  intros H. injection H as H. rewrite (IH v H). reflexivity.
Qed.

Lemma add_bias_shape (n m : nat) (v : Walnut.Matrix) (bs : list Q) :
  has_shape n m v -> List.length bs = m ->
  exists v', Walnut.add_bias v bs = Ok v' /\ has_shape n m v'.
Proof.
  intros (R & C & L & F) B. unfold Walnut.add_bias.
  rewrite B, C, Nat.eqb_refl. eexists. split; [reflexivity|].
  unfold has_shape, Walnut.mat_well_formed.
  cbn [Walnut.nrows Walnut.ncols Walnut.entries].
  split; [exact R|]. split; [reflexivity|].
  split; [rewrite List.length_map; exact L|].
  apply List.Forall_forall. intros r Hr.
  apply List.in_map_iff in Hr. destruct Hr as (r0 & <- & I).
  rewrite List.Forall_forall in F. specialize (F r0 I).
  rewrite add_rows_length; congruence.
Qed.

Lemma sum_axis0_length (a : Walnut.Matrix) :
  List.length (Walnut.sum_axis0 a) = Walnut.ncols a.
Proof.
  unfold Walnut.sum_axis0. rewrite List.length_map.
  apply (proj1 (columns_shape a)).
Qed.

(** A call of a layer of matching shape. *)
Lemma Linear_call_shape (Y : Type) (set_y set_y_grad : Walnut.Matrix -> Y -> Y)
      (n k m : nat) (x : Walnut.Matrix) (l : Walnut.Linear Y) :
  has_shape n k x -> linear_of_shape k m l ->
  exists v,
    has_shape n m v /\
    Walnut.Linear__call__ set_y set_y_grad x l
    = (Ok v,
       Walnut.mkLinear
         (Walnut.mkCore (Walnut.w (Walnut.core l)) (Walnut.b (Walnut.core l))
                        (Walnut.use_bias (Walnut.core l))
                        (set_y v (Walnut.kept (Walnut.core l))))
         (Walnut.training l)
         (if Walnut.training l then Some (Walnut.Linear_backward set_y_grad x)
          else Walnut.backward l)).
Proof.
  intros X [W B]. unfold Walnut.Linear__call__.
  destruct (matmul_shape n k m _ _ X W) as (v0 & -> & V0).
  destruct (Walnut.use_bias (Walnut.core l)) eqn:U.
  - destruct (B eq_refl) as (bt & -> & Lb).
    destruct (add_bias_shape n m v0 _ V0 Lb) as (v1 & -> & V1).
    exists v1. split; [exact V1|reflexivity].
  - exists v0. split; [exact V0|reflexivity].
Qed.

(** X10. Shapes in the fully connected layer.  For an input of [n] rows
    and [k] columns and weights of [k] rows and [m] columns (and a bias of
    [m] entries if one is used), a call in training mode returns an output
    of [n] rows and [m] columns; the backward closure it stores, called on
    an output gradient of that shape, returns an input gradient of the shape
    of the input and leaves a weight gradient of the shape of the weights
    and, with a bias, a bias gradient of [m] entries.  Neither call changes
    the values of the weights and of the bias. *)
Theorem linear_gradient_shapes
        (Y : Type) (set_y set_y_grad : Walnut.Matrix -> Y -> Y)
        (n k m : nat) (x g : Walnut.Matrix) (l : Walnut.Linear Y) :
  has_shape n k x -> has_shape n m g -> linear_of_shape k m l ->
  Walnut.training l = true ->
  exists v l1 xg l2 wg,
    Walnut.Linear__call__ set_y set_y_grad x l = (Ok v, l1) /\
    has_shape n m v /\
    Walnut.call_backward g l1 = (Ok xg, l2) /\
    has_shape n k xg /\
    Walnut.weight_grad l2 = Some wg /\ has_shape k m wg /\
    (Walnut.use_bias (Walnut.core l) = true ->
     exists bt bg, Walnut.b (Walnut.core l2) = Some bt /\
                   Walnut.bgrad bt = Some bg /\ List.length bg = m) /\
    linear_values l1 = linear_values l /\ linear_values l2 = linear_values l.
Proof.
  intros X G L T.
  destruct (Linear_call_shape Y set_y set_y_grad n k m x l X L)
    as (v & V & C).
  rewrite T in C. destruct L as [W B].
  destruct (matmul_shape n m k g _ G (transpose_shape _ _ _ W))
    as (xg & MX & XG).
  destruct (matmul_shape k n m _ g (transpose_shape _ _ _ X) G)
    as (wg & MW & WG).
  assert (BW : Walnut.call_backward g
                 (Walnut.mkLinear
                    (Walnut.mkCore (Walnut.w (Walnut.core l))
                       (Walnut.b (Walnut.core l))
                       (Walnut.use_bias (Walnut.core l))
                       (set_y v (Walnut.kept (Walnut.core l))))
                    true (Some (Walnut.Linear_backward set_y_grad x)))
               = (Ok xg,
                  Walnut.mkLinear
                    (Walnut.mkCore
                       (Walnut.mkWTensor
                          (Walnut.wdata (Walnut.w (Walnut.core l))) (Some wg))
                       (if Walnut.use_bias (Walnut.core l)
                        then option_map
                               (fun bt => Walnut.mkBTensor
                                            (Walnut.bdata bt)
                                            (Some (Walnut.sum_axis0 g)))
                               (Walnut.b (Walnut.core l))
                        else Walnut.b (Walnut.core l))
                       (Walnut.use_bias (Walnut.core l))
                       (set_y_grad g (set_y v (Walnut.kept (Walnut.core l)))))
                    true (Some (Walnut.Linear_backward set_y_grad x)))).
  { unfold Walnut.call_backward.
    cbn [Walnut.backward Walnut.core Walnut.training].
    unfold Walnut.Linear_backward.
    cbn [Walnut.w Walnut.b Walnut.use_bias Walnut.kept Walnut.wdata].
    rewrite MX.
    change (Walnut.transpose_axes (Walnut.w_ax (Walnut.mat_ndim x)) x)
      with (Ok (A := Walnut.Matrix) (Walnut.transpose x)).
    cbn [bind]. rewrite MW.
    destruct (Walnut.use_bias (Walnut.core l)) eqn:U.
    - destruct (B eq_refl) as (bt & -> & _). reflexivity.
    - reflexivity. }
  eexists v, _, xg, _, wg.
  split; [exact C|]. split; [exact V|]. split; [exact BW|].
  split; [exact XG|]. split; [reflexivity|]. split; [exact WG|].
  split; [|split].
  - intros U. destruct (B U) as (bt & Eb & _).
    cbn [Walnut.core Walnut.b]. rewrite U, Eb. cbn [option_map].
    eexists _, _. split; [reflexivity|]. split; [reflexivity|].
    rewrite sum_axis0_length. exact (proj1 (proj2 G)).
  - reflexivity.
  - unfold linear_values. cbn [Walnut.core Walnut.w Walnut.b Walnut.use_bias
                                Walnut.wdata].
    destruct (Walnut.use_bias (Walnut.core l)); [|reflexivity].
    destruct (Walnut.b (Walnut.core l)); reflexivity.
Qed.

Lemma mat_full_shape (n k : nat) (q : Q) :
  has_shape n k (Walnut.mat_full n k q).
Proof.
  unfold has_shape, Walnut.mat_well_formed, Walnut.mat_full.
  cbn [Walnut.nrows Walnut.ncols Walnut.entries].
  split; [reflexivity|]. split; [reflexivity|].
  split; [apply List.repeat_length|].
  apply List.Forall_forall. intros r Hr.
  apply List.repeat_spec in Hr. subst r. apply List.repeat_length.
Qed.

Lemma linear_gradient_shapes_witness :
  exists v l1 xg l2 wg,
    Walnut.Linear__call__ keep_nothing keep_nothing (Walnut.mat_ones 4 2)
                          linear_2x3 = (Ok v, l1) /\
    has_shape 4 3 v /\
    Walnut.call_backward (Walnut.mat_ones 4 3) l1 = (Ok xg, l2) /\
    has_shape 4 2 xg /\
    Walnut.weight_grad l2 = Some wg /\ has_shape 2 3 wg.
Proof.
  destruct (linear_gradient_shapes unit keep_nothing keep_nothing 4 2 3
              (Walnut.mat_ones 4 2) (Walnut.mat_ones 4 3) linear_2x3
              (mat_full_shape 4 2 1%Q) (mat_full_shape 4 3 1%Q))
    as (v & l1 & xg & l2 & wg & C & V & B & XG & WG & WS & _).
  - split; [apply mat_full_shape|].
    intros _. eexists. split; reflexivity.
  - reflexivity.
  - exists v, l1, xg, l2, wg.
    split; [exact C|]. split; [exact V|]. split; [exact B|].
    split; [exact XG|]. split; [exact WG|exact WS].
Defined.

(** X11. Failures of the fully connected layer.  A call on an input whose
    number of columns is not the number of rows of the weights raises a
    ValueError and leaves the layer as it was.  A call out of training mode
    stores no closure: the stored one, if any, and the gradients stay.
    Calling the closure of a layer that has none raises a TypeError.  After a
    call in training mode, the closure called on an output gradient whose
    number of rows is not that of the input, or whose number of columns is
    not that of the weights, raises a ValueError and leaves the layer, its
    gradients included, as it was. *)
Theorem linear_failures
        (Y : Type) (set_y set_y_grad : Walnut.Matrix -> Y -> Y)
        (x g : Walnut.Matrix) (l : Walnut.Linear Y) :
  (Walnut.ncols x <> Walnut.nrows (Walnut.wdata (Walnut.w (Walnut.core l))) ->
   exists msg, Walnut.Linear__call__ set_y set_y_grad x l
               = (Raise (ValueError msg), l)) /\
  (forall v l1,
      Walnut.training l = false ->
      Walnut.Linear__call__ set_y set_y_grad x l = (Ok v, l1) ->
      Walnut.backward l1 = Walnut.backward l /\
      Walnut.w (Walnut.core l1) = Walnut.w (Walnut.core l) /\
      Walnut.b (Walnut.core l1) = Walnut.b (Walnut.core l)) /\
  (Walnut.backward l = None ->
   exists msg, Walnut.call_backward g l = (Raise (TypeError msg), l)) /\
  (forall v l1,
      Walnut.training l = true ->
      Walnut.Linear__call__ set_y set_y_grad x l = (Ok v, l1) ->
      Walnut.nrows g <> Walnut.nrows x \/
      Walnut.ncols g <> Walnut.ncols (Walnut.wdata (Walnut.w (Walnut.core l))) ->
      exists msg, Walnut.call_backward g l1 = (Raise (ValueError msg), l1)).
Proof.
  split; [|split; [|split]].
  - intros N. unfold Walnut.Linear__call__.
    destruct (matmul_mismatch _ _ N) as (msg & ->). exists msg. reflexivity.
  - intros v l1 T. unfold Walnut.Linear__call__.
    destruct (Walnut.matmul x _) as [v0|]; [|discriminate].
    destruct (if Walnut.use_bias (Walnut.core l) then _ else _) as [v1|];
      [|discriminate].
    rewrite T. intros H. injection H as _ <-. repeat split.
  - intros N. unfold Walnut.call_backward. rewrite N.
    eexists. reflexivity.
  - intros v l1 T. unfold Walnut.Linear__call__.
    destruct (Walnut.matmul x _) as [v0|]; [|discriminate].
    destruct (if Walnut.use_bias (Walnut.core l) then _ else _) as [v1|];
      [|discriminate].
    rewrite T. intros H. injection H as _ <-. intros N.
    unfold Walnut.call_backward.
    cbn [Walnut.backward Walnut.core Walnut.training].
    unfold Walnut.Linear_backward.
    cbn [Walnut.w Walnut.b Walnut.use_bias Walnut.kept Walnut.wdata].
    destruct (Nat.eq_dec (Walnut.ncols g)
                (Walnut.ncols (Walnut.wdata (Walnut.w (Walnut.core l)))))
      as [E|E].
    + destruct N as [N|N]; [|contradiction].
      destruct (Walnut.matmul g _) as [xg|e] eqn:M.
      * change (Walnut.transpose_axes (Walnut.w_ax (Walnut.mat_ndim x)) x)
          with (Ok (A := Walnut.Matrix) (Walnut.transpose x)).
        cbn [bind].
        destruct (matmul_mismatch (Walnut.transpose x) g) as (msg & ->).
        { cbn [Walnut.transpose Walnut.ncols]. congruence. }
        exists msg. reflexivity.
      * exfalso. unfold Walnut.matmul in M.
        cbn [Walnut.transpose Walnut.nrows] in M.
        rewrite E, Nat.eqb_refl in M. discriminate M.
    + destruct (matmul_mismatch g
                  (Walnut.transpose
                     (Walnut.wdata (Walnut.w (Walnut.core l)))))
        as (msg & ->); [exact E|].
      exists msg. reflexivity.
Qed.

Lemma linear_failures_witness :
  (exists msg,
      Walnut.Linear__call__ keep_nothing keep_nothing (Walnut.mat_ones 4 3)
                            linear_2x3 = (Raise (ValueError msg), linear_2x3)) /\
  (exists msg,
      Walnut.call_backward (Walnut.mat_ones 4 3) linear_2x3
      = (Raise (TypeError msg), linear_2x3)) /\
  (exists v l1 msg,
      Walnut.Linear__call__ keep_nothing keep_nothing (Walnut.mat_ones 4 2)
                            linear_2x3 = (Ok v, l1) /\
      Walnut.call_backward (Walnut.mat_ones 4 2) l1
      = (Raise (ValueError msg), l1)).
Proof.
  split; [|split].
  - apply (proj1 (linear_failures unit keep_nothing keep_nothing
                    (Walnut.mat_ones 4 3) (Walnut.mat_ones 4 3) linear_2x3)).
    discriminate.
  - apply (proj1 (proj2 (proj2 (linear_failures unit keep_nothing keep_nothing
                    (Walnut.mat_ones 4 3) (Walnut.mat_ones 4 3) linear_2x3)))).
    reflexivity.
  - destruct (Linear_call_shape unit keep_nothing keep_nothing 4 2 3
                (Walnut.mat_ones 4 2) linear_2x3 (mat_full_shape 4 2 1%Q))
      as (v & _ & C).
    { split; [apply mat_full_shape|].
      intros _. eexists. split; reflexivity. }
    destruct (proj2 (proj2 (proj2 (linear_failures unit keep_nothing
                 keep_nothing (Walnut.mat_ones 4 2) (Walnut.mat_ones 4 2)
                 linear_2x3))) _ _ eq_refl C) as (msg & F).
    { right. discriminate. }
    eexists v, _, msg. split; [exact C|exact F].
Defined.

(** ** The mean squared error *)

Lemma Qsquare_nonneg (x : Q) : (0 <= x * x)%Q.
Proof. destruct x as [a b]. unfold Qle, Qmult. cbn. nia. Qed.

Lemma sumQ_squares_nonneg (l : list Q) :
  (0 <= sumQ (List.map (fun x => x * x) l))%Q.
Proof.
  unfold sumQ. induction l as [|x l IH]; cbn; [apply Qle_refl|].
  replace 0%Q with (0 + 0)%Q by reflexivity.
  apply Qplus_le_compat; [apply Qsquare_nonneg|exact IH].
Qed.

Lemma sumQ_squares_sub_sym (p t : list Q) :
  (sumQ (List.map (fun x => x * x) (sub_elems p t))
   == sumQ (List.map (fun x => x * x) (sub_elems t p)))%Q.
Proof.
  unfold sumQ. revert t. induction p as [|x p IH]; intros [|z t]; cbn;
    try reflexivity.
  rewrite (IH t). ring.
Qed.

Lemma sumQ_squares_sub_self (p : list Q) :
  (sumQ (List.map (fun x => x * x) (sub_elems p p)) == 0)%Q.
Proof.
  unfold sumQ. induction p as [|x p IH]; cbn; [reflexivity|].
  rewrite IH. ring.
Qed.

Lemma float_of_nat_pos (n : nat) : n <> 0%nat -> (0 < float_of_nat n)%Q.
Proof.
  intros N. unfold float_of_nat, Qlt, inject_Z. cbn. lia.
Qed.

Lemma forward_loss (c : Cache) (y_pred y_true : Tensor) :
  t_shape y_pred = t_shape y_true ->
  exists c',
    FMeanSquaredError_forward c y_pred y_true
    = Ok (of_array
            (mkArray []
               [(sumQ (List.map (fun x => x * x)
                         (sub_elems (elems (data y_pred)) (elems (data y_true))))
                 / float_of_nat (size y_pred))%Q]
               (dtype (data y_pred)) (device (data y_pred))), c').
Proof.
  intros S. unfold FMeanSquaredError_forward, t_sub.
  rewrite (bool_decide_eq_true_2 _ S). cbn [bind].
  eexists. reflexivity.
Qed.

(** X12. The value of the mean squared error.  For predictions and targets
    of one shape with at least one entry, [mean_squared_error] returns a
    tensor of no dimension whose number is not negative and is the same
    when predictions and targets are exchanged; for equal predictions and
    targets it is zero. *)
Theorem mean_squared_error_value (y_pred y_true : Tensor) :
  (t_shape y_pred = t_shape y_true -> size y_pred <> 0%nat ->
   exists l l',
     mean_squared_error y_pred y_true = Ok l /\
     mean_squared_error y_true y_pred = Ok l' /\
     t_shape l = [] /\
     (0 <= item l)%Q /\ (item l == item l')%Q) /\
  (exists l, mean_squared_error y_pred y_pred = Ok l /\ (item l == 0)%Q).
Proof.
  split.
  - intros S N. unfold mean_squared_error.
    destruct (forward_loss PseudoCache y_pred y_true S) as (c1 & ->).
    destruct (forward_loss PseudoCache y_true y_pred (eq_sym S)) as (c2 & ->).
    cbn [rmap bind fst]. eexists _, _.
    split; [reflexivity|]. split; [reflexivity|]. split; [reflexivity|].
    unfold item. cbn [data of_array elems hd]. split.
    + unfold Qdiv. apply Qmult_le_0_compat; [apply sumQ_squares_nonneg|].
      apply Qinv_le_0_compat, Qlt_le_weak, float_of_nat_pos. exact N.
    + assert (Sz : size y_true = size y_pred).
      { unfold size, a_size. unfold t_shape in S. rewrite S. reflexivity. }
      rewrite Sz, sumQ_squares_sub_sym. reflexivity.
  - unfold mean_squared_error.
    destruct (forward_loss PseudoCache y_pred y_pred eq_refl) as (c1 & ->).
    cbn [rmap bind fst]. eexists. split; [reflexivity|].
    unfold item. cbn [data of_array elems hd].
    rewrite sumQ_squares_sub_self. unfold Qdiv. ring.
Qed.

Lemma mean_squared_error_value_witness :
  exists l l',
    mean_squared_error (ones [2%nat; 3%nat]) (zeros [2%nat; 3%nat]) = Ok l /\
    mean_squared_error (zeros [2%nat; 3%nat]) (ones [2%nat; 3%nat]) = Ok l' /\
    t_shape l = [] /\ (0 <= item l)%Q /\ (item l == item l')%Q.
Proof.
  apply (proj1 (mean_squared_error_value (ones [2%nat; 3%nat])
                  (zeros [2%nat; 3%nat]))).
  - reflexivity.
  - discriminate.
Defined.



(** ** The binary cross entropy *)

Lemma clip_number_within (lo hi x : Q) :
  (lo <= hi)%Q ->
  (lo <= clip_number lo hi x /\ clip_number lo hi x <= hi)%Q.
Proof.
  intros H. unfold clip_number.
  destruct (Qle_bool lo x) eqn:E1.
  - apply Qle_bool_iff in E1. destruct (Qle_bool x hi) eqn:E2.
    + apply Qle_bool_iff in E2. split; assumption.
    + split; [exact H|apply Qle_refl].
  - destruct (Qle_bool lo hi) eqn:E2.
    + split; [apply Qle_refl|exact H].
    + apply Qle_bool_iff in H. congruence.
Qed.

(** One term of the loss: a label between 0 and 1 weighs two numbers between
    [-c] and [c]. *)
Lemma weighted_within (c t u v : Q) :
  (0 <= t)%Q -> (t <= 1)%Q -> (- c <= u)%Q -> (u <= c)%Q ->
  (- c <= v)%Q -> (v <= c)%Q ->
  (- c <= t * u + (1 - t) * v /\ t * u + (1 - t) * v <= c)%Q.
Proof.
  intros T0 T1 U0 U1 V0 V1.
  assert (T1' : (0 <= 1 - t)%Q).
  { apply (Qplus_le_r _ _ t). ring_simplify. exact T1. }
  split.
  - setoid_replace (- c)%Q with (t * - c + (1 - t) * - c)%Q
      using relation Qeq by ring.
    apply Qplus_le_compat.
    + rewrite !(Qmult_comm t). apply Qmult_le_compat_r; assumption.
    + rewrite !(Qmult_comm (1 - t)). apply Qmult_le_compat_r; assumption.
  - assert (E : (t * c + (1 - t) * c == c)%Q) by ring.
    apply (Qle_trans _ (t * c + (1 - t) * c)%Q);
      [|rewrite E; apply Qle_refl].
    apply Qplus_le_compat.
    + rewrite !(Qmult_comm t). apply Qmult_le_compat_r; assumption.
    + rewrite !(Qmult_comm (1 - t)). apply Qmult_le_compat_r; assumption.
Qed.

Lemma sumQ_within (c : Q) (l : list Q) :
  Forall (fun x => - c <= x /\ x <= c)%Q l ->
  (- (inject_Z (Z.of_nat (List.length l)) * c) <= sumQ l /\
   sumQ l <= inject_Z (Z.of_nat (List.length l)) * c)%Q.
Proof.
  unfold sumQ. induction 1 as [|x l [Hx0 Hx1] _ [IH0 IH1]].
  - cbn. split; discriminate.
  - cbn [List.length fold_right]. rewrite Nat2Z.inj_succ.
    unfold Z.succ. rewrite inject_Z_plus. split.
    + setoid_replace (- ((inject_Z (Z.of_nat (List.length l)) + inject_Z 1) * c))%Q
        with (- c + - (inject_Z (Z.of_nat (List.length l)) * c))%Q
        using relation Qeq by ring.
      apply Qplus_le_compat; assumption.
    + setoid_replace ((inject_Z (Z.of_nat (List.length l)) + inject_Z 1) * c)%Q
        with (c + inject_Z (Z.of_nat (List.length l)) * c)%Q
        using relation Qeq by ring.
      apply Qplus_le_compat; assumption.
Qed.

(** The entries [forward] takes the mean of. *)
Lemma loss_terms_within (lg : Q -> Q) (p t : list Q) :
  Forall (fun x => 0 <= x /\ x <= 1)%Q t ->
  List.length t = List.length p ->
  Forall (fun x => - (100) <= x /\ x <= 100)%Q
         (zip_elems Qplus
            (zip_elems Qmult t
               (List.map (clip_number (- (100)) 100) (List.map lg p)))
            (zip_elems Qmult (List.map (fun x => 1 - x)%Q t)
               (List.map (clip_number (- (100)) 100)
                  (List.map lg (List.map (fun x => 1 - x)%Q p))))) /\
  List.length
    (zip_elems Qplus
       (zip_elems Qmult t
          (List.map (clip_number (- (100)) 100) (List.map lg p)))
       (zip_elems Qmult (List.map (fun x => 1 - x)%Q t)
          (List.map (clip_number (- (100)) 100)
             (List.map lg (List.map (fun x => 1 - x)%Q p)))))
  = List.length p.
Proof.
  intros F. revert p. induction F as [|x t [X0 X1] _ IH]; intros [|z p] L;
    try discriminate.
  - split; [constructor|reflexivity].
  - cbn in L. injection L as L. destruct (IH p L) as [IF IL].
    cbn [List.map zip_elems List.length]. split; [|rewrite IL; reflexivity].
    constructor; [|exact IF].
    assert (B : (- (100) <= 100)%Q) by discriminate.
    destruct (clip_number_within (- (100)) 100 (lg z) B) as [U0 U1].
    destruct (clip_number_within (- (100)) 100 (lg (1 - z)%Q) B) as [V0 V1].
    exact (weighted_within 100 x _ _ X0 X1 U0 U1 V0 V1).
Qed.

(** X14. The binary cross entropy is bounded by its clip value.  For
    predictions and labels of one shape with at least one entry, both
    between 0 and 1, [forward] returns a loss between -100 and 100, whatever
    the logarithms of the predictions are; the loss does not depend on the
    cache. *)
Theorem binary_cross_entropy_bounded
        (lg : Q -> Q) (c : Cache) (y_pred y_true : Tensor) :
  t_shape y_pred = t_shape y_true ->
  a_well_formed (data y_pred) -> a_well_formed (data y_true) ->
  size y_pred <> 0%nat ->
  entries_within 0 1 y_pred -> entries_within 0 1 y_true ->
  exists l c',
    FBinaryCrossEntropy_forward lg c y_pred y_true = Ok (l, c') /\
    binary_cross_entropy lg y_pred y_true = Ok l /\
    t_shape l = [] /\
    (- (100) <= item l)%Q /\ (item l <= 100)%Q.
Proof.
  intros S Wp Wt N _ E.
  assert (L : List.length (elems (data y_true))
              = List.length (elems (data y_pred))).
  { unfold a_well_formed, a_size in Wp, Wt. unfold t_shape in S.
    rewrite Wp, Wt, S. reflexivity. }
  unfold binary_cross_entropy, FBinaryCrossEntropy_forward, t_mul, t_add,
    t_zip, log, clip, one_minus, t_map.
  cbn [t_shape data of_array shape elems dtype device].
  fold (t_shape y_pred). fold (t_shape y_true).
  rewrite !(bool_decide_eq_true_2 _ (eq_sym S)). cbn [bind].
  cbn [t_shape data of_array shape elems dtype device].
  rewrite !(bool_decide_eq_true_2 _ (eq_refl (t_shape y_true))).
  cbn [bind rmap fst].
  eexists _, _. split; [reflexivity|]. split; [reflexivity|].
  split; [reflexivity|].
  destruct (loss_terms_within lg _ _ E L) as [F Ln].
  destruct (sumQ_within 100 _ F) as [S0 S1]. rewrite Ln in S0, S1.
  unfold a_well_formed in Wp, Wt. rewrite Wp in S0, S1.
  assert (Sz : a_size (data y_pred) = prod_shape (t_shape y_true)).
  { unfold a_size. unfold t_shape in S. rewrite S. reflexivity. }
  rewrite Sz in S0, S1.
  assert (P : (0 < float_of_nat (prod_shape (t_shape y_true)))%Q).
  { apply float_of_nat_pos. rewrite <- Sz. exact N. }
  unfold item, t_neg, t_map, mean, size, a_size.
  cbn [data of_array elems List.map hd shape t_shape].
  fold (t_shape y_true).
  unfold float_of_nat in *.
  set (n := inject_Z (Z.of_nat (prod_shape (t_shape y_true)))) in *.
  set (s := sumQ _) in *.
  rewrite (Qmult_comm n) in S0, S1.
  split.
  - apply Qopp_le_compat. apply Qle_shift_div_r; [exact P|exact S1].
  - setoid_replace 100%Q with (- - (100))%Q using relation Qeq by ring.
    apply Qopp_le_compat. apply Qle_shift_div_l; [exact P|].
    setoid_replace (- (100) * n)%Q with (- (100 * n))%Q
      using relation Qeq by ring.
    exact S0.
Qed.

Lemma binary_cross_entropy_bounded_witness :
  exists l,
    binary_cross_entropy sample_log half_half one_zero = Ok l /\
    (- (100) <= item l)%Q /\ (item l <= 100)%Q.
Proof.
  destruct (binary_cross_entropy_bounded sample_log PseudoCache
              half_half one_zero)
    as (l & c' & _ & B & _ & L0 & L1).
  - reflexivity.
  - reflexivity.
  - reflexivity.
  - discriminate.
  - repeat constructor; discriminate.
  - repeat constructor; discriminate.
  - exists l. split; [exact B|]. split; assumption.
Defined.

Lemma gradient_entry (n p t : Q) :
  (0 < p)%Q -> (p < 1)%Q -> (0 < n)%Q ->
  ((- t / p + (1 - t) / (1 - p)) / n == closed_gradient n p t)%Q.
Proof.
  intros P0 P1 N. unfold closed_gradient.
  assert (Hp : ~ (p == 0)%Q).
  { intros E. rewrite E in P0. discriminate P0. }
  assert (Hq : ~ (1 - p == 0)%Q).
  { intros E. apply Qlt_minus_iff in P1. unfold Qminus in E.
    rewrite E in P1. discriminate P1. }
  assert (Hn : ~ (n == 0)%Q).
  { intros E. rewrite E in N. discriminate N. }
  field. repeat split; assumption.
Qed.

Lemma gradient_entries (n : Q) (p t : list Q) :
  (0 < n)%Q -> Forall (fun x => 0 < x /\ x < 1)%Q p ->
  Forall2 Qeq
    (List.map (fun x => x / n)%Q
       (zip_elems Qplus
          (zip_elems Qdiv (List.map Qopp t) p)
          (zip_elems Qdiv (List.map (fun x => 1 - x)%Q t)
                     (List.map (fun x => 1 - x)%Q p))))
    (zip_elems (closed_gradient n) p t).
Proof.
  intros N F. revert t. induction F as [|x p [X0 X1] _ IH]; intros [|z t];
    cbn [List.map zip_elems]; try constructor.
  - exact (gradient_entry n x z X0 X1 N).
  - apply IH.
Qed.

(** X15. The gradient of the binary cross entropy.  For predictions and
    labels of one shape with at least one entry, the predictions strictly
    between 0 and 1, [backward] on the cache that [forward] filled returns a
    gradient of the shape of the predictions whose entries are
    [(p - t) / (p * (1 - p) * size)] for the prediction [p] and the label
    [t]. *)
Theorem binary_cross_entropy_gradient
        (lg : Q -> Q) (fields : gmap string Tensor) (y_pred y_true : Tensor) :
  t_shape y_pred = t_shape y_true ->
  size y_pred <> 0%nat ->
  entries_inside y_pred ->
  exists l c g,
    FBinaryCrossEntropy_forward lg (FunctionCache fields) y_pred y_true
    = Ok (l, c) /\
    FBinaryCrossEntropy_backward c = Ok g /\
    t_shape g = t_shape y_pred /\
    Forall2 Qeq (elems (data g))
            (zip_elems (closed_gradient (float_of_nat (size y_pred)))
                       (elems (data y_pred)) (elems (data y_true))).
Proof.
  intros S N E.
  unfold FBinaryCrossEntropy_forward, t_mul, t_add, t_zip, log, clip,
    one_minus, t_map.
  cbn [t_shape data of_array shape elems dtype device].
  fold (t_shape y_pred). fold (t_shape y_true).
  rewrite !(bool_decide_eq_true_2 _ (eq_sym S)). cbn [bind].
  cbn [t_shape data of_array shape elems dtype device].
  rewrite !(bool_decide_eq_true_2 _ (eq_refl (t_shape y_true))).
  cbn [bind].
  eexists _, _, _. split; [reflexivity|].
  unfold FBinaryCrossEntropy_backward, cache_set, cache_get.
  rewrite lookup_insert_ne by discriminate. rewrite !lookup_insert_eq.
  cbn [bind].
  unfold t_div, t_add, t_zip, t_neg, one_minus, t_map, t_div_scalar.
  cbn [t_shape data of_array shape elems dtype device].
  fold (t_shape y_pred). fold (t_shape y_true).
  rewrite !(bool_decide_eq_true_2 _ (eq_sym S)). cbn [bind].
  cbn [t_shape data of_array shape elems dtype device].
  rewrite !(bool_decide_eq_true_2 _ (eq_refl (t_shape y_true))).
  cbn [bind]. split; [reflexivity|].
  unfold t_map. cbn [t_shape data of_array shape elems dtype device].
  split; [symmetry; exact S|].
  apply gradient_entries; [apply float_of_nat_pos; exact N|exact E].
Qed.

Lemma binary_cross_entropy_gradient_witness :
  exists l c g,
    FBinaryCrossEntropy_forward sample_log (FunctionCache ∅) half_half one_zero
    = Ok (l, c) /\
    FBinaryCrossEntropy_backward c = Ok g /\
    Forall2 Qeq (elems (data g)) [(- (1))%Q; (2 # 3)%Q].
Proof.
  destruct (binary_cross_entropy_gradient sample_log ∅ half_half one_zero)
    as (l & c & g & F & B & _ & G).
  - reflexivity.
  - discriminate.
  - repeat constructor.
  - exists l, c, g. split; [exact F|]. split; [exact B|].
    inversion G as [|? ? ? ? G1 G']; subst.
    inversion G' as [|? ? ? ? G2 G'']; subst.
    inversion G''; subst.
    constructor; [rewrite G1; reflexivity|].
    constructor; [rewrite G2; reflexivity|constructor].
Defined.

(** ** Early stopping *)

Lemma Qltb_lt (a b : Q) : Qltb a b = true <-> (a < b)%Q.
Proof.
  unfold Qltb. rewrite negb_true_iff. split.
  - intros H. apply Qnot_le_lt. intros L.
    apply Qle_bool_iff in L. congruence.
  - intros H. destruct (Qle_bool b a) eqn:E; [|reflexivity].
    apply Qle_bool_iff in E. exfalso. exact (Qlt_not_le _ _ H E).
Qed.

Lemma Qltb_ge (a b : Q) : Qltb a b = false <-> (b <= a)%Q.
Proof.
  unfold Qltb. rewrite negb_false_iff. apply Qle_bool_iff.
Qed.

Lemma below_not_above (q : Q) (best : Float) :
  below q best = true -> above q best = false.
Proof.
  destruct best as [b|]; [|reflexivity]. cbn.
  rewrite Qltb_lt, Qltb_ge. apply Qlt_le_weak.
Qed.

Lemma from_end_last (hist : list Q) (last : Q) :
  from_end hist 1 = Ok last -> exists rest, rev hist = last :: rest.
Proof.
  unfold from_end. cbn. destruct (rev hist) as [|q rest]; [discriminate|].
  cbn. intros H. injection H as <-. exists rest. reflexivity.
Qed.

Lemma restore_frame (ps best : list Param) :
  List.map param_frame (snd (restore ps best)) = List.map param_frame ps.
Proof.
  revert best. induction ps as [|p ps IH]; intros [|q best]; try reflexivity.
  cbn [restore]. specialize (IH best).
  destruct (restore ps best) as [r ps']. cbn [snd] in *.
  cbn [List.map]. rewrite IH. reflexivity.
Qed.

(** X16. When early stopping aborts.  [on_epoch] leaves the trainer as it
    was while the history is no longer than [patience], and, for a patience
    of 1 or more, in every epoch whose loss is below the best so far, whose
    loss it then records.  It sets the abort flag only when the history is
    longer than [patience] and each of the last [patience] losses is above
    the best loss of the epochs before; with a patience of 0 or less it sets
    it in every epoch in which it returns. *)
Theorem early_stopping_abort_conditions
        (hist : list Q) (cb cb' : EarlyStopping) (tr tr' : Trainer)
        (r : result unit) :
  on_epoch_with hist cb tr = (r, cb', tr') ->
  (Z.of_nat (List.length hist) <= patience cb -> tr' = tr) /\
  (forall last,
      from_end hist 1 = Ok last -> 1 <= patience cb ->
      below last (best_loss cb) = true ->
      tr' = tr /\ r = Ok tt /\ best_loss cb' = Finite last) /\
  (abort tr = false -> abort tr' = true ->
   patience cb < Z.of_nat (List.length hist) /\
   Forall (fun q => above q (best_loss cb) = true)
          (firstn (Z.to_nat (patience cb)) (rev hist))) /\
  (patience cb <= 0 -> r = Ok tt -> abort tr' = true).
Proof.
  unfold on_epoch_with.
  destruct (from_end hist 1) as [last|e] eqn:F.
  2:{ intros H. injection H as <- <- <-.
      split; [reflexivity|]. split; [discriminate|].
      split; [congruence|discriminate]. }
  destruct (from_end_last _ _ F) as (rest & R).
  set (cb1 := if below last (best_loss cb) then _ else cb).
  assert (P1 : patience cb1 = patience cb)
    by (subst cb1; destruct (below last (best_loss cb)); reflexivity).
  assert (U1 : use_best_params cb1 = use_best_params cb)
    by (subst cb1; destruct (below last (best_loss cb)); reflexivity).
  rewrite P1, U1.
  assert (Len : (1 <= List.length hist)%nat).
  { rewrite <- List.length_rev, R. cbn. lia. }
  destruct (Z.leb_spec (Z.of_nat (List.length hist)) (patience cb)) as [Le|Gt].
  { intros H. injection H as <- <- <-.
    split; [reflexivity|]. split.
    - intros l E _ Bl. injection E as <-. split; [reflexivity|].
      split; [reflexivity|]. subst cb1. rewrite Bl. reflexivity.
    - split; [congruence|]. intros; lia. }
  destruct (no_improvement hist (best_loss cb) (patience cb)) eqn:NI.
  - assert (FA : Forall (fun q => above q (best_loss cb) = true)
                        (firstn (Z.to_nat (patience cb)) (rev hist))).
    { unfold no_improvement in NI. apply List.Forall_forall.
      exact (proj1 (List.forallb_forall _ _) NI). }
    assert (NB : 1 <= patience cb -> below last (best_loss cb) = false).
    { intros P. destruct (below last (best_loss cb)) eqn:Bl; [|reflexivity].
      apply below_not_above in Bl. rewrite R in FA.
      destruct (Z.to_nat (patience cb)) as [|k] eqn:K; [lia|].
      cbn in FA. inversion FA; congruence. }
    intros H.
    assert (A : r = Ok tt -> abort tr' = true).
    { destruct (use_best_params cb).
      - destruct (best_params cb1); [|injection H as <- _ _; discriminate].
        destruct (restore _ _) as [[|] ps]; injection H as <- _ <-;
          [reflexivity|discriminate].
      - injection H as _ _ <-. reflexivity. }
    split; [lia|]. split.
    + intros l E P Bl. injection E as <-. rewrite (NB P) in Bl. discriminate.
    + split; [intros _ _; split; assumption|intros _; exact A].
  - intros H. injection H as <- <- <-.
    split; [reflexivity|]. split.
    + intros l E _ Bl. injection E as <-. split; [reflexivity|].
      split; [reflexivity|]. subst cb1. rewrite Bl. reflexivity.
    + split; [congruence|].
      intros P _. exfalso. unfold no_improvement in NI.
      replace (Z.to_nat (patience cb)) with 0%nat in NI by lia.
      discriminate NI.
Qed.

Lemma early_stopping_abort_conditions_witness :
  snd (on_epoch_with [1%Q; (9 # 10)%Q]
         (mkEarlyStopping 3 true "loss" (Finite 1) (Some [])) new_trainer)
  = new_trainer /\
  best_loss (snd (fst (on_epoch_with [1%Q; (9 # 10)%Q]
                         (mkEarlyStopping 3 true "loss" (Finite 1) (Some []))
                         new_trainer)))
  = Finite (9 # 10).
Proof.
  destruct (early_stopping_abort_conditions
              [1%Q; (9 # 10)%Q]
              (mkEarlyStopping 3 true "loss" (Finite 1) (Some []))
              (snd (fst (on_epoch_with [1%Q; (9 # 10)%Q]
                           (mkEarlyStopping 3 true "loss" (Finite 1) (Some []))
                           new_trainer)))
              new_trainer
              (snd (on_epoch_with [1%Q; (9 # 10)%Q]
                      (mkEarlyStopping 3 true "loss" (Finite 1) (Some []))
                      new_trainer))
              (fst (fst (on_epoch_with [1%Q; (9 # 10)%Q]
                           (mkEarlyStopping 3 true "loss" (Finite 1) (Some []))
                           new_trainer))))
    as (_ & H & _).
  - destruct (on_epoch_with _ _ _) as [[? ?] ?]. reflexivity.
  - destruct (H (9 # 10)%Q eq_refl ltac:(cbn; lia) eq_refl) as (T & _ & B).
    split; [exact T|exact B].
Defined.

(** X17. What early stopping leaves alone.  [on_epoch] never changes the
    state of the trainer, the patience, the target or the
    [use_best_params] flag of the callback, and of the parameters of the
    model it changes at most the data: their number, labels, flags and
    gradients stay.  It never clears the abort flag.  With
    [use_best_params] off it changes no parameter and keeps no copy. *)
Theorem early_stopping_frame
        (cb cb' : EarlyStopping) (tr tr' : Trainer) (r : result unit) :
  on_epoch cb tr = (r, cb', tr') ->
  state tr' = state tr /\
  patience cb' = patience cb /\ target cb' = target cb /\
  use_best_params cb' = use_best_params cb /\
  List.map param_frame (model_parameters tr')
  = List.map param_frame (model_parameters tr) /\
  (abort tr = true -> abort tr' = true) /\
  (use_best_params cb = false ->
   model_parameters tr' = model_parameters tr /\
   best_params cb' = best_params cb).
Proof.
  unfold on_epoch.
  destruct (read_history cb tr) as [[q|hist]|e];
    try (intros H; injection H as <- <- <-; repeat split; auto).
  unfold on_epoch_with.
  destruct (from_end hist 1) as [last|e];
    [|intros H; injection H as <- <- <-; repeat split; auto].
  set (cb1 := if below last (best_loss cb) then _ else cb).
  assert (C1 : patience cb1 = patience cb /\ target cb1 = target cb /\
               use_best_params cb1 = use_best_params cb /\
               (use_best_params cb = false -> best_params cb1 = best_params cb)).
  { subst cb1. destruct (below last (best_loss cb)); cbn; [|auto].
    repeat split. intros ->. reflexivity. }
  destruct C1 as (P1 & T1 & U1 & B1). rewrite P1, U1.
  destruct (_ <=? _).
  { intros H; injection H as <- <- <-. repeat split; auto. }
  destruct (no_improvement _ _ _).
  2:{ intros H; injection H as <- <- <-. repeat split; auto. }
  destruct (use_best_params cb) eqn:U.
  - destruct (best_params cb1) as [saved|].
    2:{ intros H; injection H as <- <- <-. repeat split; auto; discriminate. }
    pose proof (restore_frame (model_parameters tr) saved) as RF.
    destruct (restore (model_parameters tr) saved) as [[|] ps];
      cbn [snd] in RF; intros H; injection H as <- <- <-;
      cbn [state model_parameters abort]; repeat split; auto; discriminate.
  - intros H; injection H as <- <- <-. cbn [state model_parameters abort].
    repeat split; auto.
Qed.

Lemma early_stopping_frame_witness :
  state (snd (on_epoch (EarlyStopping__init__ 0 false "loss")
                (after_training (mkEpoch 1 (one_parameter 1)) new_trainer)))
  = state (after_training (mkEpoch 1 (one_parameter 1)) new_trainer) /\
  model_parameters
    (snd (on_epoch (EarlyStopping__init__ 0 false "loss")
            (after_training (mkEpoch 1 (one_parameter 1)) new_trainer)))
  = one_parameter 1.
Proof.
  destruct (early_stopping_frame
              (EarlyStopping__init__ 0 false "loss")
              (snd (fst (on_epoch (EarlyStopping__init__ 0 false "loss")
                           (after_training (mkEpoch 1 (one_parameter 1))
                                           new_trainer))))
              (after_training (mkEpoch 1 (one_parameter 1)) new_trainer)
              (snd (on_epoch (EarlyStopping__init__ 0 false "loss")
                      (after_training (mkEpoch 1 (one_parameter 1))
                                      new_trainer)))
              (fst (fst (on_epoch (EarlyStopping__init__ 0 false "loss")
                           (after_training (mkEpoch 1 (one_parameter 1))
                                           new_trainer)))))
    as (S & _ & _ & _ & _ & _ & U).
  - destruct (on_epoch _ _) as [[? ?] ?]. reflexivity.
  - split; [exact S|]. exact (proj1 (U eq_refl)).
Defined.

(** *** The best epoch of a run *)

Lemma running_best_snoc (seen : list Epoch) (e : Epoch) :
  running_best (seen ++ [e]) = better (running_best seen) e.
Proof. unfold running_best. rewrite List.fold_left_app. reflexivity. Qed.

Lemma running_best_spec (seen : list Epoch) :
  match running_best seen with
  | None => seen = []
  | Some b =>
      List.In b seen /\
      forall e, List.In e seen -> (e_loss b <= e_loss e)%Q
  end.
Proof.
  induction seen as [|e seen IH] using List.rev_ind; [reflexivity|].
  rewrite running_best_snoc. destruct (running_best seen) as [b|].
  - destruct IH as [I M]. cbn [better].
    destruct (Qltb (e_loss e) (e_loss b)) eqn:L.
    + apply Qltb_lt in L. split; [apply List.in_or_app; right; left; reflexivity|].
      intros e' H. apply List.in_app_or in H. destruct H as [H|[<-|[]]].
      * apply Qle_trans with (e_loss b); [apply Qlt_le_weak; exact L|].
        exact (M e' H).
      * apply Qle_refl.
    + apply Qltb_ge in L. split; [apply List.in_or_app; left; exact I|].
      intros e' H. apply List.in_app_or in H. destruct H as [H|[<-|[]]].
      * exact (M e' H).
      * exact L.
  - subst seen. cbn. split; [left; reflexivity|].
    intros e' [<-|[]]. apply Qle_refl.
Qed.

Lemma below_better (u : bool) (p : Z) (seen : list Epoch)
      (cb : EarlyStopping) (e : Epoch) :
  knows_best u p seen cb ->
  below (e_loss e) (best_loss cb) = true ->
  better (running_best seen) e = Some e.
Proof.
  intros (_ & _ & _ & K). destruct (running_best seen) as [b|];
    [|reflexivity].
  destruct K as [-> _]. cbn. intros ->. reflexivity.
Qed.

Lemma not_below_better (u : bool) (p : Z) (seen : list Epoch)
      (cb : EarlyStopping) (e : Epoch) :
  knows_best u p seen cb ->
  below (e_loss e) (best_loss cb) = false ->
  exists b, running_best seen = Some b /\
            better (running_best seen) e = Some b.
Proof.
  intros (_ & _ & _ & K). destruct (running_best seen) as [b|].
  - destruct K as [-> _]. cbn. intros ->. exists b. split; reflexivity.
  - rewrite K. discriminate.
Qed.

(** One epoch of a run: training, then the callback. *)
Lemma on_epoch_step (u : bool) (p : Z) (n : nat) (seen : list Epoch)
      (cb : EarlyStopping) (tr : Trainer) (e : Epoch) :
  knows_best u p seen cb ->
  history_of tr = List.map e_loss seen ->
  abort tr = false ->
  Forall (fun e' => List.length (e_params e') = n) (seen ++ [e]) ->
  entry_after u p (seen ++ [e]) e (on_epoch cb (after_training e tr)).
Proof.
  intros K H A F.
  assert (K' := K). destruct K' as (T & U & P & KB).
  destruct (on_epoch_after_training cb tr e T) as [-> H1].
  rewrite H in H1.
  assert (H1' : history_of (after_training e tr)
                = List.map e_loss (seen ++ [e])).
  { rewrite H1, List.map_app. reflexivity. }
  rewrite H. unfold on_epoch_with.
  assert (FE : from_end (List.map e_loss seen ++ [e_loss e]) 1
               = Ok (e_loss e)).
  { unfold from_end. rewrite List.rev_app_distr. reflexivity. }
  rewrite FE.
  set (cb1 := if below (e_loss e) (best_loss cb) then _ else cb).
  assert (K1 : knows_best u p (seen ++ [e]) cb1).
  { unfold knows_best. rewrite running_best_snoc. subst cb1.
    destruct (below (e_loss e) (best_loss cb)) eqn:Bl.
    - rewrite (below_better u p seen cb e K Bl). cbn.
      split; [exact T|]. split; [exact U|]. split; [exact P|].
      split; [reflexivity|]. intros ->. rewrite U. reflexivity.
    - destruct (not_below_better u p seen cb e K Bl) as (b & Rb & ->).
      rewrite Rb in KB. split; [exact T|]. split; [exact U|].
      split; [exact P|exact KB]. }
  assert (K1' := K1). destruct K1' as (_ & U1 & P1 & KB1).
  rewrite P1, U1.
  assert (MP : model_parameters (after_training e tr) = e_params e)
    by reflexivity.
  assert (AT : abort (after_training e tr) = false) by exact A.
  destruct (_ <=? _).
  { split; [reflexivity|]. split; [exact K1|]. split; [exact H1'|].
    cbn [fst snd]. split; [intros _; exact MP|]. congruence. }
  destruct (no_improvement _ _ _).
  2:{ split; [reflexivity|]. split; [exact K1|]. split; [exact H1'|].
      cbn [fst snd]. split; [intros _; exact MP|]. congruence. }
  destruct u.
  - pose proof (running_best_spec (seen ++ [e])) as RS.
    destruct (running_best (seen ++ [e])) as [b|] eqn:RB.
    2:{ destruct seen; discriminate RS. }
    destruct KB1 as [_ BP]. rewrite (BP eq_refl).
    destruct RS as [Ib _].
    rewrite List.Forall_forall in F.
    assert (L : List.length (model_parameters (after_training e tr))
                = List.length (e_params b)).
    { rewrite MP, (F b Ib). apply F.
      apply List.in_or_app. right. left. reflexivity. }
    destruct (restore_same_length _ _ L) as (ps' & -> & Ar).
    split; [reflexivity|]. split; [exact K1|]. split; [exact H1'|].
    cbn [fst snd abort model_parameters].
    split; [intros [?|?]; discriminate|].
    intros _ _. exists b. split; [exact RB|exact Ar].
  - split; [reflexivity|]. split; [exact K1|]. split; [exact H1'|].
    cbn [fst snd abort model_parameters].
    split; [intros _; exact MP|discriminate].
Qed.

Lemma drive_entries (u : bool) (p : Z) (n : nat) (rest : list Epoch) :
  forall (seen : list Epoch) (cb : EarlyStopping) (tr : Trainer) (k : nat)
         (s : result unit * EarlyStopping * Trainer) (e : Epoch),
    knows_best u p seen cb ->
    history_of tr = List.map e_loss seen ->
    abort tr = false ->
    Forall (fun e' => List.length (e_params e') = n) (seen ++ rest) ->
    nth_error (drive cb tr rest) k = Some s ->
    nth_error rest k = Some e ->
    entry_after u p (seen ++ firstn (S k) rest) e s.
Proof.
  induction rest as [|e0 rest IH]; intros seen cb tr k s e K H A F N E.
  - destruct k; discriminate E.
  - assert (F0 : Forall (fun e' => List.length (e_params e') = n)
                        (seen ++ [e0])).
    { rewrite List.Forall_forall in *. intros x I. apply F.
      apply List.in_app_or in I. apply List.in_or_app.
      destruct I as [I|[<-|[]]]; [left; exact I|right; left; reflexivity]. }
    pose proof (on_epoch_step u p n seen cb tr e0 K H A F0) as S.
    cbn [drive] in N.
    destruct (on_epoch cb (after_training e0 tr)) as [[r cb1] tr1] eqn:O.
    destruct k as [|k].
    + cbn in N, E. injection N as <-. injection E as <-.
      cbn [firstn]. exact S.
    + cbn [nth_error] in N, E.
      destruct S as (R & K1 & H1 & _). cbn [fst snd] in R, K1, H1.
      rewrite R in N. cbn [is_ok andb] in N.
      destruct (abort tr1) eqn:A1; cbn [negb] in N;
        [destruct k; discriminate N|].
      replace (seen ++ firstn (S (S k)) (e0 :: rest))
        with ((seen ++ [e0]) ++ firstn (S k) rest)
        by (rewrite <- List.app_assoc; reflexivity).
      apply (IH (seen ++ [e0]) cb1 tr1 k s e K1 H1 A1); [|exact N|exact E].
      rewrite <- List.app_assoc. exact F.
Qed.

(** X18. Early stopping along a training run.  The callback is called once
    per epoch, on a trainer without history, over epochs whose models have
    the same number of parameters.  Then it never raises, and after every
    epoch its best loss is the least loss of the epochs so far, that of the
    first epoch to reach it, and with [use_best_params] it holds the
    parameters of that epoch.  When it aborts, the arrays of the parameters
    of the model are those of that best epoch; when it does not abort, or
    [use_best_params] is off, the parameters are those the epoch left. *)
Theorem early_stopping_tracks_best
        (p : Z) (u : bool) (n k : nat) (tr0 : Trainer) (epochs : list Epoch)
        (r : result unit) (cb : EarlyStopping) (tr : Trainer) (e : Epoch) :
  abort tr0 = false -> history_of tr0 = [] ->
  Forall (fun e' => List.length (e_params e') = n) epochs ->
  nth_error (drive (EarlyStopping__init__ p u "loss") tr0 epochs) k
  = Some (r, cb, tr) ->
  nth_error epochs k = Some e ->
  r = Ok tt /\
  (exists b,
      running_best (firstn (S k) epochs) = Some b /\
      List.In b (firstn (S k) epochs) /\
      (forall e', List.In e' (firstn (S k) epochs) ->
                  (e_loss b <= e_loss e')%Q) /\
      best_loss cb = Finite (e_loss b) /\
      (u = true -> best_params cb = Some (e_params b)) /\
      (abort tr = true -> u = true ->
       arrays_of (model_parameters tr) = arrays_of (e_params b))) /\
  (abort tr = false \/ u = false -> model_parameters tr = e_params e) /\
  history_of tr = List.map e_loss (firstn (S k) epochs).
Proof.
  intros A H F N E.
  assert (K0 : knows_best u p [] (EarlyStopping__init__ p u "loss")).
  { repeat split. }
  pose proof (drive_entries u p n epochs [] _ tr0 k _ e K0 H A F N E) as S.
  cbn [app] in S. destruct S as (R & K & Hs & M & B).
  cbn [fst snd] in R, K, Hs, M, B.
  split; [exact R|]. split; [|split; [exact M|exact Hs]].
  destruct K as (_ & _ & _ & KB).
  pose proof (running_best_spec (firstn (S k) epochs)) as RS.
  destruct (running_best (firstn (S k) epochs)) as [b|] eqn:RB.
  - destruct RS as [Ib Mb]. destruct KB as [BL BP].
    exists b. split; [reflexivity|]. split; [exact Ib|].
    split; [exact Mb|]. split; [exact BL|]. split; [exact BP|].
    intros Ab Ut. destruct (B Ab Ut) as (b' & Eb & Ar).
    injection Eb as <-. exact Ar.
  - destruct epochs; [destruct k; discriminate E|discriminate RS].
Qed.

Lemma early_stopping_tracks_best_witness :
  exists r cb tr,
    nth_error (drive (EarlyStopping__init__ 3 true "loss") new_trainer
                     numbered_epochs) 4 = Some (r, cb, tr) /\
    r = Ok tt /\ best_loss cb = Finite (9 # 10) /\
    arrays_of (model_parameters tr) = arrays_of (one_parameter 2).
Proof.
  destruct (nth_error (drive (EarlyStopping__init__ 3 true "loss") new_trainer
                             numbered_epochs) 4)
    as [[[r cb] tr]|] eqn:N; [|vm_compute in N; discriminate N].
  assert (Ab : abort tr = true).
  { vm_compute in N. injection N as _ _ <-. reflexivity. }
  destruct (early_stopping_tracks_best 3 true 1 4 new_trainer numbered_epochs
              r cb tr (mkEpoch (99 # 100) (one_parameter 5))
              eq_refl eq_refl)
    as (R & (b & Rb & _ & _ & Bl & _ & Ar) & _).
  - repeat constructor.
  - exact N.
  - reflexivity.
  - exists r, cb, tr. split; [reflexivity|]. split; [exact R|].
    assert (Eb : b = mkEpoch (9 # 10) (one_parameter 2)).
    { vm_compute in Rb. injection Rb as <-. reflexivity. }
    subst b. split; [exact Bl|exact (Ar Ab eq_refl)].
Defined.

(** ** The data loader *)

(** One iteration of a loader with a batch size other than 0. *)
Lemma call_cuts (A B : Type) (draw : nat -> list nat)
      (dl : DataLoaders.DataLoader A B) :
  DataLoaders.batch_size dl <> 0 ->
  exists batches,
    DataLoaders.__call__ draw dl = (Ok batches, shuffled draw dl) /\
    DataLoaders.x_batches batches
    = cuts (DataLoaders.x (shuffled draw dl))
           (Z.of_nat (List.length (DataLoaders.x dl)))
           (Z.max 1 (Z.of_nat (List.length (DataLoaders.x dl))
                     / DataLoaders.batch_size dl))
           (Z.min (DataLoaders.batch_size dl)
                  (Z.of_nat (List.length (DataLoaders.x dl))))
           (negb (DataLoaders.drop_remaining dl)) /\
    DataLoaders.y_batches batches
    = match DataLoaders.y (shuffled draw dl) with
      | None => repeat None (List.length batches)
      | Some l =>
          List.map Some
            (cuts l (Z.of_nat (List.length (DataLoaders.x dl)))
                  (Z.max 1 (Z.of_nat (List.length (DataLoaders.x dl))
                            / DataLoaders.batch_size dl))
                  (Z.min (DataLoaders.batch_size dl)
                         (Z.of_nat (List.length (DataLoaders.x dl))))
                  (negb (DataLoaders.drop_remaining dl)))
      end /\
    Forall (fun p => DataLoaders.on_device A (fst p)
                     = DataLoaders.device A B dl) batches.
Proof.
  intros N. unfold DataLoaders.__call__, DataLoaders.__len__.
  destruct (Z.eqb_spec (DataLoaders.batch_size dl) 0) as [?|_];
    [contradiction|].
  fold (shuffled draw dl).
  set (n := Z.of_nat (List.length (DataLoaders.x dl))).
  set (k := Z.max 1 (n / DataLoaders.batch_size dl)).
  set (b := Z.min (DataLoaders.batch_size dl) n).
  assert (D : DataLoaders.device A B (shuffled draw dl)
              = DataLoaders.device A B dl /\
              DataLoaders.drop_remaining (shuffled draw dl)
              = DataLoaders.drop_remaining dl).
  { unfold shuffled. destruct (DataLoaders.shuffle dl); split; reflexivity. }
  destruct D as [-> ->].
  eexists. split; [reflexivity|].
  unfold DataLoaders.x_batches, DataLoaders.y_batches, cuts.
  destruct (DataLoaders.y (shuffled draw dl)) as [l|].
  - rewrite !List.map_app, !List.map_map.
    cbn [fst snd option_map DataLoaders.samples].
    split; [|split].
    + f_equal. destruct (_ && _); reflexivity.
    + f_equal. destruct (_ && _); reflexivity.
    + apply List.Forall_app. split.
      * apply List.Forall_forall. intros p I.
        apply List.in_map_iff in I. destruct I as (i & <- & _). reflexivity.
      * destruct (_ && _); repeat constructor.
  - rewrite !List.map_app, !List.map_map.
    cbn [fst snd option_map DataLoaders.samples].
    split; [|split].
    + f_equal. destruct (_ && _); reflexivity.
    + rewrite List.length_app, !List.length_map, List.repeat_app.
      f_equal.
      * induction (DataLoaders.range k); cbn; [reflexivity|f_equal; assumption].
      * destruct (_ && _); reflexivity.
    + apply List.Forall_app. split.
      * apply List.Forall_forall. intros p I.
        apply List.in_map_iff in I. destruct I as (i & <- & _). reflexivity.
      * destruct (_ && _); repeat constructor.
Qed.

(** A negative batch size: one slice that leaves out the last samples and
    one slice of those. *)
Lemma cuts_negative {T : Type} (l : list T) (bs : Z) :
  bs < 0 ->
  cuts l (Z.of_nat (List.length l))
       (Z.max 1 (Z.of_nat (List.length l) / bs))
       (Z.min bs (Z.of_nat (List.length l))) true
  = [firstn (Z.to_nat (Z.max (bs + Z.of_nat (List.length l)) 0)) l;
     skipn (Z.to_nat (Z.max (bs + Z.of_nat (List.length l)) 0)) l].
Proof.
  intros Hb. set (n := Z.of_nat (List.length l)).
  assert (Hq : n / bs <= 0).
  { pose proof (Z.mod_neg_bound n bs Hb) as M.
    pose proof (Z.div_mod n bs ltac:(lia)) as D.
    assert (0 <= n) by (subst n; lia). nia. }
  rewrite Z.max_l by lia. rewrite Z.min_l by (subst n; lia).
  unfold cuts. cbn [andb].
  change (DataLoaders.range 1) with [0]. cbn [List.map app].
  replace (0 * bs) with 0 by lia. replace ((0 + 1) * bs) with bs by lia.
  replace (1 * bs) with bs by lia.
  destruct (Z.ltb_spec bs n) as [_|?]; [|subst n; lia].
  cbn [app]. unfold DataLoaders.slice_from, DataLoaders.slice,
    DataLoaders.clamp. fold n.
  change (0 <? 0) with false.
  destruct (Z.ltb_spec bs 0) as [_|?]; [|lia].
  destruct (Z.ltb_spec n 0) as [?|_]; [subst n; lia|].
  rewrite (Z.min_l 0 n) by (subst n; lia). rewrite Z.min_id.
  set (c := Z.max (bs + n) 0).
  rewrite Z.sub_0_r. change (Z.to_nat 0) with 0%nat. cbn [skipn].
  f_equal. f_equal.
  apply List.firstn_all2. rewrite List.length_skipn. subst c n. lia.
Qed.

(** With a batch size of 1 or more, the slices put end to end are the
    tensor, if the slice of the samples left is kept. *)
Lemma cuts_concat_positive {T : Type} (l : list T) (bs : Z) :
  1 <= bs ->
  concat (cuts l (Z.of_nat (List.length l))
               (Z.max 1 (Z.of_nat (List.length l) / bs))
               (Z.min bs (Z.of_nat (List.length l))) true) = l.
Proof.
  intros Hbs.
  destruct (steps_and_size (List.length l) bs Hbs)
    as (Hk & Hb & Le & _ & _).
  set (n := List.length l) in *.
  set (k := Z.to_nat (Z.max 1 (Z.of_nat n / bs))) in *.
  set (b := Z.to_nat (Z.min bs (Z.of_nat n))) in *.
  rewrite <- Hk, <- Hb. unfold cuts, DataLoaders.range.
  rewrite Nat2Z.id, List.map_map, List.concat_app.
  rewrite (List.map_ext _ (DataLoaders.chunk b l))
    by (intros j; apply slice_is_chunk).
  rewrite concat_chunks. cbn [andb].
  replace (Z.of_nat k * Z.of_nat b) with (Z.of_nat (k * b)) by lia.
  destruct (Z.ltb_spec (Z.of_nat (k * b)) (Z.of_nat n)) as [Lt|Ge].
  - cbn [concat]. rewrite List.app_nil_r, slice_from_skipn.
    apply List.firstn_skipn.
  - cbn [concat]. rewrite List.app_nil_r. apply List.firstn_all2.
    fold n. lia.
Qed.

Lemma cuts_concat {T : Type} (l : list T) (bs : Z) :
  bs <> 0 ->
  concat (cuts l (Z.of_nat (List.length l))
               (Z.max 1 (Z.of_nat (List.length l) / bs))
               (Z.min bs (Z.of_nat (List.length l))) true) = l.
Proof.
  intros N. destruct (Z.lt_ge_cases bs 0) as [Neg|Pos].
  - rewrite (cuts_negative l bs Neg). cbn [concat].
    rewrite List.app_nil_r. apply List.firstn_skipn.
  - apply cuts_concat_positive. lia.
Qed.

Lemma cuts_concat_of {T : Type} (l : list T) (n bs : Z) :
  bs <> 0 -> n = Z.of_nat (List.length l) ->
  concat (cuts l n (Z.max 1 (n / bs)) (Z.min bs n) true) = l.
Proof. intros N ->. apply cuts_concat. exact N. Qed.

Lemma range_positive (k : Z) :
  1 <= k -> exists rest, DataLoaders.range k = 0 :: rest.
Proof.
  intros H. unfold DataLoaders.range.
  destruct (Z.to_nat k) as [|j] eqn:E; [lia|].
  cbn. eexists. reflexivity.
Qed.

Lemma joined_Some {B : Type} (cs : list (list B)) :
  joined (List.map Some cs) = concat cs.
Proof.
  unfold joined. f_equal.
  induction cs as [|c cs IH]; [reflexivity|]. cbn. rewrite IH. reflexivity.
Qed.

(** X19. No sample is lost.  For every batch size other than 0, a loader
    that does not shuffle and does not drop the remaining samples yields at
    least one batch, the batches of [x] put end to end are [x], the targets
    are cut at the same indices, every batch is on the device of the loader
    and the loader is left as it was.  A negative batch size gives two
    batches: all but the last [-batch_size] samples, then these; with a
    batch size of 1 or more, an empty [x] gives one empty batch. *)
Theorem dataloader_keeps_every_sample
        (A B : Type) (draw : nat -> list nat)
        (xs : list A) (ys : option (list B)) (bs : Z) (dev : Device) :
  bs <> 0 ->
  exists batches,
    DataLoaders.__call__ draw
      (DataLoaders.mkDataLoader xs ys bs dev false false)
    = (Ok batches, DataLoaders.mkDataLoader xs ys bs dev false false) /\
    batches <> [] /\
    concat (DataLoaders.x_batches batches) = xs /\
    (forall l, ys = Some l -> List.length l = List.length xs ->
               joined (DataLoaders.y_batches batches) = l) /\
    Forall (fun p => DataLoaders.on_device A (fst p) = dev) batches /\
    (bs < 0 ->
     DataLoaders.x_batches batches
     = [firstn (Z.to_nat (Z.max (bs + Z.of_nat (List.length xs)) 0)) xs;
        skipn (Z.to_nat (Z.max (bs + Z.of_nat (List.length xs)) 0)) xs]) /\
    (xs = [] -> 1 <= bs -> DataLoaders.x_batches batches = [[]]).
Proof.
  intros N.
  destruct (call_cuts A B draw
              (DataLoaders.mkDataLoader xs ys bs dev false false) N)
    as (batches & C & X & Y & D).
  unfold shuffled in C, X, Y.
  cbn [DataLoaders.shuffle DataLoaders.x DataLoaders.y DataLoaders.batch_size
       DataLoaders.drop_remaining DataLoaders.device negb] in C, X, Y, D.
  exists batches. split; [exact C|]. split; [|split; [|split; [|split]]].
  - intros E. subst batches. unfold cuts in X.
    destruct (range_positive (Z.max 1 (Z.of_nat (List.length xs) / bs)))
      as (rest & R); [lia|].
    rewrite R in X. discriminate X.
  - rewrite X. apply cuts_concat. exact N.
  - intros l -> L. rewrite Y, joined_Some, <- L. apply cuts_concat. exact N.
  - exact D.
  - split.
    + intros Neg. rewrite X. apply cuts_negative. exact Neg.
    + intros -> Pos. rewrite X. cbn [List.length].
      change (Z.of_nat 0) with 0. rewrite Z.div_0_l by exact N.
      rewrite Z.max_l, Z.min_r by lia. reflexivity.
Qed.

Lemma dataloader_keeps_every_sample_witness :
  exists batches,
    DataLoaders.__call__ no_draw
      (DataLoaders.mkDataLoader [1; 2; 3; 4; 5]%nat
         (Some [true; false; true; false; true]) (-2) CPU false false)
    = (Ok batches,
       DataLoaders.mkDataLoader [1; 2; 3; 4; 5]%nat
         (Some [true; false; true; false; true]) (-2) CPU false false) /\
    concat (DataLoaders.x_batches batches) = [1; 2; 3; 4; 5]%nat /\
    DataLoaders.x_batches batches = [[1; 2; 3]; [4; 5]]%nat.
Proof.
  destruct (dataloader_keeps_every_sample nat bool no_draw [1; 2; 3; 4; 5]%nat
              (Some [true; false; true; false; true]) (-2) CPU)
    as (batches & C & _ & X & _ & _ & G & _).
  - discriminate.
  - exists batches. split; [exact C|]. split; [exact X|].
    apply G. reflexivity.
Defined.

Lemma omap_cons_eq {S T : Type} (f : S -> option T) (x : S) (l : list S) :
  omap f (x :: l)
  = match f x with Some v => v :: omap f l | None => omap f l end.
Proof. reflexivity. Qed.

Lemma take_indices_all {T : Type} (pre l : list T) :
  DataLoaders.take_indices (pre ++ l) (seq (List.length pre) (List.length l))
  = l.
Proof.
  unfold DataLoaders.take_indices. revert pre.
  induction l as [|a l IH]; intros pre; [reflexivity|].
  cbn [List.length seq]. rewrite omap_cons_eq.
  rewrite List.nth_error_app2 by lia. rewrite Nat.sub_diag. cbn [nth_error].
  f_equal. specialize (IH (pre ++ [a])).
  rewrite <- List.app_assoc, List.length_app in IH. cbn in IH.
  rewrite Nat.add_1_r in IH. exact IH.
Qed.

Lemma take_indices_permutation {T : Type} (l : list T) (idx : list nat) :
  Permutation idx (seq 0 (List.length l)) ->
  Permutation (DataLoaders.take_indices l idx) l /\
  List.length (DataLoaders.take_indices l idx) = List.length l.
Proof.
  intros P.
  assert (Q : Permutation (DataLoaders.take_indices l idx) l).
  { pose proof (take_indices_all [] l) as E. cbn [app List.length] in E.
    rewrite <- E at 2. unfold DataLoaders.take_indices.
    exact (omap_Permutation (fun i => nth_error l i) _ _ P). }
  split; [exact Q|]. apply Permutation_length. exact Q.
Qed.

Lemma nth_error_combine {S T : Type} (a : list S) (b : list T) (i : nat) :
  nth_error (combine a b) i
  = match nth_error a i, nth_error b i with
    | Some u, Some v => Some (u, v)
    | _, _ => None
    end.
Proof.
  revert b i. induction a as [|u a IH]; intros [|v b] [|i]; cbn;
    try reflexivity.
  - destruct (nth_error a i); reflexivity.
  - apply IH.
Qed.

Lemma take_indices_combine {S T : Type} (a : list S) (b : list T)
      (idx : list nat) :
  List.length b = List.length a ->
  Forall (fun i => (i < List.length a)%nat) idx ->
  DataLoaders.take_indices (combine a b) idx
  = combine (DataLoaders.take_indices a idx) (DataLoaders.take_indices b idx).
Proof.
  intros L F. unfold DataLoaders.take_indices.
  induction F as [|i idx Hi _ IH]; [reflexivity|].
  rewrite !omap_cons_eq, nth_error_combine.
  destruct (nth_error a i) as [u|] eqn:Ea.
  2:{ apply List.nth_error_None in Ea. lia. }
  destruct (nth_error b i) as [v|] eqn:Eb.
  2:{ apply List.nth_error_None in Eb. lia. }
  cbn [combine]. rewrite IH. reflexivity.
Qed.

Lemma permutation_of_seq_bound (n : nat) (idx : list nat) :
  Permutation idx (seq 0 n) -> Forall (fun i => (i < n)%nat) idx.
Proof.
  intros P. apply List.Forall_forall. intros i I.
  apply (Permutation_in _ P) in I. apply List.in_seq in I. lia.
Qed.

(** X20. Shuffling.  When [shuffle] draws a permutation of the indices,
    one iteration of a shuffling loader with a batch size other than 0
    replaces the [x] of the loader by a permutation of it and its targets by
    the targets in the same order, so that sample and target stay together;
    the batches are cut from the shuffled tensors, and without
    [drop_remaining] the batches of [x] put end to end are the shuffled
    [x]. *)
Theorem dataloader_shuffle
        (A B : Type) (draw : nat -> list nat)
        (xs : list A) (ys : option (list B)) (bs : Z) (dev : Device)
        (drop : bool) :
  bs <> 0 ->
  Permutation (draw (List.length xs)) (seq 0 (List.length xs)) ->
  exists batches dl',
    DataLoaders.__call__ draw
      (DataLoaders.mkDataLoader xs ys bs dev drop true)
    = (Ok batches, dl') /\
    DataLoaders.x dl'
    = DataLoaders.take_indices xs (draw (List.length xs)) /\
    Permutation (DataLoaders.x dl') xs /\
    DataLoaders.batch_size dl' = bs /\ DataLoaders.shuffle dl' = true /\
    DataLoaders.drop_remaining dl' = drop /\
    (drop = false ->
     concat (DataLoaders.x_batches batches) = DataLoaders.x dl') /\
    (forall l, ys = Some l -> List.length l = List.length xs ->
       DataLoaders.y dl'
       = Some (DataLoaders.take_indices l (draw (List.length xs))) /\
       combine (DataLoaders.x dl')
               (DataLoaders.take_indices l (draw (List.length xs)))
       = DataLoaders.take_indices (combine xs l) (draw (List.length xs)) /\
       (drop = false ->
        joined (DataLoaders.y_batches batches)
        = DataLoaders.take_indices l (draw (List.length xs)))).
Proof.
  intros N P.
  destruct (call_cuts A B draw
              (DataLoaders.mkDataLoader xs ys bs dev drop true) N)
    as (batches & C & X & Y & D).
  unfold shuffled in C, X, Y.
  cbn [DataLoaders.shuffle DataLoaders.x DataLoaders.y DataLoaders.batch_size
       DataLoaders.drop_remaining DataLoaders.device] in C, X, Y, D.
  destruct (take_indices_permutation xs _ P) as [PX LX].
  eexists batches, _. split; [exact C|].
  cbn [DataLoaders.shuffle DataLoaders.x DataLoaders.y DataLoaders.batch_size
       DataLoaders.drop_remaining].
  split; [reflexivity|]. split; [exact PX|]. split; [reflexivity|].
  split; [reflexivity|]. split; [reflexivity|]. split.
  - intros ->. rewrite X. cbn [negb]. apply cuts_concat_of; [exact N|].
    rewrite LX. reflexivity.
  - intros l -> L. cbn [option_map] in *. split; [reflexivity|].
    assert (P' : Permutation (draw (List.length xs)) (seq 0 (List.length l)))
      by (rewrite L; exact P).
    destruct (take_indices_permutation l _ P') as [PY LY].
    split.
    + symmetry. apply take_indices_combine; [exact L|].
      apply permutation_of_seq_bound. exact P.
    + intros ->. rewrite Y, joined_Some. cbn [negb].
      apply cuts_concat_of; [exact N|]. rewrite LY, L. reflexivity.
Qed.

Lemma reversed_draw_permutation (n : nat) :
  Permutation (reversed_draw n) (seq 0 n).
Proof. unfold reversed_draw. symmetry. apply Permutation_rev. Qed.

Lemma dataloader_shuffle_witness :
  exists batches dl',
    DataLoaders.__call__ reversed_draw five_shuffled = (Ok batches, dl') /\
    DataLoaders.x dl' = [5; 4; 3; 2; 1]%nat /\
    concat (DataLoaders.x_batches batches) = [5; 4; 3; 2; 1]%nat.
Proof.
  destruct (dataloader_shuffle nat bool reversed_draw [1; 2; 3; 4; 5]%nat
              (Some [true; false; true; false; true]) 2 CPU false)
    as (batches & dl' & C & X & _ & _ & _ & _ & K & _).
  - discriminate.
  - apply reversed_draw_permutation.
  - exists batches, dl'. split; [exact C|]. split; [exact X|].
    rewrite (K eq_refl). exact X.
Defined.

Lemma collect_sample_wise {A B C : Type} (f : A -> C)
      (func : DataLoaders.Batch A -> result (list C))
      (batches : list (DataLoaders.Batch A * option (DataLoaders.Batch B))) :
  (forall b, func b = Ok (List.map f (DataLoaders.samples A b))) ->
  Batching.collect func batches
  = Ok (List.map (List.map f) (DataLoaders.x_batches batches)).
Proof.
  intros F. induction batches as [|[xb yb] rest IH]; [reflexivity|].
  cbn [Batching.collect]. rewrite F, IH. reflexivity.
Qed.

(** X21. The decorator [batched].  For a function that works sample by
    sample, a batch size other than 0 and [drop_remaining] off, the wrapped
    function returns what the function gives for every sample, in the order
    of the samples when the data is not shuffled and in the shuffled order
    when it is.  With the batch size 0 the wrapped function raises a
    ZeroDivisionError. *)
Theorem batched_sample_wise
        (A C : Type) (draw : nat -> list nat) (f : A -> C)
        (func : DataLoaders.Batch A -> result (list C))
        (bs : Z) (dev : Device) (shuffle_data : bool) (xs : list A) :
  (forall b, func b = Ok (List.map f (DataLoaders.samples A b))) ->
  (bs <> 0 ->
   (shuffle_data = true ->
    Permutation (draw (List.length xs)) (seq 0 (List.length xs))) ->
   Batching.batched draw func bs dev shuffle_data false xs
   = Ok (List.map f (if shuffle_data
                     then DataLoaders.take_indices xs (draw (List.length xs))
                     else xs))) /\
  (forall drop,
      exists msg, Batching.batched draw func 0 dev shuffle_data drop xs
                  = Raise (ZeroDivisionError msg)).
Proof.
  intros F. split.
  - intros N P. unfold Batching.batched.
    destruct (call_cuts A unit draw
                (DataLoaders.mkDataLoader xs None bs dev false shuffle_data) N)
      as (batches & Cl & X & _ & _).
    rewrite Cl. cbn [fst bind].
    rewrite (collect_sample_wise f func batches F). cbn [bind].
    unfold shuffled in X.
    cbn [DataLoaders.shuffle DataLoaders.x DataLoaders.batch_size
         DataLoaders.drop_remaining negb] in X.
    assert (NE : DataLoaders.x_batches batches <> []).
    { rewrite X. unfold cuts.
      destruct (range_positive (Z.max 1 (Z.of_nat (List.length xs) / bs)))
        as (rest & ->); [lia|]. discriminate. }
    unfold Batching.concatenate.
    destruct (List.map (List.map f) (DataLoaders.x_batches batches))
      as [|c cs] eqn:E.
    { destruct (DataLoaders.x_batches batches); [contradiction|discriminate]. }
    rewrite <- E, <- List.concat_map. f_equal. f_equal.
    rewrite X.
    destruct shuffle_data.
    + cbn [DataLoaders.x].
      destruct (take_indices_permutation xs _ (P eq_refl)) as [_ L].
      apply cuts_concat_of; [exact N|]. rewrite L. reflexivity.
    + apply cuts_concat. exact N.
  - intros drop. eexists. reflexivity.
Qed.

Lemma batched_sample_wise_witness :
  Batching.batched reversed_draw double_each 2 CPU true false
                   [1; 2; 3; 4; 5]%nat
  = Ok [10; 8; 6; 4; 2]%nat.
Proof.
  refine (proj1 (batched_sample_wise nat nat reversed_draw
                   (fun v => 2 * v)%nat double_each 2 CPU true
                   [1; 2; 3; 4; 5]%nat _) _ _).
  - intros b. reflexivity.
  - discriminate.
  - intros _. apply reversed_draw_permutation.
Defined.

(** ** Saving *)



(** ** Gradient accumulation in Batchnorm2d and Layernorm *)

Lemma Layernorm_args_cleared (s : Attrs) :
  Layernorm_args (for_parameters (p_set_grad None) s)
  = rmap (fun '(dt, w, b, eps) =>
            (dt, p_set_grad None w, p_set_grad None b, eps))
         (Layernorm_args s).
Proof.
  unfold Layernorm_args, get_dtype, get_parameter, get_float.
  rewrite !getattr_for_parameters.
  destruct (getattr "dtype" s) as [[]|]; try reflexivity.
  destruct (getattr "w" s) as [[]|]; try reflexivity.
  destruct (getattr "b" s) as [[]|]; try reflexivity.
  destruct (getattr "eps" s) as [[]|]; reflexivity.
Qed.

(** A pass whose call stored the closure over [gf] in the module [m0],
    and the same pass on a module [m1] whose slots differ from those of [m0]
    in gradients only and hold none for [w] and [b]. *)
Lemma closure_pass_accumulates (gf : GradFunc) (dy v : Tensor)
      (m0 m1 : NNModule) (r : option Tensor) (mb : NNModule) :
  _training m0 = true -> _training m1 = true ->
  same_but_grads (slots m0) (slots m1) ->
  grad_in "w" (slots m1) = None -> grad_in "b" (slots m1) = None ->
  backward dy (_set_y v (set_backward_field (Some (Batchnorm1d_backward gf))
                                            m0))
  = (Ok r, mb) ->
  exists md,
    backward dy (_set_y v (set_backward_field (Some (Batchnorm1d_backward gf))
                                              m1))
    = (Ok r, md) /\
    grad_of "w" mb = grad_sum (grad_in "w" (slots m0)) (grad_of "w" md) /\
    grad_of "b" mb = grad_sum (grad_in "b" (slots m0)) (grad_of "b" md).
Proof.
  intros T0 T1 E Nw Nb.
  set (mr := _set_y v (set_backward_field (Some (Batchnorm1d_backward gf)) m0)).
  set (mi := _set_y v (set_backward_field (Some (Batchnorm1d_backward gf)) m1)).
  assert (Fr : _training mr = true /\
               _backward mr = Some (Batchnorm1d_backward gf) /\
               slots mr = slots m0).
  { subst mr. destruct (_set_y_fields v (set_backward_field
                 (Some (Batchnorm1d_backward gf)) m0))
      as (-> & -> & -> & _). cbn. auto. }
  assert (Fi : _training mi = true /\
               _backward mi = Some (Batchnorm1d_backward gf) /\
               slots mi = slots m1).
  { subst mi. destruct (_set_y_fields v (set_backward_field
                 (Some (Batchnorm1d_backward gf)) m1))
      as (-> & -> & -> & _). cbn. auto. }
  destruct Fr as (Tr & Kr & Sr). destruct Fi as (Ti & Ki & Si).
  rewrite (backward_unfold mr dy _ Tr Kr), (backward_unfold mi dy _ Ti Ki).
  rewrite Sr, Si.
  destruct (Batchnorm1d_backward gf dy (slots m0)) as [r0 s2] eqn:K.
  cbn [fst snd]. intros H. injection H as -> <-.
  destruct (Batchnorm1d_backward_accumulates gf dy _ _ s2 r E Nw Nb K)
    as (t2 & -> & Gw & Gb).
  eexists. split; [reflexivity|].
  rewrite !grad_of_slots. cbn [slots set_slots fst snd].
  split; assumption.
Qed.

Lemma call_not_training_fails (dy v : Tensor) (m : NNModule)
      (r : option Tensor) (mb : NNModule) :
  _training m = false -> backward dy (_set_y v m) = (Ok r, mb) -> False.
Proof.
  intros T H.
  assert (F : is_ok (fst (backward dy (_set_y v m))) = false).
  { apply backward_not_training.
    destruct (_set_y_fields v m) as (_ & -> & _). exact T. }
  rewrite H in F. discriminate F.
Qed.

Lemma Batchnorm2d_accumulates bn :
  gives_gradient_when_training bn -> accumulates (Batchnorm2d_forward bn).
Proof.
  intros G ma mb x dy r.
  unfold pass_of, __call__, Batchnorm2d_forward, Batchnorm2d_backward.
  change (_check_dims x [4%nat] (reset ma)) with (_check_dims x [4%nat] ma).
  destruct (_check_dims x [4%nat] ma); [|discriminate].
  change (slots (reset ma)) with (for_parameters (p_set_grad None) (slots ma)).
  rewrite Batchnorm1d_args_cleared.
  destruct (Batchnorm1d_args (slots ma))
    as [[[[[[[dt rmean] rvar] w] b] m] eps]|]; [|discriminate].
  cbn [rmap bind].
  change (data (p_tensor (p_set_grad None w))) with (data (p_tensor w)).
  change (data (p_tensor (p_set_grad None b))) with (data (p_tensor b)).
  change (_training (reset ma)) with (_training ma).
  destruct (_training ma) eqn:T.
  - destruct (bn (as_type dt x) rmean rvar (data (p_tensor w))
                 (data (p_tensor b)) m eps true)
      as [[[v rmean'] rvar'] [gf|]] eqn:B.
    + fold (with_statistics rmean' rvar' (slots ma)).
      fold (with_statistics rmean' rvar'
              (for_parameters (p_set_grad None) (slots ma))).
      destruct (with_statistics_related rmean' rvar' (slots ma)) as [E N].
      destruct (N "w" (or_introl eq_refl)) as [Nw1 Nw2].
      destruct (N "b" (or_intror eq_refl)) as [Nb1 Nb2].
      intros H.
      destruct (closure_pass_accumulates gf dy v
                  (set_slots (with_statistics rmean' rvar' (slots ma)) ma)
                  (set_slots (with_statistics rmean' rvar'
                                (for_parameters (p_set_grad None) (slots ma)))
                             (reset ma))
                  r mb T T E Nw2 Nb2 H) as (md & Hd & Gw & Gb).
      exists md. split; [exact Hd|]. cbn [slots set_slots] in Gw, Gb.
      rewrite Nw1 in Gw. rewrite Nb1 in Gb. split; assumption.
    + exfalso. apply (G (as_type dt x) rmean rvar (data (p_tensor w))
                        (data (p_tensor b)) m eps). rewrite B. reflexivity.
  - destruct (bn _ _ _ _ _ _ _ _) as [[[v rmean'] rvar'] gfo].
    intros H. exfalso.
    apply (call_not_training_fails dy v _ r mb) in H; [exact H|].
    destruct gfo; exact T.
Qed.

Lemma Layernorm_accumulates ln :
  layernorm_gives_gradient ln -> accumulates (Layernorm_forward ln).
Proof.
  intros G ma mb x dy r.
  unfold pass_of, __call__, Layernorm_forward, Layernorm_backward.
  change (slots (reset ma)) with (for_parameters (p_set_grad None) (slots ma)).
  rewrite Layernorm_args_cleared.
  destruct (Layernorm_args (slots ma)) as [[[[dt w] b] eps]|]; [|discriminate].
  cbn [rmap bind].
  change (data (p_tensor (p_set_grad None w))) with (data (p_tensor w)).
  change (data (p_tensor (p_set_grad None b))) with (data (p_tensor b)).
  change (_training (reset ma)) with (_training ma).
  destruct (_training ma) eqn:T.
  - destruct (ln (as_type dt x) (data (p_tensor w)) (data (p_tensor b)) eps
                 true) as [v [gf|]] eqn:B.
    + intros H.
      destruct (closure_pass_accumulates gf dy v ma (reset ma) r mb
                  T T (same_but_grads_cleared (slots ma))
                  (grad_in_cleared "w" _) (grad_in_cleared "b" _) H)
        as (md & Hd & Gw & Gb).
      exists md. split; [exact Hd|]. split; assumption.
    + exfalso. apply (G (as_type dt x) (data (p_tensor w))
                        (data (p_tensor b)) eps). rewrite B. reflexivity.
  - destruct (ln _ _ _ _ _) as [v gfo].
    intros H. exfalso.
    apply (call_not_training_fails dy v _ r mb) in H; [exact H|].
    destruct gfo; exact T.
Qed.

(** X23. Gradient accumulation in Batchnorm2d and Layernorm.  With a
    functional that returns a gradient function in training mode, a pass
    (call and [backward]) from a state that holds gradients leaves in the
    GradientSlots of [w] and [b] the sums of the gradients held before and of
    those the same pass writes when it runs after [reset]. *)
Theorem normalization_gradients_accumulate
        (bn2 : Tensor -> Buffer -> Buffer -> Array -> Array -> Q -> Q ->
               bool -> Tensor * Buffer * Buffer * option GradFunc)
        (ln : Tensor -> Array -> Array -> Q -> bool ->
              Tensor * option GradFunc) :
  gives_gradient_when_training bn2 -> layernorm_gives_gradient ln ->
  accumulates (Batchnorm2d_forward bn2) /\
  accumulates (Layernorm_forward ln).
Proof.
  intros G2 GL. split.
  - exact (Batchnorm2d_accumulates bn2 G2).
  - exact (Layernorm_accumulates ln GL).
Qed.

Lemma sample_layernorm_gives_gradient :
  layernorm_gives_gradient sample_layernorm.
Proof. intros x w b eps. cbn. discriminate. Qed.

Lemma normalization_gradients_accumulate_witness :
  exists r ma mb md,
    pass_of (Layernorm_forward sample_layernorm) batch_3x2 batch_3x2 ma
    = (Ok r, mb) /\
    pass_of (Layernorm_forward sample_layernorm) batch_3x2 batch_3x2 (reset ma)
    = (Ok r, md) /\
    grad_of "w" ma <> None /\
    grad_of "w" mb = grad_sum (grad_of "w" ma) (grad_of "w" md).
Proof.
  destruct (proj2 (normalization_gradients_accumulate
                     sample_batchnorm1d sample_layernorm
                     sample_batchnorm1d_gives_gradient
                     sample_layernorm_gives_gradient)
                  (snd (pass_of (Layernorm_forward sample_layernorm)
                          batch_3x2 batch_3x2 sample_layernorm_module))
                  (snd (pass_of (Layernorm_forward sample_layernorm)
                          batch_3x2 batch_3x2
                          (snd (pass_of (Layernorm_forward sample_layernorm)
                                  batch_3x2 batch_3x2
                                  sample_layernorm_module))))
                  batch_3x2 batch_3x2 (Some batch_3x2) eq_refl)
    as (md & P & Gw & _).
  exists (Some batch_3x2),
    (snd (pass_of (Layernorm_forward sample_layernorm)
            batch_3x2 batch_3x2 sample_layernorm_module)),
    (snd (pass_of (Layernorm_forward sample_layernorm) batch_3x2 batch_3x2
            (snd (pass_of (Layernorm_forward sample_layernorm)
                    batch_3x2 batch_3x2 sample_layernorm_module)))),
    md.
  split; [reflexivity|]. split; [exact P|].
  split; [discriminate|exact Gw].
Defined.

Lemma cuts_length {T : Type} (l : list T) (n k b : Z) (keep : bool) :
  List.length (cuts l n k b keep)
  = (Z.to_nat k + (if keep && (k * b <? n)%Z then 1 else 0))%nat.
Proof.
  unfold cuts, DataLoaders.range.
  rewrite List.length_app, !List.length_map, List.length_seq.
  destruct (keep && (k * b <? n)); reflexivity.
Qed.

(** X24. [len(loader)] counts the full batches.  For a batch size of 1 or
    more, one iteration yields [len(loader)] batches and, when
    [drop_remaining] is off, [batch_size <= n] and [batch_size] does not
    divide the number [n] of samples, one more, which [len] does not
    count. *)
Theorem dataloader_len_counts_full_batches
        (A B : Type) (draw : nat -> list nat)
        (dl : DataLoaders.DataLoader A B) :
  1 <= DataLoaders.batch_size dl ->
  exists batches k,
    fst (DataLoaders.__call__ draw dl) = Ok batches /\
    DataLoaders.__len__ dl = Ok k /\
    1 <= k /\
    List.length batches
    = (Z.to_nat k
       + (if negb (DataLoaders.drop_remaining dl)
             && (DataLoaders.batch_size dl
                 <=? Z.of_nat (List.length (DataLoaders.x dl)))%Z
             && negb (Z.of_nat (List.length (DataLoaders.x dl))
                      mod DataLoaders.batch_size dl =? 0)%Z
          then 1 else 0))%nat.
Proof.
  intros Hbs.
  destruct (call_cuts A B draw dl ltac:(lia)) as (batches & C & X & _ & _).
  destruct (steps_and_size (List.length (DataLoaders.x dl))
              (DataLoaders.batch_size dl) Hbs) as (Hk & Hb & _ & Rem & _).
  exists batches,
    (Z.max 1 (Z.of_nat (List.length (DataLoaders.x dl))
              / DataLoaders.batch_size dl)).
  split; [rewrite C; reflexivity|]. split.
  { unfold DataLoaders.__len__.
    destruct (Z.eqb_spec (DataLoaders.batch_size dl) 0); [lia|reflexivity]. }
  split; [lia|].
  assert (L : List.length batches
              = List.length (DataLoaders.x_batches batches)).
  { unfold DataLoaders.x_batches. rewrite List.length_map. reflexivity. }
  rewrite L, X, cuts_length. f_equal.
  set (n := List.length (DataLoaders.x dl)) in *.
  set (bs := DataLoaders.batch_size dl) in *.
  rewrite <- Bool.andb_assoc, <- Rem.
  assert (Tr : (Z.max 1 (Z.of_nat n / bs) * Z.min bs (Z.of_nat n)
                <? Z.of_nat n)
               = (Z.to_nat (Z.max 1 (Z.of_nat n / bs))
                  * Z.to_nat (Z.min bs (Z.of_nat n)) <? n)%nat).
  { destruct (Z.ltb_spec (Z.max 1 (Z.of_nat n / bs) * Z.min bs (Z.of_nat n))
                         (Z.of_nat n));
      destruct (Nat.ltb_spec (Z.to_nat (Z.max 1 (Z.of_nat n / bs))
                              * Z.to_nat (Z.min bs (Z.of_nat n))) n);
      try reflexivity; nia. }
  rewrite Tr. reflexivity.
Qed.

Lemma dataloader_len_counts_full_batches_witness :
  exists batches,
    fst (DataLoaders.__call__ no_draw five_samples) = Ok batches /\
    DataLoaders.__len__ five_samples = Ok 2 /\
    List.length batches = 3%nat.
Proof.
  destruct (dataloader_len_counts_full_batches nat bool no_draw five_samples)
    as (batches & k & C & L & _ & N).
  - cbn. lia.
  - exists batches. split; [exact C|]. split; [reflexivity|].
    injection L as <-. exact N.
Defined.
